(** * Dataset loaders of the Hugging Face fine-tuning bolts

    A shallow embedding of

    - [HuggingFaceClassificationFineTuner.load_dataset] and its inner
      [tokenize_function] (huggingface/classification.py), and
    - [HuggingFaceCommonsenseReasoningFineTuner.load_dataset] and
      [prepare_train_features] (huggingface/commonsense_reasoning.py).

    Both methods mutate [self] and talk to the file system and to third-party
    libraries.  The embedding threads an explicit [state] (the attributes of
    [self] the methods touch, the log, the open resource handles and a trace of
    the external calls made) through a small state-and-exception monad; the
    third-party functions (os, json, yaml, pandas, pyarrow, sqlite3,
    ElementTree, datasets) are the fields of a [World] the definitions are
    parameterised by, and the tokenizer is a function stored in [self]. *)

From stdpp Require Import base numbers strings list.

Open Scope string_scope.
Open Scope list_scope.
Open Scope Z_scope.

(** ** Python values *)

(** The values found in the cells of a record: strings, integers, [None]
    and lists of integers (token ids).  Floats are not modelled. *)
Inductive value :=
  | VStr (s : string)
  | VInt (z : Z)
  | VNone
  | VList (l : list Z).

#[global] Instance value_eq_dec : EqDecision value.
Proof. solve_decision. Defined.

(** [hash(v)] succeeds on everything but a list. *)
Definition hashable (v : value) : bool :=
  match v with
  | VList _ => false
  | _ => true
  end.

(** ** Exceptions and results *)

Inductive exn :=
  | KeyError (key : value)
  | TypeError (msg : string)
  | AttributeError (msg : string)
  | ValueError (msg : string)
  | Exception_ (msg : string)
  | LibraryError (origin msg : string).

Inductive result (A : Type) :=
  | Ok (a : A)
  | Raise (e : exn).
Arguments Ok {A} a.
Arguments Raise {A} e.

Definition is_ok {A} (r : result A) : bool :=
  match r with Ok _ => true | Raise _ => false end.

(** ** Python dictionaries

    A [dict] keeps its items in insertion order; assigning to a key that is
    already there replaces the value and keeps the key's position. *)
Module PyDict.
Section dict.
Context {K V : Type} `{EqDecision K}.

Definition t := list (K * V).

Fixpoint get (d : t) (k : K) : option V :=
  match d with
  | [] => None
  | (k', v) :: d' => if decide (k' = k) then Some v else get d' k
  end.

Fixpoint set (d : t) (k : K) (v : V) : t :=
  match d with
  | [] => [(k, v)]
  | (k', v') :: d' =>
      if decide (k' = k) then (k', v) :: d' else (k', v') :: set d' k v
  end.

Definition mem (d : t) (k : K) : bool :=
  match get d k with Some _ => true | None => false end.

Definition keys (d : t) : list K := d.*1.
Definition values (d : t) : list V := d.*2.
Definition items (d : t) : list (K * V) := d.

(** [del d[k]] for the keys of [ks] that are present. *)
Definition remove_keys (ks : list K) (d : t) : t :=
  filter (λ kv, kv.1 ∉ ks) d.

(** [d.update(d')] *)
Definition update (d d' : t) : t :=
  foldl (λ acc kv, set acc kv.1 kv.2) d d'.

(** [d1 == d2]: the same keys with the same values, in any order. *)
Definition eqb `{EqDecision V} (d1 d2 : t) : bool :=
  bool_decide (length d1 = length d2) &&
  forallb (λ kv, bool_decide (get d2 kv.1 = Some kv.2)) d1.
End dict.
Arguments t : clear implicits.
End PyDict.

Abbreviation dict := PyDict.t.

(** A record is a dict of named cells; a batch (and a tokenizer's encoding,
    and an Arrow table) is a dict of named columns. *)
Definition record := dict string value.
Definition batch := dict string (list value).

(** [d[k]] on a dict with string keys. *)
Definition getitem {V} (d : dict string V) (k : string) : result V :=
  match PyDict.get d k with
  | Some v => Ok v
  | None => Raise (KeyError (VStr k))
  end.

(** ** Strings and paths *)

(** [s.endswith(suffix)] *)
Definition endswith (s suffix : string) : bool :=
  let n := String.length s in
  let m := String.length suffix in
  if (m <=? n)%nat then bool_decide (String.substring (n - m) m s = suffix) else false.

Definition startswith (s pre : string) : bool := String.prefix pre s.

(** [os.path.join(a, p)] of posixpath, for two components. *)
Definition path_join (a p : string) : string :=
  if startswith p "/" then p
  else if bool_decide (a = "") || endswith a "/" then a +:+ p
  else a +:+ "/" +:+ p.

(** ** The tokenizer

    [self.tokenizer(text, text_pair, padding=..., truncation=...,
    max_length=...)]: the arguments the two feature preparers pass, and an
    encoding (named columns, one entry per input row) or an exception back. *)
Inductive padding_strategy :=
  | PaddingFalse
  | PaddingMaxLength.

Record tokenizer_call := {
  tc_text : list value;
  tc_text_pair : option (list value);
  tc_padding : padding_strategy;
  tc_truncation : bool;
  tc_max_length : option Z;
}.

Definition Tokenizer := tokenizer_call → result batch.

(** ** The state the loaders act on *)

(** [self.model.config], reduced to its two label maps. *)
Record Config := {
  label2id : option (dict value Z);
  id2label : option (dict Z value);
}.

Inductive collator :=
  | DataCollatorWithPadding (tokenizer : option Tokenizer).

Inductive log_entry :=
  | LogInfo (msg : string)
  | LogWarning (msg : string)
  | LogError (msg : string) (e : exn)
  | Stdout (msg : string) (e : exn).

(** A resource the operating system hands out: an open file or an open
    sqlite3 connection, named by the path it was opened on. *)
Inductive handle :=
  | FileHandle (filepath : string)
  | SqliteConnection (filepath : string).

#[global] Instance handle_eq_dec : EqDecision handle.
Proof. solve_decision. Defined.

(** One entry per call that leaves the module. *)
Inductive event :=
  | EvCall (function arg : string)
  | EvTokenize (c : tokenizer_call).

Record state := {
  tokenizer : option Tokenizer;        (* self.tokenizer *)
  model : option Config;               (* self.model (its config) *)
  label_to_id : option (dict value Z); (* self.label_to_id *)
  data_collator : option collator;     (* self.data_collator *)
  log : list log_entry;
  handles : list handle;               (* acquired and not yet released *)
  trace : list event;                  (* oldest first *)
}.

(** ** The monad: state and exceptions *)

Definition M (A : Type) : Type := state → result A * state.

Definition ret {A} (a : A) : M A := λ st, (Ok a, st).
Definition raise {A} (e : exn) : M A := λ st, (Raise e, st).
Definition bind {A B} (m : M A) (k : A → M B) : M B :=
  λ st, match m st with
        | (Ok a, st') => k a st'
        | (Raise e, st') => (Raise e, st')
        end.

Declare Scope py_scope.
Delimit Scope py_scope with py.
Notation "'let*' x ':=' m 'in' k" := (bind m (λ x, k))
  (at level 10, x name, m at level 100, k at level 200) : py_scope.
Notation "m ';;' k" := (bind m (λ _, k))
  (at level 100, k at level 200, right associativity) : py_scope.
Open Scope py_scope.

(** A value computed without touching the state. *)
Definition lift {A} (r : result A) : M A := λ st, (r, st).

Definition gets {A} (f : state → A) : M A := λ st, (Ok (f st), st).
Definition modify (f : state → state) : M unit := λ st, (Ok tt, f st).

(** [try: m except Exception as e: h e] *)
Definition try_except {A} (m : M A) (h : exn → M A) : M A :=
  λ st, match m st with
        | (Ok a, st') => (Ok a, st')
        | (Raise e, st') => h e st'
        end.

(** [try: m finally: c] *)
Definition finally {A} (m : M A) (c : state → state) : M A :=
  λ st, let '(r, st') := m st in (r, c st').

(** [for x in xs: acc = body x acc] *)
Fixpoint for_each {A B} (xs : list A) (body : A → B → M B) (acc : B) : M B :=
  match xs with
  | [] => ret acc
  | x :: xs' => let* acc' := body x acc in for_each xs' body acc'
  end.

(** [[f x for x in xs]] *)
Fixpoint comprehension {A B} (f : A → M B) (xs : list A) : M (list B) :=
  match xs with
  | [] => ret []
  | x :: xs' =>
      let* y := f x in
      let* ys := comprehension f xs' in
      ret (y :: ys)
  end.

(** *** State updates *)

Definition set_label_to_id (v : option (dict value Z)) (st : state) : state :=
  {| tokenizer := tokenizer st; model := model st; label_to_id := v;
     data_collator := data_collator st; log := log st; handles := handles st;
     trace := trace st |}.

Definition set_data_collator (c : collator) (st : state) : state :=
  {| tokenizer := tokenizer st; model := model st;
     label_to_id := label_to_id st; data_collator := Some c; log := log st;
     handles := handles st; trace := trace st |}.

Definition set_model (m : option Config) (st : state) : state :=
  {| tokenizer := tokenizer st; model := m; label_to_id := label_to_id st;
     data_collator := data_collator st; log := log st; handles := handles st;
     trace := trace st |}.

Definition add_log (l : log_entry) (st : state) : state :=
  {| tokenizer := tokenizer st; model := model st;
     label_to_id := label_to_id st; data_collator := data_collator st;
     log := log st ++ [l]; handles := handles st; trace := trace st |}.

Definition add_event (ev : event) (st : state) : state :=
  {| tokenizer := tokenizer st; model := model st;
     label_to_id := label_to_id st; data_collator := data_collator st;
     log := log st; handles := handles st; trace := trace st ++ [ev] |}.

Definition acquire (h : handle) (st : state) : state :=
  {| tokenizer := tokenizer st; model := model st;
     label_to_id := label_to_id st; data_collator := data_collator st;
     log := log st; handles := h :: handles st; trace := trace st |}.

Fixpoint remove_first (h : handle) (hs : list handle) : list handle :=
  match hs with
  | [] => []
  | h' :: hs' => if decide (h' = h) then hs' else h' :: remove_first h hs'
  end.

Definition release (h : handle) (st : state) : state :=
  {| tokenizer := tokenizer st; model := model st;
     label_to_id := label_to_id st; data_collator := data_collator st;
     log := log st; handles := remove_first h (handles st);
     trace := trace st |}.

(** A call of a library function: it is recorded in the trace, and its
    outcome becomes the outcome of the computation. *)
Definition call {A} (function arg : string) (r : result A) : M A :=
  modify (add_event (EvCall function arg));; lift r.

(** ** The world outside the module

    What the file system and the libraries answer.  Each field stands for
    the call named in its comment, with the arguments the loaders pass; a
    table reader stands for the read followed by [to_dict("records")]. *)

(** An element of an XML tree: its children, as tag and [.text]. *)
Definition xml_element := list (string * option string).

(** [record.find(tag)]: the first child with that tag. *)
Definition xml_find (el : xml_element) (tag : string) : option (option string) :=
  PyDict.get el tag.

Record World := {
  isfile : string → bool;                            (* os.path.isfile *)
  listdir : string → result (list string);           (* os.listdir *)
  open_r : string → result (list string);            (* open(p, "r"): the lines *)
  json_loads : string → result record;               (* json.loads(line) *)
  json_load : list string → result (list record);    (* json.load(f) *)
  yaml_safe_load : list string → result (list record); (* yaml.safe_load(f) *)
  read_csv : string → string → result (list record); (* pd.read_csv(p, sep=...) *)
  read_parquet : string → result (list record);      (* pq.read_table(p).to_pandas() *)
  read_excel : string → result (list record);        (* pd.read_excel(p) *)
  read_feather : string → result (list record);      (* feather.read_feather(p) *)
  et_parse : string → result (list xml_element);     (* ET.parse(p).getroot().findall("record") *)
  py_int : option string → result Z;                 (* int(text) *)
  sqlite3_connect : string → result unit;            (* sqlite3.connect(p) *)
  read_sql_query : string → string → result (list record); (* pd.read_sql_query(query, conn) *)
  load_from_disk : string → result batch;            (* datasets.load_from_disk(p) *)
  from_pandas : list record → result batch;          (* Dataset.from_pandas(pd.DataFrame(data)) *)
}.

(** ** [datasets.Dataset] and its batched [map]

    A dataset is a table held by columns.  [Dataset.map(f, batched=True,
    remove_columns=cols)] does not call [f] on a dataset without rows and
    returns it without [cols]; otherwise it calls [f] on consecutive slices
    of [batch_size] rows, in order, drops [cols] from the table and writes
    the columns [f] returned into it. *)
Definition Dataset := batch.

Definition num_rows (ds : Dataset) : nat :=
  match ds with
  | [] => 0
  | (_, col) :: _ => length col
  end.

Definition column_names (ds : Dataset) : list string := PyDict.keys ds.

Definition batch_size : nat := 1000.

Definition slice_rows (i : nat) (ds : Dataset) : batch :=
  prod_map id (λ col, take batch_size (drop (i * batch_size) col)) <$> ds.

Definition num_batches (ds : Dataset) : nat :=
  ((num_rows ds + (batch_size - 1)) / batch_size)%nat.

Definition batches (ds : Dataset) : list batch :=
  (λ i, slice_rows i ds) <$> seq 0 (num_batches ds).

Definition append_batch (acc out : batch) : batch :=
  foldl (λ acc kc, PyDict.set acc kc.1 (default [] (PyDict.get acc kc.1) ++ kc.2))
        acc out.

Definition concat_batches (outs : list batch) : batch :=
  foldl append_batch [] outs.

Definition Dataset_map (f : batch → M batch) (remove_columns : list string)
    (ds : Dataset) : M Dataset :=
  if bool_decide (num_rows ds = 0%nat)
  then ret (PyDict.remove_keys remove_columns ds)
  else
    let* outs := comprehension f (batches ds) in
    ret (PyDict.update (PyDict.remove_keys remove_columns ds)
                       (concat_batches outs)).

(** ** Reading the files of a directory

    The two loaders walk the directory with the same chain of [elif]s.  The
    chains differ in two places only: the cells taken from an XML [record]
    element and the query sent to a [.db] file; they are the parameters
    [xml_example] and [query]. *)

Definition tab : string := String (Ascii.ascii_of_nat 9) "".

Section files.
Variable W : World.

Definition call_tokenizer (t : Tokenizer) (c : tokenizer_call) : M batch :=
  modify (add_event (EvTokenize c));; lift (t c).

(** [with open(filepath, "r") as f: body] *)
Definition with_open {A} (filepath : string) (body : list string → M A) : M A :=
  let* lines := call "open" filepath (open_r W filepath) in
  modify (acquire (FileHandle filepath));;
  finally (body lines) (release (FileHandle filepath)).

Variable xml_example : xml_element → M record.
Variable query : string.

(** One turn of [for filename in os.listdir(dataset_path)]; [data] is the
    list the loop appends to. *)
Definition load_file (dataset_path filename : string) (data : list record)
    : M (list record) :=
  let filepath := path_join dataset_path filename in
  if endswith filename ".jsonl" then
    with_open filepath (λ lines,
      for_each lines (λ line data,
        let* example := call "json.loads" line (json_loads W line) in
        ret (data ++ [example])) data)
  else if endswith filename ".csv" then
    let* df := call "pd.read_csv" filepath (read_csv W "," filepath) in
    ret (data ++ df)
  else if endswith filename ".parquet" then
    let* df := call "pq.read_table" filepath (read_parquet W filepath) in
    ret (data ++ df)
  else if endswith filename ".json" then
    with_open filepath (λ lines,
      let* json_data := call "json.load" filepath (json_load W lines) in
      ret (data ++ json_data))
  else if endswith filename ".xml" then
    let* records := call "ET.parse" filepath (et_parse W filepath) in
    for_each records (λ element data,
      let* example := xml_example element in
      ret (data ++ [example])) data
  else if endswith filename ".yaml" || endswith filename ".yml" then
    with_open filepath (λ lines,
      let* yaml_data := call "yaml.safe_load" filepath (yaml_safe_load W lines) in
      ret (data ++ yaml_data))
  else if endswith filename ".tsv" then
    let* df := call "pd.read_csv" filepath (read_csv W tab filepath) in
    ret (data ++ df)
  else if endswith filename ".xls" || endswith filename ".xlsx" then
    let* df := call "pd.read_excel" filepath (read_excel W filepath) in
    ret (data ++ df)
  else if endswith filename ".db" then
    call "sqlite3.connect" filepath (sqlite3_connect W filepath);;
    modify (acquire (SqliteConnection filepath));;
    let* df := call "pd.read_sql_query" filepath (read_sql_query W query filepath) in
    ret (data ++ df)
  else if endswith filename ".feather" then
    let* df := call "feather.read_feather" filepath (read_feather W filepath) in
    ret (data ++ df)
  else ret data.

(** [data = []; for filename in os.listdir(dataset_path): ...] *)
Definition load_files (dataset_path : string) : M (list record) :=
  let* filenames := call "os.listdir" dataset_path (listdir W dataset_path) in
  for_each filenames (load_file dataset_path) [].

(** [os.path.isfile(os.path.join(dataset_path, "dataset_info.json"))] *)
Definition has_marker (dataset_path : string) : M bool :=
  let p := path_join dataset_path "dataset_info.json" in
  call "os.path.isfile" p (Ok (isfile W p)).
End files.

(** [record.find(tag).text] *)
Definition find_text (element : xml_element) (tag : string) : result (option string) :=
  match xml_find element tag with
  | Some text => Ok text
  | None => Raise (AttributeError "'NoneType' object has no attribute 'text'")
  end.

Definition value_of_text (text : option string) : value :=
  match text with
  | Some s => VStr s
  | None => VNone
  end.

(** ** huggingface/classification.py *)
Module Classification.

(** [{label: i for i, label in enumerate(example["label"] for example in
    data)}]: the generator is consumed by the comprehension, one example
    at a time; [i] is the index of the example and [acc] the dict so far. *)
Fixpoint enumerate_labels (i : Z) (data : list record) (acc : dict value Z)
    : result (dict value Z) :=
  match data with
  | [] => Ok acc
  | example :: rest =>
      match getitem example "label" with
      | Raise e => Raise e
      | Ok label =>
          if hashable label
          then enumerate_labels (i + 1) rest (PyDict.set acc label i)
          else Raise (TypeError "unhashable type: 'list'")
      end
  end.

Definition make_label_to_id (data : list record) : result (dict value Z) :=
  enumerate_labels 0 data [].

(** [{i: label for label, i in label_to_id.items()}] *)
Definition make_id2label (label_to_id : dict value Z) : dict Z value :=
  foldl (λ acc li, PyDict.set acc li.2 li.1) [] (PyDict.items label_to_id).

(** [self.model.config.label2id != self.label_to_id] *)
Definition label2id_differs (old : option (dict value Z)) (new : dict value Z) : bool :=
  match old with
  | Some d => negb (PyDict.eqb d new)
  | None => true
  end.

(** The value [self.label_to_id] gets before the [try]. *)
Definition initial_label_to_id (m : option Config) : option (dict value Z) :=
  match m with
  | Some config =>
      match label2id config with
      | Some (_ :: _) => label2id config
      | _ => None
      end
  | None => None
  end.

(** [self.label_to_id[label]] *)
Definition lookup_label (label : value) : M value :=
  let* label_to_id := gets label_to_id in
  match label_to_id with
  | None => raise (TypeError "'NoneType' object is not subscriptable")
  | Some d =>
      if hashable label then
        match PyDict.get d label with
        | Some i => ret (VInt i)
        | None => raise (KeyError label)
        end
      else raise (TypeError "unhashable type: 'list'")
  end.

Definition tokenize_function (examples : batch) : M batch :=
  let* tokenizer := gets tokenizer in
  let* text := lift (getitem examples "text") in
  let* tokenized_data :=
    match tokenizer with
    | Some t =>
        call_tokenizer t {| tc_text := text; tc_text_pair := None;
                            tc_padding := PaddingMaxLength;
                            tc_truncation := true;
                            tc_max_length := Some 512 |}
    | None => raise (TypeError "'NoneType' object is not callable")
    end in
  let* labels := lift (getitem examples "label") in
  let* ids := comprehension lookup_label labels in
  ret (PyDict.set tokenized_data "label" ids).

Section loader.
Variable W : World.

Definition xml_example (element : xml_element) : M record :=
  let* text := lift (find_text element "text") in
  let* label := lift (find_text element "label") in
  ret [("text", value_of_text text); ("label", value_of_text label)].

Definition query : string := "SELECT text, label FROM dataset_table;".

(** The body of the [else] branch up to the [return]: the label index
    is derived and written to [self] and to the model's config. *)
Definition update_labels (data : list record) : M unit :=
  let* new := lift (make_label_to_id data) in
  modify (set_label_to_id (Some new));;
  let* m := gets model in
  match m with
  | Some config =>
      (if label2id_differs (label2id config) new
       then modify (add_log (LogWarning "New labels detected, ignore if fine-tuning"))
       else ret tt);;
      modify (set_model (Some {| label2id := Some new;
                                 id2label := Some (make_id2label new) |}))
  | None => ret tt
  end.

Definition load_dataset (dataset_path : string) : M Dataset :=
  let* tokenizer := gets tokenizer in
  modify (set_data_collator (DataCollatorWithPadding tokenizer));;
  let* m := gets model in
  modify (set_label_to_id (initial_label_to_id m));;
  try_except
    (modify (add_log (LogInfo ("Loading dataset from " +:+ dataset_path)));;
     let* marker := has_marker W dataset_path in
     if marker : bool then
       let* ds := call "load_from_disk" dataset_path (load_from_disk W dataset_path) in
       Dataset_map tokenize_function [] ds
     else
       let* data := load_files W xml_example query dataset_path in
       update_labels data;;
       let* ds := call "Dataset.from_pandas" dataset_path (from_pandas W data) in
       Dataset_map tokenize_function [] ds)
    (λ e,
       modify (add_log (LogError ("Error occurred when loading dataset from "
                                    +:+ dataset_path) e));;
       raise e).
End loader.
End Classification.

(** ** huggingface/commonsense_reasoning.py *)
Module CommonsenseReasoning.

Definition prepare_train_features (examples : batch) : M batch :=
  try_except
    (let* tokenizer := gets tokenizer in
     match tokenizer with
     | None => raise (Exception_ "Tokenizer not initialized")
     | Some t =>
         let* premise := lift (getitem examples "premise") in
         let* hypothesis := lift (getitem examples "hypothesis") in
         let* tokenized_inputs :=
           call_tokenizer t {| tc_text := premise;
                               tc_text_pair := Some hypothesis;
                               tc_padding := PaddingFalse;
                               tc_truncation := true;
                               tc_max_length := None |} in
         let* labels := lift (getitem examples "label") in
         ret (PyDict.set tokenized_inputs "labels" labels)
     end)
    (λ e, modify (add_log (Stdout "Error preparing train features" e));; raise e).

Section loader.
Variable W : World.

Definition xml_example (element : xml_element) : M record :=
  let* premise := lift (find_text element "premise") in
  let* hypothesis := lift (find_text element "hypothesis") in
  let* label_text := lift (find_text element "label") in
  let* label := call "int" (default "" label_text) (py_int W label_text) in
  ret [("premise", value_of_text premise);
       ("hypothesis", value_of_text hypothesis);
       ("label", VInt label)].

Definition query : string := "SELECT premise, hypothesis, label FROM dataset_table;".

Definition load_dataset (dataset_path : string) : M Dataset :=
  try_except
    (let* marker := has_marker W dataset_path in
     if marker : bool then
       let* dataset := call "load_from_disk" dataset_path (load_from_disk W dataset_path) in
       Dataset_map prepare_train_features (column_names dataset) dataset
     else
       let* data := load_files W xml_example query dataset_path in
       let* dataset := call "Dataset.from_pandas" dataset_path (from_pandas W data) in
       Dataset_map prepare_train_features (column_names dataset) dataset)
    (λ e, modify (add_log (Stdout "Error loading dataset" e));; raise e).
End loader.
End CommonsenseReasoning.

(** ** Test fixtures: a directory on disk, as a [World] *)
Module Fixture.

(** What a file holds, as what the reader of its format makes of it. *)
Inductive content :=
  | Table (rows : result (list record))
      (* .csv .tsv .parquet .feather .xls .xlsx .json .yaml .yml *)
  | Lines (lines : list (string * result record))
      (* .jsonl: each line with what [json.loads] returns on it *)
  | Xml (records : result (list xml_element))
  | Database (table : result (list record))
  | Other.

Record directory := {
  dir_path : string;
  dir_snapshot : option (result Dataset);  (* [Some] when the marker file exists *)
  dir_files : list (string * content);     (* in [os.listdir] order *)
}.

Definition not_found {A} (p : string) : result A :=
  Raise (LibraryError "FileNotFoundError" p).

Definition file_at (d : directory) (p : string) : option content :=
  snd <$> List.find (λ f, bool_decide (path_join (dir_path d) f.1 = p)) (dir_files d).

Definition table_at (d : directory) (p : string) : result (list record) :=
  match file_at d p with
  | Some (Table rows) => rows
  | Some (Database table) => table
  | Some _ => Raise (LibraryError "ParserError" p)
  | None => not_found p
  end.

Definition all_lines (d : directory) : list (string * result record) :=
  (dir_files d) ≫= (λ f, match f.2 with Lines ls => ls | _ => [] end).

(** [pd.DataFrame(data)] as a table: the columns are the keys in
    first-seen order, a missing cell is null. *)
Definition frame_columns (data : list record) : list string :=
  foldl (λ cols r, foldl (λ cols k, if bool_decide (k ∈ cols) then cols else cols ++ [k])
                         cols (PyDict.keys r)) [] data.

Definition frame (data : list record) : Dataset :=
  (λ k, (k, (λ r, default VNone (PyDict.get r k)) <$> data)) <$> frame_columns data.

Definition digit_of (a : Ascii.ascii) : option Z :=
  let n := Z.of_nat (Ascii.nat_of_ascii a) in
  if bool_decide (48 ≤ n ≤ 57) then Some (n - 48) else None.

Fixpoint digits (s : string) (acc : Z) : option Z :=
  match s with
  | EmptyString => Some acc
  | String a s' =>
      match digit_of a with
      | Some n => digits s' (10 * acc + n)
      | None => None
      end
  end.

Definition int_of (text : option string) : result Z :=
  match text with
  | None => Raise (TypeError "int() argument must be a string, not 'NoneType'")
  | Some EmptyString => Raise (ValueError "invalid literal for int()")
  | Some s =>
      match digits s 0 with
      | Some z => Ok z
      | None => Raise (ValueError "invalid literal for int()")
      end
  end.

(** The content of a file read as a whole is kept abstract: [open] yields
    the path as its only line, and the parsers look the path up. *)
Definition world_of (d : directory) : World := {|
  isfile p :=
    bool_decide (p = path_join (dir_path d) "dataset_info.json") &&
    bool_decide (is_Some (dir_snapshot d));
  listdir p :=
    if bool_decide (p = dir_path d) then Ok (dir_files d).*1 else not_found p;
  open_r p :=
    match file_at d p with
    | Some (Lines ls) => Ok ls.*1
    | Some _ => Ok [p]
    | None => not_found p
    end;
  json_loads line :=
    default (Raise (LibraryError "JSONDecodeError" line))
            (PyDict.get (all_lines d) line);
  json_load lines := table_at d (default "" (head lines));
  yaml_safe_load lines := table_at d (default "" (head lines));
  read_csv sep p := table_at d p;
  read_parquet p := table_at d p;
  read_excel p := table_at d p;
  read_feather p := table_at d p;
  et_parse p :=
    match file_at d p with
    | Some (Xml records) => records
    | Some _ => Raise (LibraryError "ParseError" p)
    | None => not_found p
    end;
  py_int := int_of;
  sqlite3_connect p := Ok tt;
  read_sql_query q p := table_at d p;
  load_from_disk p :=
    if bool_decide (p = dir_path d)
    then default (not_found p) (dir_snapshot d)
    else not_found p;
  from_pandas data := Ok (frame data);
|}.

(** A tokenizer that encodes a text as the list of its character codes. *)
Definition codes (v : value) : value :=
  match v with
  | VStr s => VList ((λ a, Z.of_nat (Ascii.nat_of_ascii a)) <$> String.list_ascii_of_string s)
  | _ => VList []
  end.

Definition char_tokenizer : Tokenizer :=
  λ c, Ok [("input_ids", codes <$> tc_text c)].

(** A fresh bolt. *)
Definition bolt (t : option Tokenizer) (m : option Config) : state := {|
  tokenizer := t; model := m; label_to_id := None; data_collator := None;
  log := []; handles := []; trace := [];
|}.

Definition example (text label : string) : record :=
  [("text", VStr text); ("label", VStr label)].

Definition pair (premise hypothesis : string) (label : Z) : record :=
  [("premise", VStr premise); ("hypothesis", VStr hypothesis); ("label", VInt label)].

Definition no_labels : Config := {| label2id := None; id2label := None |}.
End Fixture.

(** * Vocabulary of the statements *)

(** What holds of the dict while the comprehension runs: the keys are
    distinct, the ids are distinct, and every id is an index already
    passed. *)
Record index_inv (i : Z) (d : dict value Z) : Prop := {
  inv_keys : NoDup d.*1;
  inv_ids : NoDup d.*2;
  inv_range : ∀ j, j ∈ d.*2 → 0 ≤ j < i;
}.


(** The footprint of reading: [tr] is appended to the trace and [hs] are
    the handles acquired and kept; nothing else changes. *)
Definition touch (tr : list event) (hs : list handle) (st : state) : state :=
  {| tokenizer := tokenizer st; model := model st;
     label_to_id := label_to_id st; data_collator := data_collator st;
     log := log st; handles := hs ++ handles st; trace := trace st ++ tr |}.

(** [m] returns [r], whatever the state, and its footprint is [tr], [hs]. *)
Definition io {A} (m : M A) (r : result A) (tr : list event) (hs : list handle) : Prop :=
  ∀ st, m st = (r, touch tr hs st).

Definition is_connection (h : handle) : Prop :=
  match h with
  | SqliteConnection _ => True
  | FileHandle _ => False
  end.

(** A computation that only reads the world: its outcome does not depend
    on the state, and the only handles it keeps are sqlite3 connections. *)
Definition reads {A} (m : M A) : Prop :=
  ∃ r tr hs, Forall is_connection hs ∧ io m r tr hs.

(** The extensions the loaders decode. *)
Definition recognized_extensions : list string :=
  [".jsonl"; ".json"; ".csv"; ".tsv"; ".parquet"; ".feather"; ".xls"; ".xlsx";
   ".xml"; ".yaml"; ".yml"; ".db"].

Definition recognized (filename : string) : bool :=
  existsb (endswith filename) recognized_extensions.

Definition is_tokenize (ev : event) : Prop :=
  match ev with
  | EvTokenize _ => True
  | EvCall _ _ => False
  end.

(** An Arrow table: every column has as many cells as the table has rows. *)
Definition table (ds : Dataset) : Prop :=
  Forall (λ kc, length kc.2 = num_rows ds) ds.

(** The two bolts. *)
Inductive task :=
  | TextClassification
  | PairReasoning.

Definition load_dataset_of (t : task) : World → string → M Dataset :=
  match t with
  | TextClassification => Classification.load_dataset
  | PairReasoning => CommonsenseReasoning.load_dataset
  end.

Definition load_file_of (t : task) (W : World) : string → string → list record → M (list record) :=
  match t with
  | TextClassification => load_file W Classification.xml_example Classification.query
  | PairReasoning =>
      load_file W (CommonsenseReasoning.xml_example W) CommonsenseReasoning.query
  end.

Definition load_files_of (t : task) (W : World) : string → M (list record) :=
  match t with
  | TextClassification => load_files W Classification.xml_example Classification.query
  | PairReasoning =>
      load_files W (CommonsenseReasoning.xml_example W) CommonsenseReasoning.query
  end.

(** The feature preparer [Dataset.map] is given, and the columns it is told
    to remove. *)
Definition preparer_of (t : task) : batch → M batch :=
  match t with
  | TextClassification => Classification.tokenize_function
  | PairReasoning => CommonsenseReasoning.prepare_train_features
  end.

Definition removed_of (t : task) (ds : Dataset) : list string :=
  match t with
  | TextClassification => []
  | PairReasoning => column_names ds
  end.

Definition marker_of (dataset_path : string) : string :=
  path_join dataset_path "dataset_info.json".

(** The state when the [try] block is entered: the classification loader
    has set its collator and captured the model's label map, and has logged
    that it starts. *)
Definition entry (t : task) (dataset_path : string) (st : state) : state :=
  match t with
  | TextClassification =>
      add_log (LogInfo ("Loading dataset from " +:+ dataset_path))
        (set_label_to_id (Classification.initial_label_to_id (model st))
           (set_data_collator (DataCollatorWithPadding (tokenizer st)) st))
  | PairReasoning => st
  end.

(** What the [except] clause of [load_dataset] writes. *)
Definition error_entry (t : task) (dataset_path : string) (e : exn) : log_entry :=
  match t with
  | TextClassification =>
      LogError ("Error occurred when loading dataset from " +:+ dataset_path) e
  | PairReasoning => Stdout "Error loading dataset" e
  end.

(** The [except] clause, applied to an outcome. *)
Definition logged {A} (entry : exn → log_entry) (x : result A * state) : result A * state :=
  match x with
  | (Raise e, st) => (Raise e, add_log (entry e) st)
  | ok => ok
  end.

(** What a feature preparer may do to the state: call the tokenizer and
    write to the log. *)
Definition prepared (st st' : state) : Prop :=
  ∃ tr, Forall is_tokenize tr ∧ trace st' = trace st ++ tr ∧
        model st' = model st ∧ handles st' = handles st ∧
        tokenizer st' = tokenizer st ∧ label_to_id st' = label_to_id st.

Definition prepares {A} (m : M A) : Prop := ∀ st, prepared st (m st).2.

(** ** Directories used as examples *)
Module Examples.
Import Fixture.

(** A snapshot of one pair, next to a [.jsonl] file that is not JSON. *)
Definition snapshot_dir : directory := {|
  dir_path := "data";
  dir_snapshot := Some (Ok [("premise", [VStr "it rains"]);
                            ("hypothesis", [VStr "it is wet"]);
                            ("label", [VInt 1])]);
  dir_files := [("dataset_info.json", Other);
                ("broken.jsonl", Lines [("{", Raise (LibraryError "JSONDecodeError" "{"))])];
|}.

(** Three reviews, two of them with the same label. *)
Definition reviews_dir : directory := {|
  dir_path := "data";
  dir_snapshot := None;
  dir_files := [("train.csv", Table (Ok [example "ok" "pos"; example "bad" "neg";
                                         example "fine" "pos"]))];
|}.

(** A good file, then a [.jsonl] file whose second line is not JSON. *)
Definition broken_dir : directory := {|
  dir_path := "data";
  dir_snapshot := None;
  dir_files := [("a.csv", Table (Ok [example "ok" "pos"]));
                ("b.jsonl", Lines [("line 1", Ok (example "bad" "neg"));
                                   ("{", Raise (LibraryError "JSONDecodeError" "{"))]);
                ("c.csv", Table (Ok [example "fine" "pos"]))];
|}.

(** Two pairs in a [.jsonl] file, and a file the loaders do not know. *)
Definition pairs_dir : directory := {|
  dir_path := "data";
  dir_snapshot := None;
  dir_files := [("train.jsonl", Lines [("line 1", Ok (pair "it rains" "it is wet" 1));
                                       ("line 2", Ok (pair "it rains" "it is dry" 0))]);
                ("README.md", Other)];
|}.

(** A database with the table, and one without. *)
Definition database_dir : directory := {|
  dir_path := "data";
  dir_snapshot := None;
  dir_files := [("train.db", Database (Ok [pair "it rains" "it is wet" 1]))];
|}.

Definition no_table_dir : directory := {|
  dir_path := "data";
  dir_snapshot := None;
  dir_files := [("train.db", Database (Raise (LibraryError "DatabaseError"
                                                "no such table: dataset_table")))];
|}.

(** A snapshot of two reviews. *)
Definition reviews_snapshot_dir : directory := {|
  dir_path := "data";
  dir_snapshot := Some (Ok [("text", [VStr "ok"; VStr "bad"]);
                            ("label", [VStr "pos"; VStr "neg"])]);
  dir_files := [("dataset_info.json", Other)];
|}.

Definition snapshot_world : World := world_of snapshot_dir.
Definition reviews_world : World := world_of reviews_dir.
Definition broken_world : World := world_of broken_dir.
Definition pairs_world : World := world_of pairs_dir.
Definition database_world : World := world_of database_dir.
Definition no_table_world : World := world_of no_table_dir.
Definition reviews_snapshot_world : World := world_of reviews_snapshot_dir.

(** A bolt with neither tokenizer nor model, one with a tokenizer, and one
    with a tokenizer and a model that has no labels yet. *)
Definition bare_bolt : state := bolt None None.
Definition tokenizer_bolt : state := bolt (Some char_tokenizer) None.
Definition model_bolt : state := bolt (Some char_tokenizer) (Some no_labels).
End Examples.

(** Calls that look at the directory without reading a record. *)
Definition inspects (ev : event) : Prop :=
  match ev with
  | EvCall function _ => function = "os.path.isfile" ∨ function = "os.listdir"
  | EvTokenize _ => False
  end.

(** The reading of C7 that the loaders do not satisfy: with no tokenizer,
    [load_dataset] raises, and has by then done no more than inspect the
    directory. *)
Definition raised_before_processing (t : task) (W : World) (dataset_path : string)
    (st : state) : Prop :=
  ∃ e, (load_dataset_of t W dataset_path st).1 = Raise e ∧
       ∀ ev, ev ∈ trace (load_dataset_of t W dataset_path st).2 →
             ev ∈ trace st ∨ inspects ev.

(** What a feature preparer raises on a batch when the tokenizer is
    missing. *)
Definition preparation_error (t : task) (examples : batch) : exn :=
  match t with
  | PairReasoning => Exception_ "Tokenizer not initialized"
  | TextClassification =>
      match getitem examples "text" with
      | Ok _ => TypeError "'NoneType' object is not callable"
      | Raise e => e
      end
  end.

(** ** Snapshots used as examples *)
Module SnapshotExamples.
Import Fixture.

(** A model whose configuration already maps the labels of the reviews. *)
Definition sentiment : Config := {|
  label2id := Some [(VStr "pos", 0); (VStr "neg", 1)];
  id2label := Some [(0, VStr "pos"); (1, VStr "neg")];
|}.

Definition sentiment_bolt : state := bolt (Some char_tokenizer) (Some sentiment).

(** A snapshot of pairs that has the columns and no row. *)
Definition empty_snapshot_dir : directory := {|
  dir_path := "data";
  dir_snapshot := Some (Ok [("premise", []); ("hypothesis", []); ("label", [])]);
  dir_files := [("dataset_info.json", Other)];
|}.

Definition empty_snapshot_world : World := world_of empty_snapshot_dir.

(** A directory without files and without marker. *)
Definition hollow_dir : directory := {|
  dir_path := "data";
  dir_snapshot := None;
  dir_files := [];
|}.

Definition hollow_world : World := world_of hollow_dir.
End SnapshotExamples.

(** ** Further vocabulary *)

(** The characters of a string, first to last. *)
Definition chars (s : string) : list Ascii.ascii := String.list_ascii_of_string s.

(** The labels of the records that have one, in record order. *)
Definition labels_of (data : list record) : list value :=
  omap (λ example, PyDict.get example "label") data.

(** The distinct elements of a list, each at the place of its first
    occurrence. *)
Definition first_seen (labels : list value) : list value :=
  foldl (λ seen label, if decide (label ∈ seen) then seen else seen ++ [label])
        [] labels.

(** The formats read in one call that takes the path: the extension, the
    name of the reader in the trace, and the reader. *)
Definition tabular_readers (W : World)
    : list (string * string * (string → result (list record))) :=
  [(".csv", "pd.read_csv", read_csv W ",");
   (".parquet", "pq.read_table", read_parquet W);
   (".tsv", "pd.read_csv", read_csv W tab);
   (".xls", "pd.read_excel", read_excel W);
   (".xlsx", "pd.read_excel", read_excel W);
   (".feather", "feather.read_feather", read_feather W)].

(** The formats parsed from an open file: the extension, the name of the
    parser in the trace, and the parser. *)
Definition text_parsers (W : World)
    : list (string * string * (list string → result (list record))) :=
  [(".json", "json.load", json_load W);
   (".yaml", "yaml.safe_load", yaml_safe_load W);
   (".yml", "yaml.safe_load", yaml_safe_load W)].

(** The query a loader sends to a [.db] file. *)
Definition query_of (t : task) : string :=
  match t with
  | TextClassification => Classification.query
  | PairReasoning => CommonsenseReasoning.query
  end.

(** The outcome of appending what a reader returned to [data]. *)
Definition extended (data : list record) (r : result (list record)) : result (list record) :=
  match r with
  | Ok rows => Ok (data ++ rows)
  | Raise e => Raise e
  end.

(** ** More example directories *)
Module MoreExamples.
Import Fixture.

(** One pair in a [.json] file. *)
Definition parsed_dir : directory := {|
  dir_path := "data";
  dir_snapshot := None;
  dir_files := [("train.json", Table (Ok [pair "it rains" "it is wet" 1]))];
|}.

Definition parsed_world : World := world_of parsed_dir.
End MoreExamples.

(** What the classification loader makes of an XML [record] element that
    has a [text] and a [label] child. *)
Definition text_record (element : xml_element) (r : record) : Prop :=
  ∃ text label,
    xml_find element "text" = Some text ∧ xml_find element "label" = Some label ∧
    r = [("text", value_of_text text); ("label", value_of_text label)].

(** What the pair loader makes of an XML [record] element that has the
    three children and a label that [int] accepts. *)
Definition pair_record (W : World) (element : xml_element) (r : record) : Prop :=
  ∃ premise hypothesis label_text label,
    xml_find element "premise" = Some premise ∧
    xml_find element "hypothesis" = Some hypothesis ∧
    xml_find element "label" = Some label_text ∧
    py_int W label_text = Ok label ∧
    r = [("premise", value_of_text premise);
         ("hypothesis", value_of_text hypothesis); ("label", VInt label)].

Module XmlExamples.
Import Fixture.

(** Two [record] elements; the second has no [label] child. *)
Definition xml_dir : directory := {|
  dir_path := "data";
  dir_snapshot := None;
  dir_files := [("train.xml",
                 Xml (Ok [[("text", Some "ok"); ("label", Some "pos")];
                          [("text", Some "bad")]]))];
|}.

Definition xml_world : World := world_of xml_dir.

(** Two [record] elements of pairs; the label of the second is not a
    number. *)
Definition pair_xml_dir : directory := {|
  dir_path := "data";
  dir_snapshot := None;
  dir_files := [("train.xml",
                 Xml (Ok [[("premise", Some "it rains"); ("hypothesis", Some "it is wet");
                           ("label", Some "1")];
                          [("premise", Some "it rains"); ("hypothesis", Some "it is dry");
                           ("label", Some "no")]]))];
|}.

Definition pair_xml_world : World := world_of pair_xml_dir.
End XmlExamples.

(** The call of [int] the pair loader makes for an XML [record] element. *)
Definition int_call (element : xml_element) : event :=
  EvCall "int" (default "" (default None (xml_find element "label"))).

(** A turn of the loop that only appends: whatever [data] holds, the turn
    returns it followed by the same records (or raises the same exception),
    with the same footprint. *)
Definition appends (body : list record → M (list record)) : Prop :=
  ∃ r tr hs, ∀ data, io (body data) (extended data r) tr hs.

(** Reading that acquires nothing. *)
Definition pure_io {A} (m : M A) : Prop := ∃ r tr, io m r tr [].

(** The label of record [n], when there is such a record and it has one. *)
Definition label_at (data : list record) (n : nat) : option value :=
  data !! n ≫= λ example, PyDict.get example "label".

Module ListingExamples.
Import Fixture.

(** A table, a [.jsonl] file of two lines, and a file of no known format. *)
Definition mixed_dir : directory := {|
  dir_path := "data";
  dir_snapshot := None;
  dir_files := [("a.csv", Table (Ok [example "ok" "pos"]));
                ("b.jsonl", Lines [("line 1", Ok (example "bad" "neg"));
                                   ("line 2", Ok (example "fine" "pos"))]);
                ("notes.txt", Other)];
|}.

Definition mixed_world : World := world_of mixed_dir.

(** The records of [Examples.reviews_dir]. *)
Definition reviews : list record :=
  [example "ok" "pos"; example "bad" "neg"; example "fine" "pos"].
End ListingExamples.

Module LabelExamples.
Import Fixture.

(** A table whose second row has no label. *)
Definition unlabelled_dir : directory := {|
  dir_path := "data";
  dir_snapshot := None;
  dir_files := [("train.csv", Table (Ok [example "ok" "pos"; [("text", VStr "bad")]]))];
|}.

Definition unlabelled_world : World := world_of unlabelled_dir.

(** A model that already has labels. *)
Definition old_labels : Config := {|
  label2id := Some [(VStr "LABEL_0", 0); (VStr "LABEL_1", 1)];
  id2label := Some [(0, VStr "LABEL_0"); (1, VStr "LABEL_1")];
|}.

Definition labelled_bolt : state := bolt (Some char_tokenizer) (Some old_labels).

(** A directory without files. *)
Definition empty_dir : directory := {|
  dir_path := "data";
  dir_snapshot := None;
  dir_files := [];
|}.

Definition empty_world : World := world_of empty_dir.

(** The index derived from [Examples.reviews_dir]. *)
Definition reviews_index : dict value Z := [(VStr "pos", 2); (VStr "neg", 1)].

(** A batch of two reviews whose labels are among those of the reviews. *)
Definition seen_batch : batch :=
  [("text", [VStr "no"; VStr "yes"]); ("label", [VStr "neg"; VStr "pos"])].
End LabelExamples.

(** ** Views of the state *)

(** The view [f] of the state is the same after [m] as before. *)
Definition keeps {A B} (f : state → A) (m : M B) : Prop :=
  ∀ st, f (m st).2 = f st.

(** A view that does not look at the trace, at the handles, at the log. *)
Definition ignores_trace {A} (f : state → A) : Prop :=
  ∀ ev st, f (add_event ev st) = f st.

Definition ignores_handles {A} (f : state → A) : Prop :=
  (∀ h st, f (acquire h st) = f st) ∧ (∀ h st, f (release h st) = f st).

Definition ignores_log {A} (f : state → A) : Prop :=
  ∀ l st, f (add_log l st) = f st.

(** The attributes of [self] the loaders read or write. *)
Definition self_of (st : state)
    : option Tokenizer * option Config * option (dict value Z) * option collator :=
  (tokenizer st, model st, label_to_id st, data_collator st).

(** The column a feature preparer writes the labels to. *)
Definition label_column (t : task) : string :=
  match t with
  | TextClassification => "label"
  | PairReasoning => "labels"
  end.

(** The log after the pair task's preparer has run, once or over the
    batches of a dataset: nothing on success, the one line it prints on an
    exception. *)
Definition preparer_log {A} (st : state) (x : result A * state) : Prop :=
  match x.1 with
  | Ok _ => log x.2 = log st
  | Raise e => log x.2 = log st ++ [Stdout "Error preparing train features" e]
  end.

(** The dataset the pair loader maps its preparer over: the snapshot, or
    the frame of the records read from the files. *)
Definition pair_frame (W : World) (dataset_path : string) : M Dataset :=
  let* marker := has_marker W dataset_path in
  if marker : bool then
    call "load_from_disk" dataset_path (load_from_disk W dataset_path)
  else
    let* data := load_files W (CommonsenseReasoning.xml_example W)
                   CommonsenseReasoning.query dataset_path in
    call "Dataset.from_pandas" dataset_path (from_pandas W data).

(** ** [data_collator] of huggingface/commonsense_reasoning.py *)
Module Collation.
Section collation.
(** The type of what the trainer hands to the collator. *)
Context {Examples : Type}.
(** [DataCollatorWithPadding(tokenizer)(examples)] *)
Variable padding_collator : option Tokenizer → Examples → result batch.

Definition data_collator (examples : Examples) : M batch :=
  try_except
    (let* tokenizer := gets tokenizer in
     call "DataCollatorWithPadding" "" (padding_collator tokenizer examples))
    (λ e, modify (add_log (Stdout "Error in data collation" e));; raise e).
End collation.
End Collation.

(** * Properties *)

(** ** Dictionaries *)
Section dict_facts.
Context {K V : Type} `{EqDecision K}.
Implicit Types (d : dict K V) (k : K) (v : V).

Lemma get_set_eq d k v : PyDict.get (PyDict.set d k v) k = Some v.
Proof.
  induction d as [|[k' v'] d IH]; simpl.
  - by rewrite decide_True.
  - destruct (decide (k' = k)) as [->|Hne]; simpl.
    + by rewrite decide_True.
    + by rewrite decide_False.
Qed.

Lemma get_set_ne d k k' v :
  k ≠ k' → PyDict.get (PyDict.set d k v) k' = PyDict.get d k'.
Proof.
  intros Hne. induction d as [|[k0 v0] d IH]; simpl.
  - by rewrite decide_False.
  - destruct (decide (k0 = k)) as [->|Hne0]; simpl.
    + by rewrite !decide_False.
    + by rewrite IH.
Qed.

Lemma get_None_keys d k : PyDict.get d k = None ↔ k ∉ d.*1.
Proof.
  induction d as [|[k' v'] d IH]; simpl.
  - split; [intros _; apply not_elem_of_nil | done].
  - rewrite not_elem_of_cons. destruct (decide (k' = k)) as [->|Hne].
    + split; [done | intros [? _]; done].
    + rewrite IH. split; [by intros ?; split; [apply not_eq_sym|] | by intros [_ ?]].
Qed.

Lemma get_Some_elem_of d k v : PyDict.get d k = Some v → (k, v) ∈ d.
Proof.
  induction d as [|[k' v'] d IH]; simpl; [done|].
  destruct (decide (k' = k)) as [->|Hne].
  - intros [= ->]. apply elem_of_cons; by left.
  - intros Hget. apply elem_of_cons; right; auto.
Qed.

(** With distinct keys, the items are exactly what [get] finds. *)
Lemma elem_of_get d k v : NoDup d.*1 → (k, v) ∈ d → PyDict.get d k = Some v.
Proof.
  induction d as [|[k' v'] d IH]; simpl; intros Hnd Hin.
  - by apply elem_of_nil in Hin.
  - apply NoDup_cons in Hnd as [Hk' Hnd].
    apply elem_of_cons in Hin as [[= -> ->]|Hin].
    + by rewrite decide_True.
    + destruct (decide (k' = k)) as [->|Hne]; [|auto].
      exfalso. apply Hk'. apply list_elem_of_fmap. by exists (k, v).
Qed.

Lemma set_keys_fresh d k v :
  k ∉ d.*1 → (PyDict.set d k v).*1 = d.*1 ++ [k].
Proof.
  induction d as [|[k' v'] d IH]; simpl; [done|].
  rewrite not_elem_of_cons. intros [Hne Hk].
  rewrite decide_False by done. simpl. f_equal. by apply IH.
Qed.

Lemma set_keys_old d k v : k ∈ d.*1 → (PyDict.set d k v).*1 = d.*1.
Proof.
  induction d as [|[k' v'] d IH]; simpl.
  - intros Hk. by apply elem_of_nil in Hk.
  - destruct (decide (k' = k)) as [->|Hne]; simpl; [done|].
    intros Hk. apply elem_of_cons in Hk as [->|Hk]; [done|]. f_equal. by apply IH.
Qed.

(** Assignment keeps the keys distinct. *)
Lemma set_keys_NoDup d k v : NoDup d.*1 → NoDup (PyDict.set d k v).*1.
Proof.
  intros Hnd. destruct (decide (k ∈ d.*1)) as [Hk|Hk].
  - by rewrite set_keys_old.
  - rewrite set_keys_fresh by done. apply NoDup_app. split_and!; [done| |].
    + intros x Hx Hx'. apply list_elem_of_singleton in Hx'. by subst.
    + apply NoDup_singleton.
Qed.

(** The values after an assignment: the new one, and old ones. *)
Lemma set_values_subseteq d k v x :
  x ∈ (PyDict.set d k v).*2 → x = v ∨ x ∈ d.*2.
Proof.
  induction d as [|[k' v'] d IH]; simpl.
  - intros Hx. apply list_elem_of_singleton in Hx. by left.
  - destruct (decide (k' = k)) as [->|Hne]; simpl; intros Hx;
      apply elem_of_cons in Hx as [->|Hx].
    + by left.
    + right. apply elem_of_cons; by right.
    + right. apply elem_of_cons; by left.
    + destruct (IH Hx) as [->|?]; [by left|]. right. apply elem_of_cons; by right.
Qed.

(** Assigning a value no key has yet keeps the values distinct. *)
Lemma set_values_NoDup d k v :
  NoDup d.*2 → v ∉ d.*2 → NoDup (PyDict.set d k v).*2.
Proof.
  induction d as [|[k' v'] d IH]; simpl; intros Hnd Hv.
  - apply NoDup_singleton.
  - apply NoDup_cons in Hnd as [Hv' Hnd].
    apply not_elem_of_cons in Hv as [Hne Hv].
    destruct (decide (k' = k)) as [->|Hk]; simpl; apply NoDup_cons.
    + done.
    + split; [|by apply IH].
      intros Hin. apply set_values_subseteq in Hin as [->|Hin]; done.
Qed.
End dict_facts.

(** ** The label index of the classification loader *)
Section label_index.
Import Classification.

Lemma index_inv_nil : index_inv 0 [].
Proof.
  split; simpl; [apply NoDup_nil_2 | apply NoDup_nil_2 |].
  intros j Hj. by apply elem_of_nil in Hj.
Qed.

Lemma index_inv_set i d label :
  0 ≤ i → index_inv i d → index_inv (i + 1) (PyDict.set d label i).
Proof.
  intros Hi [Hk Hv Hr]. split.
  - by apply set_keys_NoDup.
  - apply set_values_NoDup; [done|]. intros Hin. apply Hr in Hin. lia.
  - intros j Hj. apply set_values_subseteq in Hj as [->|Hj]; [lia|].
    apply Hr in Hj. lia.
Qed.

Lemma enumerate_labels_inv data : ∀ i acc d,
  0 ≤ i → index_inv i acc →
  enumerate_labels i data acc = Ok d →
  index_inv (i + Z.of_nat (length data)) d.
Proof.
  induction data as [|example rest IH]; simpl; intros i acc d Hi Hinv Hrun.
  - injection Hrun as <-. by rewrite Z.add_0_r.
  - destruct (getitem example "label") as [label|e]; [|done].
    destruct (hashable label); [|done].
    apply IH in Hrun; [|lia|by apply index_inv_set].
    by replace (i + Z.of_nat (S (length rest))) with (i + 1 + Z.of_nat (length rest)) by lia.
Qed.

(** The ids of the derived index are distinct indices into [data]. *)
Lemma make_label_to_id_inv data d :
  make_label_to_id data = Ok d → index_inv (Z.of_nat (length data)) d.
Proof.
  intros Hrun. apply (enumerate_labels_inv data 0 [] d) in Hrun; [done|lia|].
  apply index_inv_nil.
Qed.

(** Two labels with one id are one label. *)
Lemma index_inv_inj i d l1 l2 j :
  index_inv i d → PyDict.get d l1 = Some j → PyDict.get d l2 = Some j → l1 = l2.
Proof.
  intros [_ Hv _] H1 H2.
  apply get_Some_elem_of, list_elem_of_lookup in H1 as [n1 H1].
  apply get_Some_elem_of, list_elem_of_lookup in H2 as [n2 H2].
  assert (n1 = n2) as ->.
  { eapply NoDup_lookup; [exact Hv| |]; rewrite list_lookup_fmap.
    - by rewrite H1.
    - by rewrite H2. }
  congruence.
Qed.

(** Inverting a dict whose values are distinct: the inverse finds [l] at [i]
    exactly when [(l, i)] is an item, or [i] was in [acc] already. *)
Lemma get_invert (kvs : list (value * Z)) : ∀ (acc : dict Z value) i l,
  NoDup kvs.*2 →
  PyDict.get (foldl (λ acc li, PyDict.set acc li.2 li.1) acc kvs) i = Some l ↔
  (l, i) ∈ kvs ∨ ((i ∉ kvs.*2) ∧ PyDict.get acc i = Some l).
Proof.
  induction kvs as [|[l0 i0] kvs IH]; simpl; intros acc i l Hnd.
  - split.
    + intros Hget. right. split; [apply not_elem_of_nil | done].
    + intros [Hin|[_ Hget]]; [by apply elem_of_nil in Hin | done].
  - apply NoDup_cons in Hnd as [Hi0 Hnd]. rewrite IH by done.
    rewrite elem_of_cons, not_elem_of_cons.
    destruct (decide (i0 = i)) as [->|Hne].
    + rewrite get_set_eq. split.
      * intros [Hin|[_ [= ->]]]; [by left; right | by left; left].
      * intros [[[= ->]|Hin]|[[Hne _] _]]; [|by left|done].
        right. split; [done|done].
    + rewrite get_set_ne by done. split.
      * intros [Hin|[Hni Hget]]; [by left; right|]. right. by split; [split|].
      * intros [[[= -> ->]|Hin]|[[_ Hni] Hget]]; [done|by left|by right].
Qed.

(** [label2id] and [id2label] are inverse to one another. *)
Lemma make_id2label_inverse i d label j :
  index_inv i d →
  PyDict.get (make_id2label d) j = Some label ↔ PyDict.get d label = Some j.
Proof.
  intros Hinv. unfold make_id2label, PyDict.items.
  rewrite get_invert by apply Hinv. simpl. split.
  - intros [Hin|[_ ?]]; [|done]. apply elem_of_get; [apply Hinv | done].
  - intros Hget. left. by apply get_Some_elem_of.
Qed.
End label_index.

(** ** Footprints *)
Section footprints.

Lemma touch_nil st : touch [] [] st = st.
Proof. destruct st. unfold touch. simpl. by rewrite app_nil_r. Qed.

Lemma touch_touch tr1 hs1 tr2 hs2 st :
  touch tr2 hs2 (touch tr1 hs1 st) = touch (tr1 ++ tr2) (hs2 ++ hs1) st.
Proof. unfold touch. simpl. by rewrite !app_assoc. Qed.

Lemma io_ret {A} (a : A) : io (ret a) (Ok a) [] [].
Proof. intros st. unfold ret. by rewrite touch_nil. Qed.

Lemma io_lift {A} (r : result A) : io (lift r) r [] [].
Proof. intros st. unfold lift. by rewrite touch_nil. Qed.

Lemma io_call {A} function arg (r : result A) :
  io (call function arg r) r [EvCall function arg] [].
Proof. intros st. reflexivity. Qed.

Lemma io_acquire h : io (modify (acquire h)) (Ok tt) [] [h].
Proof.
  intros st. unfold modify, acquire, touch. simpl. by rewrite app_nil_r.
Qed.

Lemma io_bind_Ok {A B} (m : M A) (k : A → M B) a tr1 hs1 r tr2 hs2 :
  io m (Ok a) tr1 hs1 → io (k a) r tr2 hs2 →
  io (bind m k) r (tr1 ++ tr2) (hs2 ++ hs1).
Proof.
  intros Hm Hk st. unfold bind. rewrite Hm, Hk. by rewrite touch_touch.
Qed.

Lemma io_bind_Raise {A B} (m : M A) (k : A → M B) e tr hs :
  io m (Raise e) tr hs → io (bind m k) (Raise e) tr hs.
Proof. intros Hm st. unfold bind. by rewrite Hm. Qed.

(** Two footprints of one computation agree on the outcome. *)
Lemma io_result {A} (m : M A) r tr hs st :
  io m r tr hs → (m st).1 = r.
Proof. intros Hm. by rewrite Hm. Qed.

Lemma reads_ret {A} (a : A) : reads (ret a).
Proof. exists (Ok a), [], []. split; [constructor | apply io_ret]. Qed.

Lemma reads_lift {A} (r : result A) : reads (lift r).
Proof. exists r, [], []. split; [constructor | apply io_lift]. Qed.

Lemma reads_call {A} function arg (r : result A) : reads (call function arg r).
Proof. exists r, [EvCall function arg], []. split; [constructor | apply io_call]. Qed.

Lemma reads_connect filepath : reads (modify (acquire (SqliteConnection filepath))).
Proof.
  exists (Ok tt), [], [SqliteConnection filepath].
  split; [by repeat constructor | apply io_acquire].
Qed.

Lemma reads_bind {A B} (m : M A) (k : A → M B) :
  reads m → (∀ a, reads (k a)) → reads (bind m k).
Proof.
  intros (r & tr1 & hs1 & Hhs1 & Hm) Hk. destruct r as [a|e].
  - destruct (Hk a) as (r & tr2 & hs2 & Hhs2 & Hka).
    exists r, (tr1 ++ tr2), (hs2 ++ hs1). split; [by apply Forall_app|].
    by apply io_bind_Ok with a.
  - exists (Raise e), tr1, hs1. split; [done|]. by apply io_bind_Raise.
Qed.

Lemma reads_for_each {A B} (xs : list A) (body : A → B → M B) :
  (∀ x acc, reads (body x acc)) → ∀ acc, reads (for_each xs body acc).
Proof.
  intros Hbody. induction xs as [|x xs IH]; simpl; intros acc.
  - apply reads_ret.
  - apply reads_bind; [apply Hbody | done].
Qed.

Lemma remove_first_connections fh hs rest :
  Forall is_connection hs →
  remove_first (FileHandle fh) (hs ++ FileHandle fh :: rest) = hs ++ rest.
Proof.
  induction hs as [|h hs IH]; simpl; intros Hhs.
  - by rewrite decide_True.
  - apply Forall_cons in Hhs as [Hh Hhs]. destruct h as [p|p]; [done|].
    rewrite decide_False by done. f_equal. by apply IH.
Qed.

(** The file of a [with] block is closed when the block is left, on both
    ways out. *)
Lemma reads_with_open {A} W filepath (body : list string → M A) :
  (∀ lines, reads (body lines)) → reads (with_open W filepath body).
Proof.
  intros Hbody. unfold with_open. destruct (open_r W filepath) as [lines|e] eqn:Hopen.
  - destruct (Hbody lines) as (r & tr & hs & Hhs & Hio).
    exists r, (EvCall "open" filepath :: tr), hs. split; [done|].
    intros st. unfold bind, call, modify, lift, finally. simpl.
    rewrite Hio. unfold touch, release. simpl.
    rewrite remove_first_connections by done. by rewrite <- app_assoc.
  - exists (Raise e), [EvCall "open" filepath], []. split; [constructor|].
    intros st. reflexivity.
Qed.

(** Reading leaves [self], the model and the log alone. *)
Lemma reads_frame {A} (m : M A) st :
  reads m →
  tokenizer (m st).2 = tokenizer st ∧ model (m st).2 = model st ∧
  label_to_id (m st).2 = label_to_id st ∧ log (m st).2 = log st.
Proof. intros (r & tr & hs & _ & Hio). by rewrite Hio. Qed.

(** The outcome of reading does not depend on the state. *)
Lemma reads_oblivious {A} (m : M A) st st' : reads m → (m st).1 = (m st').1.
Proof. intros (r & tr & hs & _ & Hio). by rewrite !Hio. Qed.

Lemma for_each_app {A B} (xs ys : list A) (body : A → B → M B) acc st :
  for_each (xs ++ ys) body acc st =
  bind (for_each xs body acc) (for_each ys body) st.
Proof.
  revert acc st. induction xs as [|x xs IH]; simpl; intros acc st.
  - reflexivity.
  - unfold bind. destruct (body x acc st) as [[acc'|e] st']; [|done].
    by rewrite IH.
Qed.
End footprints.

Create HintDb reads.
#[local] Hint Resolve reads_ret reads_lift reads_call reads_connect : reads.
#[local] Hint Extern 2 (reads (bind _ _)) => apply reads_bind; [|intros ?] : reads.
#[local] Hint Extern 2 (reads (for_each _ _ _)) => apply reads_for_each; intros ? ? : reads.
#[local] Hint Extern 2 (reads (with_open _ _ _)) => apply reads_with_open; intros ? : reads.

(** ** Reading a directory *)
Section reading.
Variable W : World.
Variable xml_example : xml_element → M record.
Variable query : string.
Hypothesis xml_example_reads : ∀ element, reads (xml_example element).

Lemma load_file_reads dataset_path filename data :
  reads (load_file W xml_example query dataset_path filename data).
Proof using xml_example_reads.
  unfold load_file.
  repeat match goal with
         | |- reads (if ?b then _ else _) => destruct b
         end; auto 20 with reads.
Qed.

Lemma load_files_reads dataset_path :
  reads (load_files W xml_example query dataset_path).
Proof using xml_example_reads.
  unfold load_files. apply reads_bind; [apply reads_call|]. intros filenames.
  apply reads_for_each. intros filename data. apply load_file_reads.
Qed.
End reading.

Lemma classification_xml_example_reads element :
  reads (Classification.xml_example element).
Proof. unfold Classification.xml_example. auto 10 with reads. Qed.

Lemma commonsense_xml_example_reads W element :
  reads (CommonsenseReasoning.xml_example W element).
Proof. unfold CommonsenseReasoning.xml_example. auto 10 with reads. Qed.

(** ** The two paths of [load_dataset] *)
Section paths.
Variable W : World.

Lemma bind_gets {A B} (f : state → A) (k : A → M B) st :
  bind (gets f) k st = k (f st) st.
Proof. reflexivity. Qed.

Lemma bind_modify {B} (f : state → state) (k : unit → M B) st :
  bind (modify f) k st = k tt (f st).
Proof. reflexivity. Qed.

Lemma bind_call_Ok {A B} function arg (a : A) (k : A → M B) st :
  bind (call function arg (Ok a)) k st = k a (touch [EvCall function arg] [] st).
Proof. reflexivity. Qed.

Lemma try_except_logged {A} (m : M A) (f : exn → log_entry) st :
  try_except m (λ e, modify (add_log (f e));; raise e) st = logged f (m st).
Proof. unfold try_except, logged. by destruct (m st) as [[a|e] st']. Qed.

Lemma load_dataset_try t dataset_path st :
  load_dataset_of t W dataset_path st =
  logged (error_entry t dataset_path)
    (bind (has_marker W dataset_path)
       (λ marker : bool,
          if marker then
            let* ds := call "load_from_disk" dataset_path (load_from_disk W dataset_path) in
            Dataset_map (preparer_of t) (removed_of t ds) ds
          else
            let* data := load_files_of t W dataset_path in
            (match t with
             | TextClassification => Classification.update_labels data
             | PairReasoning => ret tt
             end);;
            let* ds := call "Dataset.from_pandas" dataset_path (from_pandas W data) in
            Dataset_map (preparer_of t) (removed_of t ds) ds)
       (entry t dataset_path st)).
Proof.
  destruct t; simpl.
  - unfold Classification.load_dataset.
    rewrite bind_gets, bind_modify, bind_gets, bind_modify.
    rewrite (try_except_logged _ (λ e, LogError _ e)). reflexivity.
  - unfold CommonsenseReasoning.load_dataset.
    rewrite (try_except_logged _ (λ e, Stdout _ e)). reflexivity.
Qed.

(** With the marker: the snapshot is loaded and mapped. *)
Lemma load_dataset_snapshot t dataset_path st :
  isfile W (marker_of dataset_path) = true →
  load_dataset_of t W dataset_path st =
  logged (error_entry t dataset_path)
    (bind (lift (load_from_disk W dataset_path))
          (λ ds, Dataset_map (preparer_of t) (removed_of t ds) ds)
          (touch [EvCall "os.path.isfile" (marker_of dataset_path);
                  EvCall "load_from_disk" dataset_path] []
                 (entry t dataset_path st))).
Proof.
  intros Hmarker. rewrite load_dataset_try. f_equal.
  unfold has_marker. fold (marker_of dataset_path).
  rewrite bind_call_Ok, Hmarker.
  assert (∀ ev tr s, add_event ev (touch tr [] s) = touch (tr ++ [ev]) [] s) as Hev.
  { intros ev tr s. unfold add_event, touch. simpl. by rewrite app_assoc. }
  unfold call, bind, modify, lift. simpl. rewrite Hev. simpl.
  by destruct (load_from_disk W dataset_path).
Qed.

(** Without it: the files are read, the classification loader derives its
    labels, and the frame is mapped. *)
Lemma load_dataset_directory t dataset_path st :
  isfile W (marker_of dataset_path) = false →
  load_dataset_of t W dataset_path st =
  logged (error_entry t dataset_path)
    (bind (load_files_of t W dataset_path)
          (λ data,
             (match t with
              | TextClassification => Classification.update_labels data
              | PairReasoning => ret tt
              end);;
             let* ds := call "Dataset.from_pandas" dataset_path (from_pandas W data) in
             Dataset_map (preparer_of t) (removed_of t ds) ds)
          (touch [EvCall "os.path.isfile" (marker_of dataset_path)] []
                 (entry t dataset_path st))).
Proof.
  intros Hmarker. rewrite load_dataset_try. f_equal.
  unfold has_marker. fold (marker_of dataset_path).
  by rewrite bind_call_Ok, Hmarker.
Qed.
End paths.

(** ** Feature preparation *)
Section preparation.

Lemma prepared_refl st : prepared st st.
Proof. exists []. by rewrite app_nil_r. Qed.

Lemma prepared_trans st1 st2 st3 :
  prepared st1 st2 → prepared st2 st3 → prepared st1 st3.
Proof.
  intros (tr1 & Htr1 & Ht1 & Hm1 & Hh1 & Hk1 & Hl1)
         (tr2 & Htr2 & Ht2 & Hm2 & Hh2 & Hk2 & Hl2).
  exists (tr1 ++ tr2). split_and!; try congruence.
  - by apply Forall_app.
  - by rewrite Ht2, Ht1, app_assoc.
Qed.

Lemma prepares_ret {A} (a : A) : prepares (ret a).
Proof. intros st. apply prepared_refl. Qed.

Lemma prepares_lift {A} (r : result A) : prepares (lift r).
Proof. intros st. apply prepared_refl. Qed.

Lemma prepares_raise {A} e : prepares (raise (A:=A) e).
Proof. intros st. apply prepared_refl. Qed.

Lemma prepares_gets {A} (f : state → A) : prepares (gets f).
Proof. intros st. apply prepared_refl. Qed.

Lemma prepares_add_log l : prepares (modify (add_log l)).
Proof. intros st. exists []. simpl. by rewrite app_nil_r. Qed.

Lemma prepares_call_tokenizer t c : prepares (call_tokenizer t c).
Proof. intros st. exists [EvTokenize c]. by repeat constructor. Qed.

Lemma prepares_bind {A B} (m : M A) (k : A → M B) :
  prepares m → (∀ a, prepares (k a)) → prepares (bind m k).
Proof.
  intros Hm Hk st. unfold bind. specialize (Hm st).
  destruct (m st) as [[a|e] st']; [|done].
  eapply prepared_trans; [exact Hm | apply Hk].
Qed.

Lemma prepares_try_except {A} (m : M A) (h : exn → M A) :
  prepares m → (∀ e, prepares (h e)) → prepares (try_except m h).
Proof.
  intros Hm Hh st. unfold try_except. specialize (Hm st).
  destruct (m st) as [[a|e] st']; [done|].
  eapply prepared_trans; [exact Hm | apply Hh].
Qed.

Lemma prepares_comprehension {A B} (f : A → M B) xs :
  (∀ x, prepares (f x)) → prepares (comprehension f xs).
Proof.
  intros Hf. induction xs as [|x xs IH]; simpl; [apply prepares_ret|].
  apply prepares_bind; [done|]. intros y.
  apply prepares_bind; [done|]. intros ys. apply prepares_ret.
Qed.

Lemma prepares_Dataset_map f remove_columns ds :
  (∀ examples, prepares (f examples)) → prepares (Dataset_map f remove_columns ds).
Proof.
  intros Hf. unfold Dataset_map. case_bool_decide; [apply prepares_ret|].
  apply prepares_bind; [by apply prepares_comprehension|].
  intros outs. apply prepares_ret.
Qed.

Lemma lookup_label_prepares label : prepares (Classification.lookup_label label).
Proof.
  unfold Classification.lookup_label. apply prepares_bind; [apply prepares_gets|].
  intros [d|]; [|apply prepares_raise].
  destruct (hashable label); [|apply prepares_raise].
  destruct (PyDict.get d label); [apply prepares_ret | apply prepares_raise].
Qed.

Lemma tokenize_function_prepares examples :
  prepares (Classification.tokenize_function examples).
Proof.
  unfold Classification.tokenize_function.
  apply prepares_bind; [apply prepares_gets|]. intros tok.
  apply prepares_bind; [apply prepares_lift|]. intros text.
  apply prepares_bind.
  { destruct tok; [apply prepares_call_tokenizer | apply prepares_raise]. }
  intros tokenized_data. apply prepares_bind; [apply prepares_lift|]. intros labels.
  apply prepares_bind.
  { apply prepares_comprehension, lookup_label_prepares. }
  intros ids. apply prepares_ret.
Qed.

Lemma prepare_train_features_prepares examples :
  prepares (CommonsenseReasoning.prepare_train_features examples).
Proof.
  unfold CommonsenseReasoning.prepare_train_features. apply prepares_try_except.
  - apply prepares_bind; [apply prepares_gets|]. intros [t|]; [|apply prepares_raise].
    apply prepares_bind; [apply prepares_lift|]. intros premise.
    apply prepares_bind; [apply prepares_lift|]. intros hypothesis.
    apply prepares_bind; [apply prepares_call_tokenizer|]. intros tokenized_inputs.
    apply prepares_bind; [apply prepares_lift|]. intros labels. apply prepares_ret.
  - intros e. apply prepares_bind; [apply prepares_add_log|]. intros _.
    apply prepares_raise.
Qed.

Lemma preparer_of_prepares t examples : prepares (preparer_of t examples).
Proof.
  destruct t; [apply tokenize_function_prepares | apply prepare_train_features_prepares].
Qed.

(** [Dataset.map] on a dataset with rows starts with the first slice, and
    an exception of the preparer is the exception of [map]. *)
Lemma num_batches_pos ds : num_rows ds ≠ 0%nat → ∃ n, num_batches ds = S n.
Proof.
  intros Hrows. unfold num_batches.
  assert (1 ≤ (num_rows ds + (batch_size - 1)) / batch_size)%nat as Hle.
  { apply Nat.div_le_lower_bound; [done|]. unfold batch_size. lia. }
  destruct ((num_rows ds + (batch_size - 1)) / batch_size)%nat; [lia|]. eauto.
Qed.

Lemma Dataset_map_first_Raise f remove_columns ds e st :
  num_rows ds ≠ 0%nat →
  (f (slice_rows 0 ds) st).1 = Raise e →
  Dataset_map f remove_columns ds st = (Raise e, (f (slice_rows 0 ds) st).2).
Proof.
  intros Hrows Hf. unfold Dataset_map. rewrite bool_decide_false by done.
  unfold batches. destruct (num_batches_pos ds Hrows) as [n ->]. simpl.
  unfold bind at 1 2. destruct (f (slice_rows 0 ds) st) as [r st']. simpl in *.
  by subst r.
Qed.

Lemma Dataset_map_empty f remove_columns ds st :
  num_rows ds = 0%nat →
  Dataset_map f remove_columns ds st = (Ok (PyDict.remove_keys remove_columns ds), st).
Proof. intros Hrows. unfold Dataset_map. by rewrite bool_decide_true. Qed.
End preparation.

(** * The claims *)

Lemma load_file_of_reads t W dataset_path filename data :
  reads (load_file_of t W dataset_path filename data).
Proof.
  destruct t; apply load_file_reads.
  - apply classification_xml_example_reads.
  - apply commonsense_xml_example_reads.
Qed.

Lemma load_files_of_reads t W dataset_path : reads (load_files_of t W dataset_path).
Proof.
  destruct t; apply load_files_reads.
  - apply classification_xml_example_reads.
  - apply commonsense_xml_example_reads.
Qed.

Lemma load_files_of_unfold t W dataset_path :
  load_files_of t W dataset_path =
  (let* filenames := call "os.listdir" dataset_path (listdir W dataset_path) in
   for_each filenames (load_file_of t W dataset_path) []).
Proof. by destruct t. Qed.

(** The [except] clause writes to the log and to nothing else. *)
Lemma logged_fields {A} f (x : result A * state) :
  (logged f x).1 = x.1 ∧ trace (logged f x).2 = trace x.2 ∧
  model (logged f x).2 = model x.2 ∧ handles (logged f x).2 = handles x.2 ∧
  label_to_id (logged f x).2 = label_to_id x.2.
Proof. by destruct x as [[a|e] st]. Qed.

Lemma entry_fields t dataset_path st :
  trace (entry t dataset_path st) = trace st ∧
  model (entry t dataset_path st) = model st ∧
  handles (entry t dataset_path st) = handles st ∧
  tokenizer (entry t dataset_path st) = tokenizer st.
Proof. by destruct t. Qed.

(** C3: when [dataset_info.json] is a file of the directory, [load_dataset]
    (of either bolt) loads the snapshot with [load_from_disk] and maps the
    feature preparer over it: what it returns or raises is what
    [load_from_disk(dataset_path).map(preparer)] returns or raises, an
    exception passing through the [except] clause.  No file of the
    directory is listed, opened or decoded: the calls made are the marker
    test, [load_from_disk] and calls of the tokenizer, and the outcome is
    the same in every world that has the marker and the same snapshot,
    whatever its other files hold. *)
Theorem snapshot_bypasses_decoding t W dataset_path st :
  isfile W (marker_of dataset_path) = true →
  load_dataset_of t W dataset_path st =
    logged (error_entry t dataset_path)
      (bind (lift (load_from_disk W dataset_path))
            (λ ds, Dataset_map (preparer_of t) (removed_of t ds) ds)
            (touch [EvCall "os.path.isfile" (marker_of dataset_path);
                    EvCall "load_from_disk" dataset_path] []
                   (entry t dataset_path st))) ∧
  (∀ e, load_from_disk W dataset_path = Raise e →
        (load_dataset_of t W dataset_path st).1 = Raise e) ∧
  (∀ W', isfile W' (marker_of dataset_path) = true →
         load_from_disk W' dataset_path = load_from_disk W dataset_path →
         load_dataset_of t W' dataset_path st = load_dataset_of t W dataset_path st) ∧
  (∃ tr, Forall is_tokenize tr ∧
         trace (load_dataset_of t W dataset_path st).2 =
         trace st ++ [EvCall "os.path.isfile" (marker_of dataset_path);
                      EvCall "load_from_disk" dataset_path] ++ tr).
Proof.
  intros Hmarker. split_and!.
  - by apply load_dataset_snapshot.
  - intros e Hsnapshot. rewrite load_dataset_snapshot by done.
    by rewrite Hsnapshot.
  - intros W' Hmarker' Hsnapshot.
    by rewrite !load_dataset_snapshot, Hsnapshot.
  - rewrite load_dataset_snapshot by done.
    destruct (logged_fields (error_entry t dataset_path)
      (bind (lift (load_from_disk W dataset_path))
         (λ ds, Dataset_map (preparer_of t) (removed_of t ds) ds)
         (touch [EvCall "os.path.isfile" (marker_of dataset_path);
                 EvCall "load_from_disk" dataset_path] []
            (entry t dataset_path st)))) as (_ & -> & _).
    destruct (entry_fields t dataset_path st) as (Htrace & _).
    unfold bind, lift. destruct (load_from_disk W dataset_path) as [ds|e].
    + destruct (prepares_Dataset_map (preparer_of t) (removed_of t ds) ds
                  (preparer_of_prepares t)
                  (touch [EvCall "os.path.isfile" (marker_of dataset_path);
                          EvCall "load_from_disk" dataset_path] []
                     (entry t dataset_path st))) as (tr & Htr & -> & _).
      exists tr. split; [done|]. simpl. by rewrite Htrace, <- app_assoc.
    + exists []. split; [constructor|]. simpl. by rewrite Htrace.
Qed.

Lemma snapshot_bypasses_decoding_witness :
  isfile Examples.snapshot_world (marker_of "data") = true ∧
  (load_dataset_of PairReasoning Examples.snapshot_world "data"
     Examples.tokenizer_bolt).1 =
    Ok [("input_ids", [VList [105; 116; 32; 114; 97; 105; 110; 115]]);
        ("labels", [VInt 1])] ∧
  ∃ tr, Forall is_tokenize tr ∧
        trace (load_dataset_of PairReasoning Examples.snapshot_world "data"
                 Examples.tokenizer_bolt).2 =
        trace Examples.tokenizer_bolt ++
        [EvCall "os.path.isfile" (marker_of "data");
         EvCall "load_from_disk" "data"] ++ tr.
Proof.
  destruct (snapshot_bypasses_decoding PairReasoning Examples.snapshot_world "data"
              Examples.tokenizer_bolt eq_refl) as (Hload & _ & _ & Htrace).
  split; [reflexivity|]. split; [|exact Htrace].
  rewrite Hload. reflexivity.
Defined.

Lemma recognized_false filename :
  recognized filename = false →
  Forall (λ ext, endswith filename ext = false) recognized_extensions.
Proof.
  unfold recognized. intros Hnone. apply Forall_forall. intros ext Hext.
  destruct (endswith filename ext) eqn:Hends; [|done].
  assert (existsb (endswith filename) recognized_extensions = true) as Hsome.
  { apply existsb_exists. exists ext. split; [by apply list_elem_of_In | done]. }
  congruence.
Qed.

(** C8: a file whose name ends in none of the recognized extensions is
    skipped by the loop of either loader: its turn of the loop raises
    nothing, adds no record to [data] and leaves the state as it is (no
    call is made, no handle is opened), so a listing with the file gives
    what the listing without it gives. *)
Theorem unrecognized_extension_skipped t W dataset_path filename :
  recognized filename = false →
  (∀ data st, load_file_of t W dataset_path filename data st = (Ok data, st)) ∧
  (∀ pre post data st,
     for_each (pre ++ filename :: post) (load_file_of t W dataset_path) data st =
     for_each (pre ++ post) (load_file_of t W dataset_path) data st).
Proof.
  intros Hnone.
  assert (∀ data st, load_file_of t W dataset_path filename data st = (Ok data, st))
    as Hskip.
  { intros data st. apply recognized_false in Hnone.
    unfold recognized_extensions in Hnone.
    repeat match goal with
           | H : Forall _ (_ :: _) |- _ => apply Forall_cons in H as [? H]
           end.
    destruct t; simpl; unfold load_file;
      repeat match goal with
             | H : endswith filename _ = false |- _ => rewrite H; clear H
             end; reflexivity. }
  split; [done|]. intros pre post data st.
  rewrite !for_each_app. unfold bind.
  destruct (for_each pre (load_file_of t W dataset_path) data st) as [[acc|e] st']; [|done].
  simpl. unfold bind. by rewrite Hskip.
Qed.

Lemma unrecognized_extension_skipped_witness :
  recognized "README.md" = false ∧
  load_file_of PairReasoning Examples.pairs_world "data" "README.md" []
    Examples.bare_bolt = (Ok [], Examples.bare_bolt) ∧
  for_each (["train.jsonl"] ++ "README.md" :: [])
    (load_file_of PairReasoning Examples.pairs_world "data") [] Examples.bare_bolt =
  for_each (["train.jsonl"] ++ [])
    (load_file_of PairReasoning Examples.pairs_world "data") [] Examples.bare_bolt.
Proof.
  split; [reflexivity|].
  destruct (unrecognized_extension_skipped PairReasoning Examples.pairs_world
              "data" "README.md" eq_refl) as [Hturn Hloop].
  split; [apply Hturn | apply Hloop].
Defined.

(** When a file of the listing fails to decode, reading the directory
    fails with that file's exception. *)
Lemma load_files_of_fails t W dataset_path st pre filename post data e :
  listdir W dataset_path = Ok (pre ++ filename :: post) →
  (for_each pre (load_file_of t W dataset_path) [] st).1 = Ok data →
  (load_file_of t W dataset_path filename data st).1 = Raise e →
  ∀ st', (load_files_of t W dataset_path st').1 = Raise e.
Proof.
  intros Hlist Hpre Hfile st'. rewrite load_files_of_unfold, Hlist, bind_call_Ok.
  rewrite for_each_app. unfold bind at 1.
  set (st1 := touch _ _ st').
  assert (reads (for_each pre (load_file_of t W dataset_path) [])) as Hreads.
  { apply reads_for_each. intros f acc. apply load_file_of_reads. }
  rewrite (reads_oblivious _ st st1 Hreads) in Hpre.
  destruct (for_each pre (load_file_of t W dataset_path) [] st1) as [r st2].
  simpl in Hpre. subst r. simpl. unfold bind.
  rewrite (reads_oblivious _ st st2 (load_file_of_reads t W dataset_path filename data))
    in Hfile.
  destruct (load_file_of t W dataset_path filename data st2) as [r st3].
  simpl in Hfile. by subst r.
Qed.

(** C2: when the marker is absent and a file of the listing fails to decode
    (the files before it having decoded), [load_dataset] of either bolt
    raises that very exception instead of returning a dataset, and the
    model's configuration, [label2id] and [id2label], is what it was. *)
Theorem decode_failure_aborts t W dataset_path st pre filename post data e :
  isfile W (marker_of dataset_path) = false →
  listdir W dataset_path = Ok (pre ++ filename :: post) →
  (for_each pre (load_file_of t W dataset_path) [] st).1 = Ok data →
  (load_file_of t W dataset_path filename data st).1 = Raise e →
  (load_dataset_of t W dataset_path st).1 = Raise e ∧
  model (load_dataset_of t W dataset_path st).2 = model st.
Proof.
  intros Hmarker Hlist Hpre Hfile.
  rewrite load_dataset_directory by done.
  set (st0 := touch _ _ (entry t dataset_path st)).
  pose proof (load_files_of_fails t W dataset_path st pre filename post data e
                Hlist Hpre Hfile st0) as Hfails.
  destruct (reads_frame (load_files_of t W dataset_path) st0
              (load_files_of_reads t W dataset_path)) as (_ & Hmodel & _).
  unfold bind. destruct (load_files_of t W dataset_path st0) as [r st1].
  simpl in Hfails, Hmodel. subst r. simpl. split; [done|].
  rewrite Hmodel. unfold st0. simpl. by destruct t.
Qed.

Lemma decode_failure_aborts_witness :
  isfile Examples.broken_world (marker_of "data") = false ∧
  listdir Examples.broken_world "data" = Ok (["a.csv"] ++ "b.jsonl" :: ["c.csv"]) ∧
  (load_dataset_of TextClassification Examples.broken_world "data"
     Examples.model_bolt).1 = Raise (LibraryError "JSONDecodeError" "{") ∧
  model (load_dataset_of TextClassification Examples.broken_world "data"
           Examples.model_bolt).2 = model Examples.model_bolt.
Proof.
  split; [reflexivity|]. split; [reflexivity|].
  apply (decode_failure_aborts TextClassification Examples.broken_world "data"
           Examples.model_bolt ["a.csv"] "b.jsonl" ["c.csv"]
           [Fixture.example "ok" "pos"] (LibraryError "JSONDecodeError" "{"));
    reflexivity.
Defined.

(** The frame is built and mapped: the model and [self.label_to_id] stay. *)
Lemma map_frame_fields t W dataset_path data st :
  let st' := (bind (call "Dataset.from_pandas" dataset_path (from_pandas W data))
                (λ ds, Dataset_map (preparer_of t) (removed_of t ds) ds) st).2 in
  model st' = model st ∧ label_to_id st' = label_to_id st ∧ handles st' = handles st.
Proof.
  unfold bind, call, modify, lift. simpl.
  destruct (from_pandas W data) as [ds|e]; [|done].
  destruct (prepares_Dataset_map (preparer_of t) (removed_of t ds) ds
              (preparer_of_prepares t)
              (add_event (EvCall "Dataset.from_pandas" dataset_path) st))
    as (tr & _ & _ & Hmodel & Hhandles & _ & Hlabels).
  by rewrite Hmodel, Hlabels, Hhandles.
Qed.

(** The derived index is written to [self] and, with its inverse, to the
    model's configuration. *)
Lemma update_labels_Ok data new config st :
  Classification.make_label_to_id data = Ok new →
  model st = Some config →
  (Classification.update_labels data st).1 = Ok tt ∧
  model (Classification.update_labels data st).2 =
    Some {| label2id := Some new;
            id2label := Some (Classification.make_id2label new) |} ∧
  label_to_id (Classification.update_labels data st).2 = Some new.
Proof.
  intros Hnew Hmodel. unfold Classification.update_labels.
  rewrite Hnew. unfold bind, lift, gets, modify. simpl. rewrite Hmodel.
  by destruct (Classification.label2id_differs (label2id config) new).
Qed.

(** C4: on the path without marker, once the files are read and the labels
    are taken from the records, the model's configuration holds the derived
    [label2id] and an [id2label] that is its inverse: a label of
    [label2id], sent to its id and back through [id2label], is the label
    again; every entry of [id2label] comes from [label2id]; and no two
    labels share an id. *)
Theorem label_index_roundtrip W dataset_path st data new config :
  isfile W (marker_of dataset_path) = false →
  (load_files W Classification.xml_example Classification.query dataset_path st).1
    = Ok data →
  Classification.make_label_to_id data = Ok new →
  model st = Some config →
  ∃ inverse,
    model (Classification.load_dataset W dataset_path st).2 =
      Some {| label2id := Some new; id2label := Some inverse |} ∧
    (∀ label i, PyDict.get new label = Some i → PyDict.get inverse i = Some label) ∧
    (∀ i label, PyDict.get inverse i = Some label → PyDict.get new label = Some i) ∧
    (∀ l1 l2 i, PyDict.get new l1 = Some i → PyDict.get new l2 = Some i → l1 = l2).
Proof.
  intros Hmarker Hdata Hnew Hmodel.
  pose proof (make_label_to_id_inv data new Hnew) as Hinv.
  exists (Classification.make_id2label new). split_and!.
  - change (Classification.load_dataset W dataset_path st)
      with (load_dataset_of TextClassification W dataset_path st).
    rewrite load_dataset_directory by done.
    set (st0 := touch _ _ (entry TextClassification dataset_path st)).
    destruct (logged_fields (error_entry TextClassification dataset_path)
      (bind (load_files_of TextClassification W dataset_path)
         (λ data,
            Classification.update_labels data;;
            let* ds := call "Dataset.from_pandas" dataset_path (from_pandas W data) in
            Dataset_map (preparer_of TextClassification)
              (removed_of TextClassification ds) ds) st0)) as (_ & _ & -> & _).
    pose proof (load_files_of_reads TextClassification W dataset_path) as Hreads.
    destruct (reads_frame _ st0 Hreads) as (_ & Hmodel0 & _).
    change (load_files W Classification.xml_example Classification.query dataset_path)
      with (load_files_of TextClassification W dataset_path) in Hdata.
    rewrite (reads_oblivious _ st st0 Hreads) in Hdata.
    unfold bind at 1.
    destruct (load_files_of TextClassification W dataset_path st0) as [r st1].
    simpl in Hdata, Hmodel0. subst r.
    assert (model st1 = Some config) as Hmodel1 by by rewrite Hmodel0.
    destruct (update_labels_Ok data new config st1 Hnew Hmodel1) as (Hok & Hconfig & _).
    unfold bind at 1.
    destruct (Classification.update_labels data st1) as [r st2].
    simpl in Hok, Hconfig. subst r.
    destruct (map_frame_fields TextClassification W dataset_path data st2) as (-> & _).
    done.
  - intros label i. by apply (make_id2label_inverse _ new label i Hinv).
  - intros i label. by apply (make_id2label_inverse _ new label i Hinv).
  - intros l1 l2 i. by apply (index_inv_inj _ new l1 l2 i Hinv).
Qed.

Lemma label_index_roundtrip_witness :
  isfile Examples.reviews_world (marker_of "data") = false ∧
  model Examples.model_bolt = Some Fixture.no_labels ∧
  ∃ inverse,
    model (Classification.load_dataset Examples.reviews_world "data"
             Examples.model_bolt).2 =
      Some {| label2id := Some [(VStr "pos", 2); (VStr "neg", 1)];
              id2label := Some inverse |} ∧
    (∀ label i, PyDict.get [(VStr "pos", 2); (VStr "neg", 1)] label = Some i →
                PyDict.get inverse i = Some label) ∧
    (∀ i label, PyDict.get inverse i = Some label →
                PyDict.get [(VStr "pos", 2); (VStr "neg", 1)] label = Some i) ∧
    (∀ l1 l2 i, PyDict.get [(VStr "pos", 2); (VStr "neg", 1)] l1 = Some i →
                PyDict.get [(VStr "pos", 2); (VStr "neg", 1)] l2 = Some i → l1 = l2).
Proof.
  split; [reflexivity|]. split; [reflexivity|].
  apply (label_index_roundtrip Examples.reviews_world "data" Examples.model_bolt
           [Fixture.example "ok" "pos"; Fixture.example "bad" "neg";
            Fixture.example "fine" "pos"]
           [(VStr "pos", 2); (VStr "neg", 1)] Fixture.no_labels); reflexivity.
Defined.

(** C1 (the code departs from it): three records labelled pos, neg, pos.
    The comprehension enumerates the labels of all records, not the distinct
    labels, so a label gets the index of the last record that carries it:
    pos gets 2, and 2 is not below the number of distinct labels. *)
Theorem label_ids_follow_record_index :
  (load_files Examples.reviews_world Classification.xml_example Classification.query
     "data" Examples.model_bolt).1 =
    Ok [Fixture.example "ok" "pos"; Fixture.example "bad" "neg";
        Fixture.example "fine" "pos"] ∧
  label_to_id (Classification.load_dataset Examples.reviews_world "data"
                 Examples.model_bolt).2 =
    Some [(VStr "pos", 2); (VStr "neg", 1)] ∧
  (model (Classification.load_dataset Examples.reviews_world "data"
            Examples.model_bolt).2) ≫= label2id =
    Some [(VStr "pos", 2); (VStr "neg", 1)] ∧
  match (Classification.load_dataset Examples.reviews_world "data"
           Examples.model_bolt).1 with
  | Ok ds => PyDict.get ds "label"
  | Raise _ => None
  end = Some [VInt 2; VInt 1; VInt 2].
Proof. repeat split. Qed.

(** ** The feature preparers *)

Lemma lookup_label_state label st : (Classification.lookup_label label st).2 = st.
Proof.
  unfold Classification.lookup_label, bind, gets. simpl.
  destruct (label_to_id st) as [d|]; [|done].
  destruct (hashable label); [|done]. by destruct (PyDict.get d label).
Qed.

Lemma comprehension_lookup_Ok index labels ids st :
  label_to_id st = Some index →
  Forall2 (λ label i, hashable label = true ∧ PyDict.get index label = Some i)
          labels ids →
  comprehension Classification.lookup_label labels st = (Ok (VInt <$> ids), st).
Proof.
  intros Hindex Hall. induction Hall as [|label i labels ids [Hhash Hget] Hall IH]; simpl.
  - reflexivity.
  - unfold bind at 1. unfold Classification.lookup_label at 1.
    unfold bind at 1. unfold gets. rewrite Hindex, Hhash, Hget. simpl.
    unfold bind at 1. by rewrite IH.
Qed.

Lemma comprehension_lookup_missing index labels label st :
  label_to_id st = Some index →
  label ∈ labels → PyDict.get index label = None →
  ∃ e, (comprehension Classification.lookup_label labels st).1 = Raise e.
Proof.
  intros Hindex Hin Hget. induction labels as [|x labels IH]; simpl.
  - by apply elem_of_nil in Hin.
  - unfold bind at 1. pose proof (lookup_label_state x st) as Hst.
    destruct (Classification.lookup_label x st) as [[v|e] st'] eqn:Hx;
      simpl in Hst; subst st'; [|by exists e].
    apply elem_of_cons in Hin as [->|Hin].
    + exfalso. revert Hx. unfold Classification.lookup_label, bind, gets.
      rewrite Hindex, Hget. by destruct (hashable x).
    + destruct (IH Hin) as [e He]. exists e. unfold bind at 1.
      destruct (comprehension Classification.lookup_label labels st) as [[ys|e'] st'];
        simpl in *; congruence.
Qed.

(** C5: on a batch with a [text] and a [label] column, [tokenize_function]
    calls the tokenizer once, on the texts, with [padding="max_length"],
    [truncation=True] and [max_length=512].  If the tokenizer answers and
    every label is a key of [self.label_to_id], the result is the encoding
    with the column [label] set to the ids of the labels, in order.  If some
    label is not a key, the function raises and returns no batch. *)
Theorem tokenize_function_maps_labels examples st t text labels index :
  tokenizer st = Some t →
  getitem examples "text" = Ok text →
  getitem examples "label" = Ok labels →
  label_to_id st = Some index →
  let c := {| tc_text := text; tc_text_pair := None;
              tc_padding := PaddingMaxLength; tc_truncation := true;
              tc_max_length := Some 512 |} in
  (∀ encoding ids,
     t c = Ok encoding →
     Forall2 (λ label i, hashable label = true ∧ PyDict.get index label = Some i)
             labels ids →
     Classification.tokenize_function examples st =
       (Ok (PyDict.set encoding "label" (VInt <$> ids)), add_event (EvTokenize c) st)) ∧
  (∀ label,
     label ∈ labels → PyDict.get index label = None →
     ∃ e, (Classification.tokenize_function examples st).1 = Raise e).
Proof.
  intros Htok Htext Hlabels Hindex c. subst c. split.
  - intros encoding ids Hcall Hall. unfold Classification.tokenize_function.
    rewrite bind_gets, Htok, Htext, Hlabels. unfold bind at 1. simpl.
    unfold bind at 1. unfold call_tokenizer, bind at 1. unfold modify, lift. simpl.
    rewrite Hcall. unfold bind at 1. simpl. unfold bind at 1.
    by rewrite (comprehension_lookup_Ok index labels ids).
  - intros label Hin Hget. unfold Classification.tokenize_function.
    rewrite bind_gets, Htok, Htext, Hlabels. unfold bind at 1. simpl.
    unfold bind at 1. unfold call_tokenizer, bind at 1. unfold modify, lift. simpl.
    match goal with |- context [t ?c] => set (call := c) end.
    destruct (t call) as [encoding|e]; [|by exists e].
    unfold bind at 1. simpl. unfold bind at 1.
    destruct (comprehension_lookup_missing index labels label
                (add_event (EvTokenize call) st) Hindex Hin Hget) as [e He].
    exists e. revert He.
    generalize (comprehension Classification.lookup_label labels
                  (add_event (EvTokenize call) st)).
    intros [[ys|e'] st']; simpl; intros He; [discriminate He | by injection He as ->].
Qed.

Lemma tokenize_function_maps_labels_witness :
  Classification.tokenize_function
    [("text", [VStr "ok"; VStr "bad"]); ("label", [VStr "pos"; VStr "neg"])]
    (set_label_to_id (Some [(VStr "pos", 0); (VStr "neg", 1)]) Examples.tokenizer_bolt) =
  (Ok [("input_ids", [VList [111; 107]; VList [98; 97; 100]]);
       ("label", [VInt 0; VInt 1])],
   add_event (EvTokenize {| tc_text := [VStr "ok"; VStr "bad"]; tc_text_pair := None;
                            tc_padding := PaddingMaxLength; tc_truncation := true;
                            tc_max_length := Some 512 |})
     (set_label_to_id (Some [(VStr "pos", 0); (VStr "neg", 1)]) Examples.tokenizer_bolt)) ∧
  ∃ e, (Classification.tokenize_function
          [("text", [VStr "ok"; VStr "bad"]); ("label", [VStr "pos"; VStr "neutral"])]
          (set_label_to_id (Some [(VStr "pos", 0); (VStr "neg", 1)])
             Examples.tokenizer_bolt)).1 = Raise e.
Proof.
  split.
  - apply (proj1 (tokenize_function_maps_labels
             [("text", [VStr "ok"; VStr "bad"]); ("label", [VStr "pos"; VStr "neg"])]
             (set_label_to_id (Some [(VStr "pos", 0); (VStr "neg", 1)])
                Examples.tokenizer_bolt)
             Fixture.char_tokenizer [VStr "ok"; VStr "bad"] [VStr "pos"; VStr "neg"]
             [(VStr "pos", 0); (VStr "neg", 1)]
             eq_refl eq_refl eq_refl eq_refl)
           [("input_ids", [VList [111; 107]; VList [98; 97; 100]])] [0; 1]).
    + reflexivity.
    + repeat constructor.
  - apply (proj2 (tokenize_function_maps_labels
             [("text", [VStr "ok"; VStr "bad"]); ("label", [VStr "pos"; VStr "neutral"])]
             (set_label_to_id (Some [(VStr "pos", 0); (VStr "neg", 1)])
                Examples.tokenizer_bolt)
             Fixture.char_tokenizer [VStr "ok"; VStr "bad"] [VStr "pos"; VStr "neutral"]
             [(VStr "pos", 0); (VStr "neg", 1)]
             eq_refl eq_refl eq_refl eq_refl)
           (VStr "neutral")).
    + repeat constructor.
    + reflexivity.
Defined.

(** C6: on a batch with [premise], [hypothesis] and [label] columns,
    [prepare_train_features] calls the tokenizer once, on the premises
    paired with the hypotheses, with [truncation=True] and [padding=False]
    and no maximum length; when the tokenizer answers, the result is the
    encoding with the column [labels] set to the batch's [label] column as
    it is. *)
Theorem prepare_train_features_copies_labels examples st t premise hypothesis labels encoding :
  tokenizer st = Some t →
  getitem examples "premise" = Ok premise →
  getitem examples "hypothesis" = Ok hypothesis →
  getitem examples "label" = Ok labels →
  let c := {| tc_text := premise; tc_text_pair := Some hypothesis;
              tc_padding := PaddingFalse; tc_truncation := true;
              tc_max_length := None |} in
  t c = Ok encoding →
  CommonsenseReasoning.prepare_train_features examples st =
    (Ok (PyDict.set encoding "labels" labels), add_event (EvTokenize c) st) ∧
  getitem (PyDict.set encoding "labels" labels) "labels" = Ok labels.
Proof.
  intros Htok Hpremise Hhypothesis Hlabels c Hcall. subst c. split.
  - unfold CommonsenseReasoning.prepare_train_features, try_except.
    rewrite bind_gets, Htok, Hpremise, Hhypothesis, Hlabels.
    unfold bind, lift, call_tokenizer, modify, lift, bind. simpl.
    by rewrite Hcall.
  - unfold getitem. by rewrite get_set_eq.
Qed.

Lemma prepare_train_features_copies_labels_witness :
  CommonsenseReasoning.prepare_train_features
    [("premise", [VStr "a"; VStr "b"]); ("hypothesis", [VStr "c"; VStr "d"]);
     ("label", [VInt 1; VInt 0])] Examples.tokenizer_bolt =
    (Ok [("input_ids", [VList [97]; VList [98]]); ("labels", [VInt 1; VInt 0])],
     add_event (EvTokenize {| tc_text := [VStr "a"; VStr "b"];
                              tc_text_pair := Some [VStr "c"; VStr "d"];
                              tc_padding := PaddingFalse; tc_truncation := true;
                              tc_max_length := None |}) Examples.tokenizer_bolt).
Proof.
  apply (proj1 (prepare_train_features_copies_labels
                  [("premise", [VStr "a"; VStr "b"]); ("hypothesis", [VStr "c"; VStr "d"]);
                   ("label", [VInt 1; VInt 0])]
                  Examples.tokenizer_bolt
                  Fixture.char_tokenizer [VStr "a"; VStr "b"] [VStr "c"; VStr "d"]
                  [VInt 1; VInt 0] [("input_ids", [VList [97]; VList [98]])]
                  eq_refl eq_refl eq_refl eq_refl eq_refl)).
Defined.

(** ** The snapshot path of the classification loader *)

Lemma get_slice_rows i ds k :
  PyDict.get (slice_rows i ds) k =
  (λ col, take batch_size (drop (i * batch_size) col)) <$> PyDict.get ds k.
Proof.
  unfold slice_rows. induction ds as [|[k' col] ds IH]; simpl; [done|].
  by destruct (decide (k' = k)).
Qed.

(** In a table with rows, every column of the first slice has a cell. *)
Lemma slice_first_nonempty ds k col :
  table ds → num_rows ds ≠ 0%nat →
  getitem (slice_rows 0 ds) k = Ok col → col ≠ [].
Proof.
  intros Htable Hrows. unfold getitem. rewrite get_slice_rows.
  destruct (PyDict.get ds k) as [c|] eqn:Hget; simpl; [|done].
  intros [= <-] Hnil. apply get_Some_elem_of in Hget.
  unfold table in Htable. rewrite Forall_forall in Htable.
  specialize (Htable _ Hget). simpl in Htable.
  apply (f_equal length) in Hnil. rewrite length_take, length_drop in Hnil.
  change (length (@nil value)) with 0%nat in Hnil.
  unfold batch_size in Hnil. lia.
Qed.

(** Without a label map, a batch with a label fails. *)
Lemma tokenize_function_without_index examples st :
  label_to_id st = None →
  (∀ labels, getitem examples "label" = Ok labels → labels ≠ []) →
  ∃ e, (Classification.tokenize_function examples st).1 = Raise e.
Proof.
  intros Hnone Hlabels. unfold Classification.tokenize_function.
  rewrite bind_gets. unfold bind at 1, lift at 1.
  destruct (getitem examples "text") as [text|e]; [|by exists e].
  unfold bind at 1.
  destruct (tokenizer st) as [t|]; [|by eexists].
  unfold call_tokenizer, bind at 1, modify, lift at 1. simpl.
  match goal with |- context [t ?c] => set (call := c) end.
  destruct (t call) as [encoding|e]; [|by exists e].
  unfold bind at 1, lift at 1.
  destruct (getitem examples "label") as [labels|e] eqn:Hget; [|by exists e].
  destruct labels as [|label labels]; [by destruct (Hlabels [])|].
  simpl. unfold bind at 1 2. unfold Classification.lookup_label at 1.
  unfold bind at 1, gets. simpl. rewrite Hnone. by eexists.
Qed.

(** With a label map, a batch one of whose labels is not a key fails. *)
Lemma tokenize_function_missing_label examples st index labels label :
  label_to_id st = Some index →
  getitem examples "label" = Ok labels →
  label ∈ labels → PyDict.get index label = None →
  ∃ e, (Classification.tokenize_function examples st).1 = Raise e.
Proof.
  intros Hindex Hlabels Hin Hget. unfold Classification.tokenize_function.
  rewrite bind_gets. unfold bind at 1, lift at 1.
  destruct (getitem examples "text") as [text|e]; [|by exists e].
  unfold bind at 1.
  destruct (tokenizer st) as [t|]; [|by eexists].
  unfold call_tokenizer, bind at 1, modify, lift at 1. simpl.
  match goal with |- context [t ?c] => set (call := c) end.
  destruct (t call) as [encoding|e]; [|by exists e].
  unfold bind at 1, lift at 1. rewrite Hlabels. unfold bind at 1.
  destruct (comprehension_lookup_missing index labels label
              (add_event (EvTokenize call) st) Hindex Hin Hget) as [e He].
  exists e.
  destruct (comprehension Classification.lookup_label labels
              (add_event (EvTokenize call) st)) as [[ids|e'] st']; simpl in *;
    [discriminate He | by injection He as ->].
Qed.

(** With a label map that has every label of the batch, the batch is
    encoded with the ids of the map. *)
Lemma tokenize_function_Ok examples st index tok text labels ids encoding :
  label_to_id st = Some index →
  tokenizer st = Some tok →
  getitem examples "text" = Ok text →
  getitem examples "label" = Ok labels →
  Forall2 (λ label i, hashable label = true ∧ PyDict.get index label = Some i)
          labels ids →
  tok {| tc_text := text; tc_text_pair := None; tc_padding := PaddingMaxLength;
         tc_truncation := true; tc_max_length := Some 512 |} = Ok encoding →
  (Classification.tokenize_function examples st).1 =
    Ok (PyDict.set encoding "label" (VInt <$> ids)).
Proof.
  intros Hindex Htok Htext Hlabels Hids Hcall.
  unfold Classification.tokenize_function.
  rewrite bind_gets, Htok, Htext, Hlabels. unfold bind at 1. simpl.
  unfold bind at 1. unfold call_tokenizer, bind at 1. unfold modify, lift. simpl.
  rewrite Hcall. unfold bind at 1. simpl. unfold bind at 1.
  by rewrite (comprehension_lookup_Ok index labels ids).
Qed.

(** C10: with the marker, the classification loader derives no label index.
    [self.label_to_id] is the value captured on entry, [label2id] of the
    model's configuration when that is a non-empty dict and [None] when the
    model is missing or its [label2id] is empty, and it is the value the
    snapshot is tokenized under; the model's configuration is not written.
    When the captured value is [None], loading a snapshot that has rows
    raises.  When it is a map, a snapshot of one batch whose labels are all
    keys of the map gets the ids of the map, and a snapshot with a label
    that is not a key of the map raises: no id is made for it. *)
Theorem snapshot_keeps_captured_labels W dataset_path st :
  isfile W (marker_of dataset_path) = true →
  let captured := Classification.initial_label_to_id (model st) in
  (∃ st0, label_to_id st0 = captured ∧
          Classification.load_dataset W dataset_path st =
          logged (error_entry TextClassification dataset_path)
            (bind (lift (load_from_disk W dataset_path))
                  (Dataset_map Classification.tokenize_function []) st0)) ∧
  label_to_id (Classification.load_dataset W dataset_path st).2 = captured ∧
  model (Classification.load_dataset W dataset_path st).2 = model st ∧
  ((model st = None ∨
    ∃ config, model st = Some config ∧
              (label2id config = None ∨ label2id config = Some [])) →
   captured = None) ∧
  (captured = None →
   ∀ ds, load_from_disk W dataset_path = Ok ds → table ds → num_rows ds ≠ 0%nat →
         ∃ e, (Classification.load_dataset W dataset_path st).1 = Raise e) ∧
  (∀ config index, model st = Some config → label2id config = Some index →
                   index ≠ [] → captured = Some index) ∧
  (∀ index ds examples tok text labels ids encoding,
     captured = Some index →
     load_from_disk W dataset_path = Ok ds →
     num_rows ds ≠ 0%nat → batches ds = [examples] →
     tokenizer st = Some tok →
     getitem examples "text" = Ok text →
     getitem examples "label" = Ok labels →
     Forall2 (λ label i, hashable label = true ∧ PyDict.get index label = Some i)
             labels ids →
     tok {| tc_text := text; tc_text_pair := None; tc_padding := PaddingMaxLength;
            tc_truncation := true; tc_max_length := Some 512 |} = Ok encoding →
     (Classification.load_dataset W dataset_path st).1 =
       Ok (PyDict.update (PyDict.remove_keys [] ds)
             (concat_batches [PyDict.set encoding "label" (VInt <$> ids)]))) ∧
  (∀ index ds labels label,
     captured = Some index →
     load_from_disk W dataset_path = Ok ds → num_rows ds ≠ 0%nat →
     getitem (slice_rows 0 ds) "label" = Ok labels →
     label ∈ labels → PyDict.get index label = None →
     ∃ e, (Classification.load_dataset W dataset_path st).1 = Raise e).
Proof.
  intros Hmarker captured.
  pose proof (load_dataset_snapshot W TextClassification dataset_path st Hmarker) as Hload.
  simpl in Hload. set (st0 := touch _ _ _) in Hload.
  assert (label_to_id st0 = captured) as Hcaptured by done.
  assert (model st0 = model st) as Hmodel by done.
  assert (tokenizer st0 = tokenizer st) as Htokenizer by done.
  split_and!.
  - by exists st0.
  - rewrite Hload.
    destruct (logged_fields (error_entry TextClassification dataset_path)
      (bind (lift (load_from_disk W dataset_path))
         (λ ds, Dataset_map Classification.tokenize_function [] ds) st0))
      as (_ & _ & _ & _ & ->).
    unfold bind, lift. destruct (load_from_disk W dataset_path) as [ds|e]; [|done].
    by destruct (prepares_Dataset_map Classification.tokenize_function [] ds
                   tokenize_function_prepares st0) as (tr & _ & _ & _ & _ & _ & ->).
  - rewrite Hload.
    destruct (logged_fields (error_entry TextClassification dataset_path)
      (bind (lift (load_from_disk W dataset_path))
         (λ ds, Dataset_map Classification.tokenize_function [] ds) st0))
      as (_ & _ & -> & _).
    unfold bind, lift. destruct (load_from_disk W dataset_path) as [ds|e]; [|done].
    by destruct (prepares_Dataset_map Classification.tokenize_function [] ds
                   tokenize_function_prepares st0) as (tr & _ & _ & -> & _).
  - unfold captured, Classification.initial_label_to_id.
    intros [->|(config & -> & [->| ->])]; done.
  - intros Hnone ds Hsnapshot Htable Hrows. rewrite Hload, Hsnapshot.
    destruct (tokenize_function_without_index (slice_rows 0 ds) st0) as [e He].
    { by rewrite Hcaptured. }
    { intros labels. by apply slice_first_nonempty. }
    exists e. unfold bind, lift.
    by rewrite (Dataset_map_first_Raise _ _ _ e).
  - unfold captured, Classification.initial_label_to_id.
    intros config index -> Hindex Hne. rewrite Hindex.
    by destruct index.
  - intros index ds examples tok text labels ids encoding
           Hsome Hsnapshot Hrows Hbatches Htok Htext Hlabels Hids Hcall.
    rewrite Hload, Hsnapshot.
    pose proof (tokenize_function_Ok examples st0 index tok text labels ids encoding)
      as Hrun.
    rewrite Hcaptured, Htokenizer in Hrun.
    specialize (Hrun Hsome Htok Htext Hlabels Hids Hcall).
    unfold bind at 1, lift at 1. unfold Dataset_map.
    rewrite bool_decide_false by done. rewrite Hbatches. simpl comprehension.
    unfold bind at 1 2.
    destruct (Classification.tokenize_function examples st0) as [r st1].
    simpl in Hrun. by subst r.
  - intros index ds labels label Hsome Hsnapshot Hrows Hlabels Hin Hget.
    rewrite Hload, Hsnapshot.
    destruct (tokenize_function_missing_label (slice_rows 0 ds) st0
                index labels label) as [e He]; [by rewrite Hcaptured|done..|].
    exists e. unfold bind, lift.
    by rewrite (Dataset_map_first_Raise _ _ _ e).
Qed.

Lemma snapshot_keeps_captured_labels_witness :
  isfile Examples.reviews_snapshot_world (marker_of "data") = true ∧
  (label_to_id (Classification.load_dataset Examples.reviews_snapshot_world "data"
                  Examples.model_bolt).2 = None ∧
   model (Classification.load_dataset Examples.reviews_snapshot_world "data"
            Examples.model_bolt).2 = Some Fixture.no_labels ∧
   ∃ e, (Classification.load_dataset Examples.reviews_snapshot_world "data"
           Examples.model_bolt).1 = Raise e) ∧
  (label_to_id (Classification.load_dataset Examples.reviews_snapshot_world "data"
                  SnapshotExamples.sentiment_bolt).2 =
     Some [(VStr "pos", 0); (VStr "neg", 1)] ∧
   model (Classification.load_dataset Examples.reviews_snapshot_world "data"
            SnapshotExamples.sentiment_bolt).2 = Some SnapshotExamples.sentiment ∧
   (Classification.load_dataset Examples.reviews_snapshot_world "data"
      SnapshotExamples.sentiment_bolt).1 =
     Ok [("text", [VStr "ok"; VStr "bad"]);
         ("label", [VInt 0; VInt 1]);
         ("input_ids", [VList [111; 107]; VList [98; 97; 100]])]).
Proof.
  split; [reflexivity|]. split.
  - destruct (snapshot_keeps_captured_labels Examples.reviews_snapshot_world "data"
                Examples.model_bolt eq_refl)
      as (_ & Hlabels & Hmodel & _ & Hraise & _).
    split; [exact Hlabels|]. split; [exact Hmodel|].
    apply (Hraise eq_refl [("text", [VStr "ok"; VStr "bad"]);
                           ("label", [VStr "pos"; VStr "neg"])]).
    + reflexivity.
    + by repeat constructor.
    + discriminate.
  - destruct (snapshot_keeps_captured_labels Examples.reviews_snapshot_world "data"
                SnapshotExamples.sentiment_bolt eq_refl)
      as (_ & Hlabels & Hmodel & _ & _ & Hsome & Hids & _).
    split; [exact Hlabels|]. split; [exact Hmodel|].
    apply (Hids [(VStr "pos", 0); (VStr "neg", 1)]
                [("text", [VStr "ok"; VStr "bad"]); ("label", [VStr "pos"; VStr "neg"])]
                [("text", [VStr "ok"; VStr "bad"]); ("label", [VStr "pos"; VStr "neg"])]
                Fixture.char_tokenizer [VStr "ok"; VStr "bad"]
                [VStr "pos"; VStr "neg"] [0; 1]
                [("input_ids", [VList [111; 107]; VList [98; 97; 100]])]).
    + apply (Hsome SnapshotExamples.sentiment); [reflexivity..|discriminate].
    + reflexivity.
    + discriminate.
    + reflexivity.
    + reflexivity.
    + reflexivity.
    + reflexivity.
    + by repeat constructor.
    + reflexivity.
Defined.

(** ** A missing tokenizer *)

(** With no tokenizer, a preparer raises on any batch, and calls nothing. *)
Lemma preparer_without_tokenizer t examples st :
  tokenizer st = None →
  (preparer_of t examples st).1 = Raise (preparation_error t examples) ∧
  trace (preparer_of t examples st).2 = trace st.
Proof.
  intros Hnone. destruct t; simpl.
  - unfold Classification.tokenize_function. rewrite bind_gets, Hnone.
    unfold bind, lift. by destruct (getitem examples "text").
  - unfold CommonsenseReasoning.prepare_train_features, try_except.
    by rewrite bind_gets, Hnone.
Qed.

Lemma update_labels_fields data new st :
  Classification.make_label_to_id data = Ok new →
  (Classification.update_labels data st).1 = Ok tt ∧
  tokenizer (Classification.update_labels data st).2 = tokenizer st ∧
  trace (Classification.update_labels data st).2 = trace st.
Proof.
  intros Hnew. unfold Classification.update_labels.
  rewrite Hnew. unfold bind, lift, gets, modify. simpl.
  destruct (model st) as [config|]; [|done].
  by destruct (Classification.label2id_differs (label2id config) new).
Qed.

(** Without marker, once the files are read, the labels derived and the
    frame built, what is left of the load is the map of the preparer. *)
Lemma load_dataset_directory_map t W dataset_path st data ds :
  isfile W (marker_of dataset_path) = false →
  (load_files_of t W dataset_path st).1 = Ok data →
  (t = TextClassification → is_ok (Classification.make_label_to_id data) = true) →
  from_pandas W data = Ok ds →
  ∃ tr st3,
    trace (load_files_of t W dataset_path st).2 = trace st ++ tr ∧
    tokenizer st3 = tokenizer st ∧
    trace st3 = trace st ++ [EvCall "os.path.isfile" (marker_of dataset_path)] ++ tr
                         ++ [EvCall "Dataset.from_pandas" dataset_path] ∧
    load_dataset_of t W dataset_path st =
      logged (error_entry t dataset_path)
        (Dataset_map (preparer_of t) (removed_of t ds) ds st3).
Proof.
  intros Hmarker Hdata Hlabels Hframe.
  rewrite load_dataset_directory by done.
  pose (st0 := touch [EvCall "os.path.isfile" (marker_of dataset_path)] []
                 (entry t dataset_path st)).
  destruct (load_files_of_reads t W dataset_path) as (r & tr & hs & _ & Hio).
  rewrite Hio in Hdata. simpl in Hdata. subst r. rewrite (Hio st).
  pose (st1 := touch tr hs st0).
  assert (tokenizer st1 = tokenizer st ∧
          trace st1 = trace st ++ [EvCall "os.path.isfile" (marker_of dataset_path)] ++ tr)
    as [Htok1 Htrace1].
  { unfold st1, st0. simpl.
    destruct (entry_fields t dataset_path st) as (-> & _ & _ & ->).
    by rewrite <- app_assoc. }
  assert (∃ st2, (match t with
                  | TextClassification => Classification.update_labels data
                  | PairReasoning => ret tt
                  end) st1 = (Ok tt, st2) ∧
                 tokenizer st2 = tokenizer st1 ∧ trace st2 = trace st1)
    as (st2 & Hst2 & Htok2 & Htrace2).
  { destruct t.
    - destruct (Classification.make_label_to_id data) as [new|e] eqn:Hnew;
        [|by specialize (Hlabels eq_refl)].
      destruct (update_labels_fields data new st1 Hnew) as (Hok & Htok & Htr).
      destruct (Classification.update_labels data st1) as [r st2]. simpl in *.
      subst r. by exists st2.
    - by exists st1. }
  exists tr, (touch [EvCall "Dataset.from_pandas" dataset_path] [] st2).
  split_and!.
  - done.
  - simpl. by rewrite Htok2.
  - simpl. rewrite Htrace2, Htrace1. by rewrite <- !app_assoc.
  - f_equal. unfold bind at 1. rewrite (Hio (touch _ _ _)). fold st0 st1.
    unfold bind at 1. rewrite Hst2. by rewrite Hframe, bind_call_Ok.
Qed.

(** C7, as the code has it: for either bolt a missing tokenizer is found by
    the feature preparer, on the first batch.  The preparer of the pair
    task raises [Exception("Tokenizer not initialized")] before it looks at
    the batch; the one of the classification task raises when it calls the
    tokenizer.  [load_dataset] raises that exception after it has loaded the
    snapshot, or read every file of the directory and built the frame, when
    the dataset has a row; the tokenizer is not called.  When the dataset
    has no row the preparer does not run: [load_dataset] returns the
    dataset, without the columns it was told to remove, and the missing
    tokenizer goes unnoticed. *)
Theorem missing_tokenizer_raises_in_preparation t W dataset_path st :
  tokenizer st = None →
  (∀ ds, isfile W (marker_of dataset_path) = true →
         load_from_disk W dataset_path = Ok ds → num_rows ds ≠ 0%nat →
         (load_dataset_of t W dataset_path st).1 =
           Raise (preparation_error t (slice_rows 0 ds)) ∧
         trace (load_dataset_of t W dataset_path st).2 =
           trace st ++ [EvCall "os.path.isfile" (marker_of dataset_path);
                        EvCall "load_from_disk" dataset_path]) ∧
  (∀ data ds, isfile W (marker_of dataset_path) = false →
         (load_files_of t W dataset_path st).1 = Ok data →
         (t = TextClassification → is_ok (Classification.make_label_to_id data) = true) →
         from_pandas W data = Ok ds → num_rows ds ≠ 0%nat →
         (load_dataset_of t W dataset_path st).1 =
           Raise (preparation_error t (slice_rows 0 ds)) ∧
         ∃ tr, trace (load_files_of t W dataset_path st).2 = trace st ++ tr ∧
               trace (load_dataset_of t W dataset_path st).2 =
                 trace st ++ [EvCall "os.path.isfile" (marker_of dataset_path)] ++ tr
                          ++ [EvCall "Dataset.from_pandas" dataset_path]) ∧
  (∀ ds, isfile W (marker_of dataset_path) = true →
         load_from_disk W dataset_path = Ok ds → num_rows ds = 0%nat →
         (load_dataset_of t W dataset_path st).1 =
           Ok (PyDict.remove_keys (removed_of t ds) ds) ∧
         trace (load_dataset_of t W dataset_path st).2 =
           trace st ++ [EvCall "os.path.isfile" (marker_of dataset_path);
                        EvCall "load_from_disk" dataset_path]) ∧
  (∀ data ds, isfile W (marker_of dataset_path) = false →
         (load_files_of t W dataset_path st).1 = Ok data →
         (t = TextClassification → is_ok (Classification.make_label_to_id data) = true) →
         from_pandas W data = Ok ds → num_rows ds = 0%nat →
         (load_dataset_of t W dataset_path st).1 =
           Ok (PyDict.remove_keys (removed_of t ds) ds) ∧
         ∃ tr, trace (load_files_of t W dataset_path st).2 = trace st ++ tr ∧
               trace (load_dataset_of t W dataset_path st).2 =
                 trace st ++ [EvCall "os.path.isfile" (marker_of dataset_path)] ++ tr
                          ++ [EvCall "Dataset.from_pandas" dataset_path]).
Proof.
  intros Hnone. split_and!.
  - intros ds Hmarker Hsnapshot Hrows. rewrite load_dataset_snapshot by done.
    set (st0 := touch _ _ (entry t dataset_path st)).
    assert (tokenizer st0 = None) as Hnone0.
    { unfold st0. simpl. by destruct (entry_fields t dataset_path st) as (_ & _ & _ & ->). }
    destruct (preparer_without_tokenizer t (slice_rows 0 ds) st0 Hnone0) as [Herr Htrace].
    rewrite Hsnapshot. unfold bind, lift.
    rewrite (Dataset_map_first_Raise _ _ _ _ _ Hrows Herr). simpl.
    split; [done|]. rewrite Htrace. unfold st0. simpl.
    by destruct (entry_fields t dataset_path st) as (-> & _).
  - intros data ds Hmarker Hdata Hlabels Hframe Hrows.
    destruct (load_dataset_directory_map t W dataset_path st data ds
                Hmarker Hdata Hlabels Hframe) as (tr & st3 & Hread & Htok3 & Htrace3 & ->).
    rewrite Hnone in Htok3.
    destruct (preparer_without_tokenizer t (slice_rows 0 ds) st3 Htok3) as [Herr Htrace].
    rewrite (Dataset_map_first_Raise _ _ _ _ _ Hrows Herr). simpl.
    split; [done|]. exists tr. split; [done|]. by rewrite Htrace.
  - intros ds Hmarker Hsnapshot Hrows. rewrite load_dataset_snapshot by done.
    rewrite Hsnapshot. unfold bind, lift. rewrite Dataset_map_empty by done.
    simpl. split; [done|]. by destruct (entry_fields t dataset_path st) as (-> & _).
  - intros data ds Hmarker Hdata Hlabels Hframe Hrows.
    destruct (load_dataset_directory_map t W dataset_path st data ds
                Hmarker Hdata Hlabels Hframe) as (tr & st3 & Hread & Htok3 & Htrace3 & ->).
    rewrite Dataset_map_empty by done. simpl.
    split; [done|]. by exists tr.
Qed.

Lemma missing_tokenizer_raises_in_preparation_witness :
  tokenizer Examples.bare_bolt = None ∧
  ((load_dataset_of PairReasoning Examples.pairs_world "data" Examples.bare_bolt).1 =
     Raise (Exception_ "Tokenizer not initialized") ∧
   ∃ tr, trace (load_files_of PairReasoning Examples.pairs_world "data"
                  Examples.bare_bolt).2 = trace Examples.bare_bolt ++ tr ∧
         trace (load_dataset_of PairReasoning Examples.pairs_world "data"
                  Examples.bare_bolt).2 =
           trace Examples.bare_bolt ++ [EvCall "os.path.isfile" (marker_of "data")]
             ++ tr ++ [EvCall "Dataset.from_pandas" "data"]) ∧
  (load_dataset_of PairReasoning SnapshotExamples.empty_snapshot_world "data"
     Examples.bare_bolt).1 = Ok [] ∧
  (load_dataset_of TextClassification SnapshotExamples.hollow_world "data"
     Examples.bare_bolt).1 = Ok [].
Proof.
  split; [reflexivity|]. split; [|split].
  - apply (proj1 (proj2 (missing_tokenizer_raises_in_preparation PairReasoning
                           Examples.pairs_world "data" Examples.bare_bolt eq_refl))
             [Fixture.pair "it rains" "it is wet" 1; Fixture.pair "it rains" "it is dry" 0]
             (Fixture.frame [Fixture.pair "it rains" "it is wet" 1;
                             Fixture.pair "it rains" "it is dry" 0])).
    + reflexivity.
    + reflexivity.
    + discriminate.
    + reflexivity.
    + discriminate.
  - apply (proj1 (proj1 (proj2 (proj2 (missing_tokenizer_raises_in_preparation
                    PairReasoning SnapshotExamples.empty_snapshot_world "data"
                    Examples.bare_bolt eq_refl)))
             [("premise", []); ("hypothesis", []); ("label", [])]
             eq_refl eq_refl eq_refl)).
  - apply (proj1 (proj2 (proj2 (proj2 (missing_tokenizer_raises_in_preparation
                    TextClassification SnapshotExamples.hollow_world "data"
                    Examples.bare_bolt eq_refl))) [] [] eq_refl eq_refl
             (λ _, eq_refl) eq_refl eq_refl)).
Defined.

(** C7, as stated, fails: the directory holds a [.jsonl] file of two pairs
    and the bolt has no tokenizer.  Either loader opens the file and decodes
    its lines before anything is raised. *)
Lemma missing_tokenizer_found_after_decoding :
  tokenizer Examples.bare_bolt = None ∧
  ¬ raised_before_processing PairReasoning Examples.pairs_world "data" Examples.bare_bolt ∧
  ¬ raised_before_processing TextClassification Examples.pairs_world "data"
      Examples.bare_bolt.
Proof.
  split; [reflexivity|].
  split; intros (e & _ & Hev);
    (destruct (Hev (EvCall "json.loads" "line 1")) as [Hin|[Heq|Heq]];
     [vm_compute; repeat constructor
     | by apply elem_of_nil in Hin
     | discriminate Heq
     | discriminate Heq]).
Qed.

(** ** Resource handles *)

(** Reading a directory closes every file it opens: the handles it leaves
    behind are sqlite3 connections. *)
Lemma load_files_of_handles t W dataset_path st :
  ∃ hs, Forall is_connection hs ∧
        handles (load_files_of t W dataset_path st).2 = hs ++ handles st.
Proof.
  destruct (load_files_of_reads t W dataset_path) as (r & tr & hs & Hhs & Hio).
  exists hs. by rewrite Hio.
Qed.

(** C9 (the code departs from it): a directory with one [.db] file.  The
    connection made for the file is never closed; it is still held when
    [load_dataset] returns (the pair task, the table is there) and when it
    raises (the classification task, the table is missing). *)
Theorem sqlite_connection_left_open :
  is_ok (load_dataset_of PairReasoning Examples.database_world "data"
           Examples.tokenizer_bolt).1 = true ∧
  handles (load_dataset_of PairReasoning Examples.database_world "data"
             Examples.tokenizer_bolt).2 = [SqliteConnection "data/train.db"] ∧
  (load_dataset_of TextClassification Examples.no_table_world "data"
     Examples.tokenizer_bolt).1 =
    Raise (LibraryError "DatabaseError" "no such table: dataset_table") ∧
  handles (load_dataset_of TextClassification Examples.no_table_world "data"
             Examples.tokenizer_bolt).2 = [SqliteConnection "data/train.db"].
Proof. repeat split. Qed.

(** * Further properties of the loaders *)

(** ** Extensions *)
Section suffixes.

Lemma chars_length s : length (chars s) = String.length s.
Proof. induction s as [|c s IH]; simpl; [done|]. by rewrite IH. Qed.

Lemma chars_inj s1 s2 : chars s1 = chars s2 → s1 = s2.
Proof.
  intros Heq. rewrite <- (String.string_of_list_ascii_of_string s1),
                     <- (String.string_of_list_ascii_of_string s2).
  unfold chars in Heq. by rewrite Heq.
Qed.

Lemma substring_all s : String.substring 0 (String.length s) s = s.
Proof. induction s as [|c s IH]; simpl; [done|]. by rewrite IH. Qed.

Lemma substring_suffix s : ∀ suffix : string,
  (String.length suffix ≤ String.length s)%nat →
  String.substring (String.length s - String.length suffix) (String.length suffix) s = suffix
  ↔ chars suffix `suffix_of` chars s.
Proof.
  induction s as [|c s IH]; intros suffix Hlen.
  - destruct suffix as [|c' suffix]; simpl in *; [|lia]. split; [|done].
    intros _. by exists [].
  - destruct (decide (String.length suffix ≤ String.length s)%nat) as [Hle|Hgt].
    + replace (String.length (String c s) - String.length suffix)%nat
        with (S (String.length s - String.length suffix)) by (simpl; lia).
      change (String.substring (S ?k) ?m (String c s)) with (String.substring k m s).
      rewrite IH by done. simpl. split.
      * apply suffix_cons_r.
      * intros [[|c' k] Hk]; simpl in Hk.
        -- apply (f_equal length) in Hk. simpl in Hk. rewrite !chars_length in Hk. lia.
        -- injection Hk as _ Hk. by exists k.
    + assert (String.length suffix = String.length (String c s)) as Heq
        by (simpl in *; lia).
      rewrite Heq, Nat.sub_diag, substring_all. split.
      * intros <-. by exists [].
      * intros Hsuf. apply chars_inj. symmetry. apply suffix_length_eq; [done|].
        rewrite !chars_length. simpl in *. lia.
Qed.

(** [s.endswith(suffix)] holds exactly when the characters of [suffix] end
    those of [s]. *)
Lemma endswith_suffix s suffix :
  endswith s suffix = true ↔ chars suffix `suffix_of` chars s.
Proof.
  unfold endswith. destruct (String.length suffix <=? String.length s)%nat eqn:Hle.
  - apply Nat.leb_le in Hle. rewrite bool_decide_eq_true. by apply substring_suffix.
  - apply Nat.leb_gt in Hle. split; [done|]. intros Hsuf.
    apply suffix_length in Hsuf. rewrite !chars_length in Hsuf. lia.
Qed.

(** Two endings of one name: one of them ends the other. *)
Lemma endswith_comparable s e1 e2 :
  endswith s e1 = true → endswith s e2 = true →
  endswith e1 e2 = true ∨ endswith e2 e1 = true.
Proof.
  rewrite !endswith_suffix. intros H1 H2.
  destruct (suffix_weak_total _ _ _ H1 H2); auto.
Qed.
End suffixes.

Lemma extensions_incomparable :
  forallb (λ e1, forallb (λ e2,
    implb (endswith e1 e2 || endswith e2 e1) (bool_decide (e1 = e2)))
    recognized_extensions) recognized_extensions = true.
Proof. by vm_compute. Qed.

Lemma other_extension filename e e' :
  e ∈ recognized_extensions → e' ∈ recognized_extensions → e ≠ e' →
  endswith filename e = true → endswith filename e' = false.
Proof.
  intros He He' Hne H1. destruct (endswith filename e') eqn:H2; [|done].
  destruct Hne. pose proof extensions_incomparable as Hall.
  rewrite forallb_forall in Hall.
  specialize (Hall e (proj1 (list_elem_of_In _ _) He)).
  rewrite forallb_forall in Hall.
  specialize (Hall e' (proj1 (list_elem_of_In _ _) He')).
  destruct (endswith_comparable filename e e' H1 H2) as [H|H];
    rewrite H in Hall; [|rewrite orb_true_r in Hall];
    by apply bool_decide_eq_true in Hall.
Qed.

(** X1: no file name ends in two of the recognized extensions, so at most
    one test of the [elif] chain holds for a name and the order of the
    tests does not matter. *)
Theorem recognized_extensions_exclusive filename e1 e2 :
  e1 ∈ recognized_extensions → e2 ∈ recognized_extensions →
  endswith filename e1 = true → endswith filename e2 = true → e1 = e2.
Proof.
  intros He1 He2 H1 H2. destruct (decide (e1 = e2)) as [|Hne]; [done|].
  pose proof (other_extension filename e1 e2 He1 He2 Hne H1) as Hnot.
  congruence.
Qed.

Lemma recognized_extensions_exclusive_witness :
  ".json" ∈ recognized_extensions ∧ endswith "train.json" ".json" = true ∧
  ".json" = ".json".
Proof.
  assert (".json" ∈ recognized_extensions) as Hin by (by repeat constructor).
  split; [exact Hin|]. split; [reflexivity|].
  exact (recognized_extensions_exclusive "train.json" ".json" ".json"
           Hin Hin eq_refl eq_refl).
Defined.

Ltac extension_mem :=
  unfold recognized_extensions;
  repeat first [apply list_elem_of_here | apply list_elem_of_further].

(** Settles the tests of the chain from the one that holds. *)
Ltac dispatch H :=
  match type of H with
  | endswith ?f ?x = true =>
      repeat match goal with
             | |- context [endswith f ?e] =>
                 first [ rewrite H
                       | rewrite (other_extension f x e ltac:(extension_mem)
                                    ltac:(extension_mem) ltac:(discriminate) H) ]
             end
  end;
  cbn [orb].

(** ** One file of each format *)

Lemma io_call_extended function arg data (r : result (list record)) :
  io (let* df := call function arg r in ret (data ++ df))
     (extended data r) [EvCall function arg] [].
Proof. intros st. unfold bind, call, modify, lift, ret. simpl. by destruct r. Qed.

Lemma with_open_Ok {A} W filepath (body : list string → M A) lines r tr :
  open_r W filepath = Ok lines → io (body lines) r tr [] →
  io (with_open W filepath body) r (EvCall "open" filepath :: tr) [].
Proof.
  intros Hopen Hbody st. unfold with_open, bind, call, modify, lift, finally. simpl.
  rewrite Hopen, Hbody. unfold touch, release. simpl.
  rewrite decide_True by done. by rewrite <- app_assoc.
Qed.

Lemma with_open_Raise {A} W filepath (body : list string → M A) e :
  open_r W filepath = Raise e →
  io (with_open W filepath body) (Raise e) [EvCall "open" filepath] [].
Proof.
  intros Hopen st. unfold with_open, bind, call, modify, lift. simpl.
  by rewrite Hopen.
Qed.

(** X2: a file in one of the tabular formats (.csv, .parquet, .tsv, .xls,
    .xlsx, .feather) takes one call of the reader of its format on the
    joined path.  The rows are appended to the records read so far, an
    exception of the reader is the exception of the turn, and no handle is
    acquired. *)
Theorem tabular_file_read W t dataset_path filename extension function reader :
  (extension, function, reader) ∈ tabular_readers W →
  endswith filename extension = true →
  ∀ data st,
    load_file_of t W dataset_path filename data st =
    (extended data (reader (path_join dataset_path filename)),
     add_event (EvCall function (path_join dataset_path filename)) st).
Proof.
  intros Hin Hends data st. unfold tabular_readers in Hin.
  repeat (apply elem_of_cons in Hin as [[= -> -> ->]|Hin]);
    [..|by apply elem_of_nil in Hin];
    destruct t; simpl; unfold load_file; dispatch Hends;
    unfold bind, call, modify, lift, ret; simpl;
    match goal with |- context [extended _ ?r] => by destruct r end.
Qed.

Lemma tabular_file_read_witness :
  (".csv", "pd.read_csv", read_csv Examples.reviews_world ",")
    ∈ tabular_readers Examples.reviews_world ∧
  endswith "train.csv" ".csv" = true ∧
  load_file_of TextClassification Examples.reviews_world "data" "train.csv" []
    Examples.model_bolt =
  (Ok [Fixture.example "ok" "pos"; Fixture.example "bad" "neg";
       Fixture.example "fine" "pos"],
   add_event (EvCall "pd.read_csv" "data/train.csv") Examples.model_bolt).
Proof.
  assert ((".csv", "pd.read_csv", read_csv Examples.reviews_world ",")
            ∈ tabular_readers Examples.reviews_world) as Hin by apply list_elem_of_here.
  split; [exact Hin|]. split; [reflexivity|].
  exact (tabular_file_read Examples.reviews_world TextClassification "data" "train.csv"
           ".csv" "pd.read_csv" (read_csv Examples.reviews_world ",") Hin eq_refl
           [] Examples.model_bolt).
Defined.

(** X3: a [.json], [.yaml] or [.yml] file is opened, parsed as a whole by
    the parser of its format, and closed again whether or not the parser
    raised; the records are appended to those read so far.  A file that
    cannot be opened raises before anything is parsed. *)
Theorem text_file_parsed W t dataset_path filename extension function parser :
  (extension, function, parser) ∈ text_parsers W →
  endswith filename extension = true →
  ∀ data st,
    load_file_of t W dataset_path filename data st =
    match open_r W (path_join dataset_path filename) with
    | Ok lines =>
        (extended data (parser lines),
         touch [EvCall "open" (path_join dataset_path filename);
                EvCall function (path_join dataset_path filename)] [] st)
    | Raise e =>
        (Raise e, touch [EvCall "open" (path_join dataset_path filename)] [] st)
    end.
Proof.
  intros Hin Hends data st. unfold text_parsers in Hin.
  repeat (apply elem_of_cons in Hin as [[= -> -> ->]|Hin]);
    [..|by apply elem_of_nil in Hin];
    destruct t; simpl; unfold load_file; dispatch Hends;
    (destruct (open_r W (path_join dataset_path filename)) as [lines|e] eqn:Hopen;
     [ apply (with_open_Ok W _ _ lines _ _ Hopen), io_call_extended
     | apply (with_open_Raise W _ _ e Hopen) ]).
Qed.

Lemma text_file_parsed_witness :
  (".json", "json.load", json_load MoreExamples.parsed_world) ∈ text_parsers MoreExamples.parsed_world ∧
  endswith "train.json" ".json" = true ∧
  load_file_of PairReasoning MoreExamples.parsed_world "data" "train.json" []
    Examples.bare_bolt =
  (Ok [Fixture.pair "it rains" "it is wet" 1],
   touch [EvCall "open" "data/train.json"; EvCall "json.load" "data/train.json"] []
     Examples.bare_bolt).
Proof.
  assert ((".json", "json.load", json_load MoreExamples.parsed_world)
            ∈ text_parsers MoreExamples.parsed_world) as Hin by apply list_elem_of_here.
  split; [exact Hin|]. split; [reflexivity|].
  exact (text_file_parsed MoreExamples.parsed_world PairReasoning "data" "train.json"
           ".json" "json.load" (json_load MoreExamples.parsed_world) Hin eq_refl
           [] Examples.bare_bolt).
Defined.

(** The lines of a [.jsonl] file, decoded in order. *)
Lemma io_json_lines_Ok W lines recs : ∀ data,
  Forall2 (λ line r, json_loads W line = Ok r) lines recs →
  io (for_each lines (λ line data,
        let* example := call "json.loads" line (json_loads W line) in
        ret (data ++ [example])) data)
     (Ok (data ++ recs)) (EvCall "json.loads" <$> lines) [].
Proof.
  intros data Hall. revert data.
  induction Hall as [|line r lines recs Hline Hall IH]; intros data; simpl.
  - rewrite app_nil_r. apply io_ret.
  - intros st. unfold bind at 1. unfold bind at 1, call, modify, lift, ret. simpl.
    rewrite Hline, IH. unfold touch. simpl.
    by rewrite <- !app_assoc.
Qed.

Lemma io_json_lines_Raise W good bad rest recs e : ∀ data,
  Forall2 (λ line r, json_loads W line = Ok r) good recs →
  json_loads W bad = Raise e →
  io (for_each (good ++ bad :: rest) (λ line data,
        let* example := call "json.loads" line (json_loads W line) in
        ret (data ++ [example])) data)
     (Raise e) (EvCall "json.loads" <$> (good ++ [bad])) [].
Proof.
  intros data Hall Hbad. revert data.
  induction Hall as [|line r lines recs Hline Hall IH]; intros data; simpl.
  - intros st. unfold bind at 1. unfold bind at 1, call, modify, lift. simpl.
    by rewrite Hbad.
  - intros st. unfold bind at 1. unfold bind at 1, call, modify, lift, ret. simpl.
    rewrite Hline, IH. unfold touch. simpl.
    by rewrite <- !app_assoc.
Qed.

(** X4: a [.jsonl] file is opened and its lines are given to [json.loads]
    one by one, in order.  When every line decodes, the records are
    appended in line order; at the first line that does not decode, its
    exception is raised and the later lines are not decoded.  Either way
    the file is closed. *)
Theorem jsonl_file_decoded W t dataset_path filename lines :
  endswith filename ".jsonl" = true →
  open_r W (path_join dataset_path filename) = Ok lines →
  (∀ recs data st,
     Forall2 (λ line r, json_loads W line = Ok r) lines recs →
     load_file_of t W dataset_path filename data st =
     (Ok (data ++ recs),
      touch (EvCall "open" (path_join dataset_path filename)
               :: (EvCall "json.loads" <$> lines)) [] st)) ∧
  (∀ good bad rest recs e data st,
     lines = good ++ bad :: rest →
     Forall2 (λ line r, json_loads W line = Ok r) good recs →
     json_loads W bad = Raise e →
     load_file_of t W dataset_path filename data st =
     (Raise e,
      touch (EvCall "open" (path_join dataset_path filename)
               :: (EvCall "json.loads" <$> good ++ [bad])) [] st)).
Proof.
  intros Hends Hopen. split.
  - intros recs data st Hall.
    destruct t; simpl; unfold load_file; dispatch Hends;
      by apply (with_open_Ok W _ _ lines _ _ Hopen), io_json_lines_Ok.
  - intros good bad rest recs e data st -> Hall Hbad.
    destruct t; simpl; unfold load_file; dispatch Hends;
      by apply (with_open_Ok W _ _ _ _ _ Hopen), (io_json_lines_Raise W good bad rest recs).
Qed.

Lemma jsonl_file_decoded_witness :
  endswith "b.jsonl" ".jsonl" = true ∧
  open_r Examples.broken_world "data/b.jsonl" = Ok (["line 1"] ++ "{" :: []) ∧
  load_file_of TextClassification Examples.broken_world "data" "b.jsonl" []
    Examples.model_bolt =
  (Raise (LibraryError "JSONDecodeError" "{"),
   touch [EvCall "open" "data/b.jsonl"; EvCall "json.loads" "line 1";
          EvCall "json.loads" "{"] [] Examples.model_bolt).
Proof.
  split; [reflexivity|]. split; [reflexivity|].
  apply (proj2 (jsonl_file_decoded Examples.broken_world TextClassification "data"
                  "b.jsonl" ["line 1"; "{"] eq_refl eq_refl)
           ["line 1"] "{" [] [Fixture.example "bad" "neg"]).
  - reflexivity.
  - by repeat constructor.
  - reflexivity.
Defined.

(** X5: for a [.db] file a connection is made and the loader's fixed query
    is run on it; the rows are appended to the records read so far.  The
    connection is kept among the open handles when the query returns and
    when it raises; when the connection cannot be made no query is run. *)
Theorem database_file_queried W t dataset_path filename :
  endswith filename ".db" = true →
  ∀ data st,
    load_file_of t W dataset_path filename data st =
    match sqlite3_connect W (path_join dataset_path filename) with
    | Ok _ =>
        (extended data (read_sql_query W (query_of t) (path_join dataset_path filename)),
         touch [EvCall "sqlite3.connect" (path_join dataset_path filename);
                EvCall "pd.read_sql_query" (path_join dataset_path filename)]
               [SqliteConnection (path_join dataset_path filename)] st)
    | Raise e =>
        (Raise e, touch [EvCall "sqlite3.connect" (path_join dataset_path filename)] [] st)
    end.
Proof.
  intros Hends data st.
  destruct t; simpl; unfold load_file; dispatch Hends;
    unfold bind, call, modify, lift, ret; simpl;
    (destruct (sqlite3_connect W (path_join dataset_path filename)) as [[]|e]; [|done]);
    simpl; unfold touch, add_event, acquire; simpl; rewrite <- app_assoc;
    match goal with |- context [extended _ ?r] => by destruct r end.
Qed.

Lemma database_file_queried_witness :
  endswith "train.db" ".db" = true ∧
  load_file_of TextClassification Examples.no_table_world "data" "train.db" []
    Examples.tokenizer_bolt =
  (Raise (LibraryError "DatabaseError" "no such table: dataset_table"),
   touch [EvCall "sqlite3.connect" "data/train.db";
          EvCall "pd.read_sql_query" "data/train.db"]
         [SqliteConnection "data/train.db"] Examples.tokenizer_bolt).
Proof.
  split; [reflexivity|].
  exact (database_file_queried Examples.no_table_world TextClassification "data"
           "train.db" eq_refl [] Examples.tokenizer_bolt).
Defined.

Lemma text_record_step element r data st :
  text_record element r →
  bind (Classification.xml_example element) (λ example, ret (data ++ [example])) st =
  (Ok (data ++ [r]), st).
Proof.
  intros (text & label & Htext & Hlabel & ->).
  unfold Classification.xml_example, find_text, bind, lift, ret.
  by rewrite Htext, Hlabel.
Qed.

Lemma text_record_missing element data st :
  xml_find element "text" = None ∨ xml_find element "label" = None →
  bind (Classification.xml_example element) (λ example, ret (data ++ [example])) st =
  (Raise (AttributeError "'NoneType' object has no attribute 'text'"), st).
Proof.
  intros Hmissing. unfold Classification.xml_example, find_text, bind, lift, ret.
  destruct Hmissing as [-> | ->]; [done|]. by destruct (xml_find element "text").
Qed.

Lemma io_text_records_Ok elements recs : ∀ data,
  Forall2 text_record elements recs →
  io (for_each elements (λ element data,
        let* example := Classification.xml_example element in
        ret (data ++ [example])) data)
     (Ok (data ++ recs)) [] [].
Proof.
  intros data Hall. revert data.
  induction Hall as [|el r els recs Hrec Hall IH]; intros data; simpl.
  - rewrite app_nil_r. apply io_ret.
  - intros st. unfold bind at 1. rewrite (text_record_step el r data st Hrec).
    rewrite IH. by rewrite <- app_assoc.
Qed.

Lemma io_text_records_Raise good bad rest recs : ∀ data,
  Forall2 text_record good recs →
  xml_find bad "text" = None ∨ xml_find bad "label" = None →
  io (for_each (good ++ bad :: rest) (λ element data,
        let* example := Classification.xml_example element in
        ret (data ++ [example])) data)
     (Raise (AttributeError "'NoneType' object has no attribute 'text'")) [] [].
Proof.
  intros data Hall Hbad. revert data.
  induction Hall as [|el r els recs Hrec Hall IH]; intros data; simpl.
  - intros st. unfold bind at 1. rewrite (text_record_missing bad data st Hbad).
    by rewrite touch_nil.
  - intros st. unfold bind at 1. rewrite (text_record_step el r data st Hrec).
    by rewrite IH.
Qed.

(** X6: the classification loader parses an [.xml] file once and turns each
    [record] element into a record of the texts of its [text] and [label]
    children (an empty child gives [None]), in document order.  At the first
    element that lacks one of the two children it raises [AttributeError]
    and no record of the file is kept. *)
Theorem xml_file_text_records W dataset_path filename elements :
  endswith filename ".xml" = true →
  et_parse W (path_join dataset_path filename) = Ok elements →
  (∀ recs data st,
     Forall2 text_record elements recs →
     load_file_of TextClassification W dataset_path filename data st =
     (Ok (data ++ recs), add_event (EvCall "ET.parse" (path_join dataset_path filename)) st)) ∧
  (∀ good bad rest recs data st,
     elements = good ++ bad :: rest →
     Forall2 text_record good recs →
     xml_find bad "text" = None ∨ xml_find bad "label" = None →
     load_file_of TextClassification W dataset_path filename data st =
     (Raise (AttributeError "'NoneType' object has no attribute 'text'"),
      add_event (EvCall "ET.parse" (path_join dataset_path filename)) st)).
Proof.
  intros Hends Hparse. split.
  - intros recs data st Hall. simpl. unfold load_file. dispatch Hends.
    unfold bind at 1, call, modify, lift. simpl. rewrite Hparse.
    rewrite (io_text_records_Ok elements recs data Hall). by rewrite touch_nil.
  - intros good bad rest recs data st -> Hall Hbad. simpl. unfold load_file.
    dispatch Hends. unfold bind at 1, call, modify, lift. simpl. rewrite Hparse.
    rewrite (io_text_records_Raise good bad rest recs data Hall Hbad).
    by rewrite touch_nil.
Qed.

Lemma xml_file_text_records_witness :
  endswith "train.xml" ".xml" = true ∧
  et_parse XmlExamples.xml_world "data/train.xml" =
    Ok ([[("text", Some "ok"); ("label", Some "pos")]] ++ [("text", Some "bad")] :: []) ∧
  load_file_of TextClassification XmlExamples.xml_world "data" "train.xml" []
    Examples.model_bolt =
  (Raise (AttributeError "'NoneType' object has no attribute 'text'"),
   add_event (EvCall "ET.parse" "data/train.xml") Examples.model_bolt).
Proof.
  split; [reflexivity|]. split; [reflexivity|].
  apply (proj2 (xml_file_text_records XmlExamples.xml_world "data" "train.xml"
                  [[("text", Some "ok"); ("label", Some "pos")]; [("text", Some "bad")]]
                  eq_refl eq_refl)
           [[("text", Some "ok"); ("label", Some "pos")]] [("text", Some "bad")] []
           [Fixture.example "ok" "pos"]).
  - reflexivity.
  - repeat constructor. by exists (Some "ok"), (Some "pos").
  - by right.
Defined.

Lemma pair_record_step W element r data st :
  pair_record W element r →
  bind (CommonsenseReasoning.xml_example W element)
       (λ example, ret (data ++ [example])) st =
  (Ok (data ++ [r]), add_event (int_call element) st).
Proof.
  intros (premise & hypothesis & label_text & label & Hp & Hh & Hl & Hint & ->).
  unfold CommonsenseReasoning.xml_example, find_text, int_call.
  unfold bind, lift, ret, call, modify. rewrite Hp, Hh, Hl. simpl. by rewrite Hint.
Qed.

Lemma pair_record_bad_label W element premise hypothesis label_text e data st :
  xml_find element "premise" = Some premise →
  xml_find element "hypothesis" = Some hypothesis →
  xml_find element "label" = Some label_text →
  py_int W label_text = Raise e →
  bind (CommonsenseReasoning.xml_example W element)
       (λ example, ret (data ++ [example])) st =
  (Raise e, add_event (int_call element) st).
Proof.
  intros Hp Hh Hl Hint.
  unfold CommonsenseReasoning.xml_example, find_text, int_call.
  unfold bind, lift, ret, call, modify. rewrite Hp, Hh, Hl. simpl. by rewrite Hint.
Qed.

Lemma io_pair_records_Ok W elements recs : ∀ data,
  Forall2 (pair_record W) elements recs →
  io (for_each elements (λ element data,
        let* example := CommonsenseReasoning.xml_example W element in
        ret (data ++ [example])) data)
     (Ok (data ++ recs)) (int_call <$> elements) [].
Proof.
  intros data Hall. revert data.
  induction Hall as [|el r els recs Hrec Hall IH]; intros data; simpl.
  - rewrite app_nil_r. apply io_ret.
  - intros st. unfold bind at 1. rewrite (pair_record_step W el r data st Hrec).
    rewrite IH. unfold touch. simpl. by rewrite <- !app_assoc.
Qed.

Lemma io_pair_records_Raise W good bad rest recs premise hypothesis label_text e : ∀ data,
  Forall2 (pair_record W) good recs →
  xml_find bad "premise" = Some premise →
  xml_find bad "hypothesis" = Some hypothesis →
  xml_find bad "label" = Some label_text →
  py_int W label_text = Raise e →
  io (for_each (good ++ bad :: rest) (λ element data,
        let* example := CommonsenseReasoning.xml_example W element in
        ret (data ++ [example])) data)
     (Raise e) (int_call <$> (good ++ [bad])) [].
Proof.
  intros data Hall Hp Hh Hl Hint. revert data.
  induction Hall as [|el r els recs Hrec Hall IH]; intros data; simpl.
  - intros st. unfold bind at 1.
    by rewrite (pair_record_bad_label W bad premise hypothesis label_text e data st).
  - intros st. unfold bind at 1. rewrite (pair_record_step W el r data st Hrec).
    rewrite IH. unfold touch. simpl. by rewrite <- !app_assoc.
Qed.

(** X7: the pair loader parses an [.xml] file once and turns each [record]
    element into a record of its [premise] and [hypothesis] texts and of
    its [label] text converted with [int], in document order.  At the first
    element whose label [int] rejects, the exception of [int] is raised;
    the elements after it are not converted. *)
Theorem xml_file_pair_records W dataset_path filename elements :
  endswith filename ".xml" = true →
  et_parse W (path_join dataset_path filename) = Ok elements →
  (∀ recs data st,
     Forall2 (pair_record W) elements recs →
     load_file_of PairReasoning W dataset_path filename data st =
     (Ok (data ++ recs),
      touch (EvCall "ET.parse" (path_join dataset_path filename)
               :: (int_call <$> elements)) [] st)) ∧
  (∀ good bad rest recs premise hypothesis label_text e data st,
     elements = good ++ bad :: rest →
     Forall2 (pair_record W) good recs →
     xml_find bad "premise" = Some premise →
     xml_find bad "hypothesis" = Some hypothesis →
     xml_find bad "label" = Some label_text →
     py_int W label_text = Raise e →
     load_file_of PairReasoning W dataset_path filename data st =
     (Raise e,
      touch (EvCall "ET.parse" (path_join dataset_path filename)
               :: (int_call <$> good ++ [bad])) [] st)).
Proof.
  intros Hends Hparse. split.
  - intros recs data st Hall. simpl. unfold load_file. dispatch Hends.
    unfold bind at 1, call, modify, lift. simpl. rewrite Hparse.
    rewrite (io_pair_records_Ok W elements recs data Hall).
    unfold touch. simpl. by rewrite <- !app_assoc.
  - intros good bad rest recs premise hypothesis label_text e data st -> Hall Hp Hh Hl Hint.
    simpl. unfold load_file. dispatch Hends.
    unfold bind at 1, call, modify, lift. simpl. rewrite Hparse.
    rewrite (io_pair_records_Raise W good bad rest recs premise hypothesis label_text e
               data Hall Hp Hh Hl Hint).
    unfold touch. simpl. by rewrite <- !app_assoc.
Qed.

Lemma xml_file_pair_records_witness :
  endswith "train.xml" ".xml" = true ∧
  et_parse XmlExamples.pair_xml_world "data/train.xml" =
    Ok ([[("premise", Some "it rains"); ("hypothesis", Some "it is wet");
          ("label", Some "1")]]
        ++ [("premise", Some "it rains"); ("hypothesis", Some "it is dry");
            ("label", Some "no")] :: []) ∧
  load_file_of PairReasoning XmlExamples.pair_xml_world "data" "train.xml" []
    Examples.bare_bolt =
  (Raise (ValueError "invalid literal for int()"),
   touch [EvCall "ET.parse" "data/train.xml"; EvCall "int" "1"; EvCall "int" "no"] []
     Examples.bare_bolt).
Proof.
  split; [reflexivity|]. split; [reflexivity|].
  apply (proj2 (xml_file_pair_records XmlExamples.pair_xml_world "data" "train.xml"
                  [[("premise", Some "it rains"); ("hypothesis", Some "it is wet");
                    ("label", Some "1")];
                   [("premise", Some "it rains"); ("hypothesis", Some "it is dry");
                    ("label", Some "no")]]
                  eq_refl eq_refl)
           [[("premise", Some "it rains"); ("hypothesis", Some "it is wet");
             ("label", Some "1")]]
           [("premise", Some "it rains"); ("hypothesis", Some "it is dry");
            ("label", Some "no")]
           [] [Fixture.pair "it rains" "it is wet" 1]
           (Some "it rains") (Some "it is dry") (Some "no")).
  - reflexivity.
  - repeat constructor.
    by exists (Some "it rains"), (Some "it is wet"), (Some "1"), 1.
  - reflexivity.
  - reflexivity.
  - reflexivity.
  - reflexivity.
Defined.

(** ** The records of a directory *)

Lemma extended_app data rows r :
  extended (data ++ rows) r = extended data (extended rows r).
Proof. destruct r; simpl; [|done]. by rewrite app_assoc. Qed.

Lemma pure_io_lift {A} (r : result A) : pure_io (lift r).
Proof. exists r, []. apply io_lift. Qed.

Lemma pure_io_ret {A} (a : A) : pure_io (ret a).
Proof. exists (Ok a), []. apply io_ret. Qed.

Lemma pure_io_call {A} function arg (r : result A) : pure_io (call function arg r).
Proof. exists r, [EvCall function arg]. apply io_call. Qed.

Lemma pure_io_bind {A B} (m : M A) (k : A → M B) :
  pure_io m → (∀ a, pure_io (k a)) → pure_io (bind m k).
Proof.
  intros (r & tr & Hm) Hk. destruct r as [a|e].
  - destruct (Hk a) as (r' & tr' & Hka). exists r', (tr ++ tr').
    apply (io_bind_Ok m k a tr [] r' tr' [] Hm Hka).
  - exists (Raise e), tr. by apply io_bind_Raise.
Qed.

Lemma appends_call function arg (r : result (list record)) :
  appends (λ data, let* df := call function arg r in ret (data ++ df)).
Proof. exists r, [EvCall function arg], []. intros data. apply io_call_extended. Qed.

Lemma appends_skip : appends (λ data, ret data).
Proof.
  exists (Ok []), [], []. intros data. simpl. rewrite app_nil_r. apply io_ret.
Qed.

Lemma appends_for_each {A} (g : A → M record) xs :
  (∀ x, pure_io (g x)) →
  ∃ r tr, ∀ data,
    io (for_each xs (λ x data, let* example := g x in ret (data ++ [example])) data)
       (extended data r) tr [].
Proof.
  intros Hg. induction xs as [|x xs (r' & tr' & IH)].
  - exists (Ok []), []. intros data. simpl. rewrite app_nil_r. apply io_ret.
  - destruct (Hg x) as ([example|e] & tr & Hx).
    + exists (extended [example] r'), (tr ++ tr'). intros data st. simpl.
      unfold bind at 1. unfold bind at 1. rewrite Hx. unfold ret.
      rewrite IH, touch_touch. by rewrite extended_app.
    + exists (Raise e), tr. intros data st. simpl.
      unfold bind at 1. unfold bind at 1. by rewrite Hx.
Qed.

Lemma appends_with_open W filepath (body : list string → list record → M (list record)) :
  (∀ lines, ∃ r tr, ∀ data, io (body lines data) (extended data r) tr []) →
  appends (λ data, with_open W filepath (λ lines, body lines data)).
Proof.
  intros Hbody. destruct (open_r W filepath) as [lines|e] eqn:Hopen.
  - destruct (Hbody lines) as (r & tr & Hio).
    exists r, (EvCall "open" filepath :: tr), []. intros data.
    by apply (with_open_Ok W filepath _ lines).
  - exists (Raise e), [EvCall "open" filepath], []. intros data.
    by apply with_open_Raise.
Qed.

Lemma classification_xml_example_pure element :
  pure_io (Classification.xml_example element).
Proof.
  unfold Classification.xml_example.
  repeat (apply pure_io_bind; [apply pure_io_lift|intros ?]). apply pure_io_ret.
Qed.

Lemma commonsense_xml_example_pure W element :
  pure_io (CommonsenseReasoning.xml_example W element).
Proof.
  unfold CommonsenseReasoning.xml_example.
  repeat (apply pure_io_bind; [apply pure_io_lift|intros ?]).
  apply pure_io_bind; [apply pure_io_call|intros ?]. apply pure_io_ret.
Qed.

(** Every turn of the loop only appends to [data]. *)
Lemma load_file_appends W xml_example query dataset_path filename :
  (∀ element, pure_io (xml_example element)) →
  appends (load_file W xml_example query dataset_path filename).
Proof.
  intros Hxml. unfold load_file.
  repeat match goal with
         | |- appends (λ data, if ?b then _ else _) => destruct b
         end;
    try apply appends_call; try apply appends_skip.
  - apply appends_with_open. intros lines.
    apply (appends_for_each (λ line, call "json.loads" line (json_loads W line))).
    intros line. apply pure_io_call.
  - apply appends_with_open. intros lines.
    exists (json_load W lines), [EvCall "json.load" (path_join dataset_path filename)].
    intros data. apply io_call_extended.
  - destruct (et_parse W (path_join dataset_path filename)) as [records|e] eqn:Hparse.
    + destruct (appends_for_each xml_example records Hxml) as (r & tr & Hio).
      exists r, (EvCall "ET.parse" (path_join dataset_path filename) :: tr), [].
      intros data st. unfold bind at 1, call, modify, lift. simpl.
      rewrite Hio. unfold touch. simpl. by rewrite <- app_assoc.
    + exists (Raise e), [EvCall "ET.parse" (path_join dataset_path filename)], [].
      intros data st. by unfold bind at 1, call, modify, lift.
  - apply appends_with_open. intros lines.
    exists (yaml_safe_load W lines),
           [EvCall "yaml.safe_load" (path_join dataset_path filename)].
    intros data. apply io_call_extended.
  - destruct (sqlite3_connect W (path_join dataset_path filename)) as [[]|e] eqn:Hconnect.
    + exists (read_sql_query W query (path_join dataset_path filename)),
             [EvCall "sqlite3.connect" (path_join dataset_path filename);
              EvCall "pd.read_sql_query" (path_join dataset_path filename)],
             [SqliteConnection (path_join dataset_path filename)].
      intros data st. unfold bind, call, modify, lift, ret. simpl.
      unfold touch, add_event, acquire. simpl. rewrite <- app_assoc.
      by destruct (read_sql_query W query (path_join dataset_path filename)).
    + exists (Raise e), [EvCall "sqlite3.connect" (path_join dataset_path filename)], [].
      intros data st. by unfold bind, call, modify, lift, ret.
Qed.

Lemma load_file_of_appends t W dataset_path filename :
  appends (load_file_of t W dataset_path filename).
Proof.
  destruct t; apply load_file_appends.
  - apply classification_xml_example_pure.
  - apply commonsense_xml_example_pure.
Qed.

Lemma for_each_concat t W dataset_path st filenames recss :
  Forall2 (λ filename recs, (load_file_of t W dataset_path filename [] st).1 = Ok recs)
          filenames recss →
  ∀ data st', (for_each filenames (load_file_of t W dataset_path) data st').1 =
              Ok (data ++ concat recss).
Proof.
  induction 1 as [|filename recs filenames recss Hfile Hall IH]; intros data st'; simpl.
  - by rewrite app_nil_r.
  - destruct (load_file_of_appends t W dataset_path filename) as (r & tr & hs & Hio).
    rewrite Hio in Hfile. simpl in Hfile. destruct r as [rows|e]; [|done].
    injection Hfile as ->. unfold bind. rewrite Hio. simpl.
    by rewrite IH, app_assoc.
Qed.

(** X8: when every file of the listing decodes, the records handed on are
    those of the files in listing order, each file's records in the order
    its reader gave them; nothing is dropped, repeated or reordered. *)
Theorem records_in_listing_order t W dataset_path st filenames recss :
  listdir W dataset_path = Ok filenames →
  Forall2 (λ filename recs, (load_file_of t W dataset_path filename [] st).1 = Ok recs)
          filenames recss →
  (load_files_of t W dataset_path st).1 = Ok (concat recss).
Proof.
  intros Hlist Hall. rewrite load_files_of_unfold, Hlist, bind_call_Ok.
  by rewrite (for_each_concat t W dataset_path st filenames recss Hall).
Qed.

Lemma records_in_listing_order_witness :
  listdir ListingExamples.mixed_world "data" = Ok ["a.csv"; "b.jsonl"; "notes.txt"] ∧
  (load_files_of TextClassification ListingExamples.mixed_world "data"
     Examples.model_bolt).1 =
  Ok (concat [[Fixture.example "ok" "pos"];
              [Fixture.example "bad" "neg"; Fixture.example "fine" "pos"]; []]).
Proof.
  split; [reflexivity|].
  apply (records_in_listing_order TextClassification ListingExamples.mixed_world "data"
           Examples.model_bolt ["a.csv"; "b.jsonl"; "notes.txt"]).
  - reflexivity.
  - by repeat constructor.
Defined.

(** ** The label index, in general *)
Section label_ids.
Import Classification.

Lemma label_at_nil n : label_at [] n = None.
Proof. unfold label_at. by rewrite lookup_nil. Qed.

Lemma enumerate_labels_cons i example rest acc d :
  enumerate_labels i (example :: rest) acc = Ok d →
  ∃ label, PyDict.get example "label" = Some label ∧ hashable label = true ∧
           enumerate_labels (i + 1) rest (PyDict.set acc label i) = Ok d.
Proof.
  simpl. unfold getitem. destruct (PyDict.get example "label") as [label|]; [|done].
  destruct (hashable label) eqn:Hhash; [|done]. intros Hrun. by exists label.
Qed.

Lemma enumerate_labels_last data : ∀ i acc d label j,
  enumerate_labels i data acc = Ok d →
  PyDict.get d label = Some j ↔
    (∃ n, j = i + Z.of_nat n ∧ label_at data n = Some label ∧
          ∀ m, (n < m)%nat → label_at data m ≠ Some label) ∨
    ((∀ m, label_at data m ≠ Some label) ∧ PyDict.get acc label = Some j).
Proof.
  induction data as [|example rest IH]; intros i acc d label j Hrun.
  - injection Hrun as <-. split.
    + intros Hget. right. split; [|done]. intros m. by rewrite label_at_nil.
    + intros [(n & _ & Hn & _)|[_ Hget]]; [|done]. by rewrite label_at_nil in Hn.
  - apply enumerate_labels_cons in Hrun as (lab & Hlab & _ & Hrun).
    rewrite (IH _ _ _ label j Hrun). clear IH Hrun. split.
    + intros [(n & -> & Hn & Hlater)|[Hnone Hget]].
      * left. exists (S n). split_and!; [lia|done|].
        intros [|m] Hm; [lia|]. apply Hlater. lia.
      * destruct (decide (lab = label)) as [->|Hne].
        -- rewrite get_set_eq in Hget. injection Hget as <-.
           left. exists 0%nat. split_and!; [lia|done|].
           intros [|m] Hm; [lia|]. apply Hnone.
        -- rewrite get_set_ne in Hget by done. right. split; [|done].
           intros [|m]; [|apply Hnone]. unfold label_at. simpl. congruence.
    + intros [(n & -> & Hn & Hlater)|[Hnone Hget]].
      * destruct n as [|n].
        -- unfold label_at in Hn. simpl in Hn. assert (lab = label) as -> by congruence.
           right. split.
           ++ intros m. apply (Hlater (S m)). lia.
           ++ rewrite get_set_eq. f_equal. lia.
        -- left. exists n. split_and!; [lia|done|].
           intros m Hm. apply (Hlater (S m)). lia.
      * right. split; [intros m; apply (Hnone (S m))|].
        rewrite get_set_ne; [done|].
        intros ->. by apply (Hnone 0%nat).
Qed.
End label_ids.

(** X9: the id a label gets in [label_to_id] is the index of the last
    record that carries it: [label_to_id[label] = n] exactly when record
    [n] has that label and no later record has it. *)
Theorem label_id_is_last_index data new label i :
  Classification.make_label_to_id data = Ok new →
  PyDict.get new label = Some i ↔
  ∃ n, i = Z.of_nat n ∧ label_at data n = Some label ∧
       ∀ m, (n < m)%nat → label_at data m ≠ Some label.
Proof.
  intros Hrun. rewrite (enumerate_labels_last data 0 [] new label i Hrun). split.
  - intros [(n & -> & Hn & Hlater)|[_ Hget]]; [|done]. exists n. by rewrite Z.add_0_l.
  - intros (n & -> & Hn & Hlater). left. exists n. by rewrite Z.add_0_l.
Qed.

Lemma label_id_is_last_index_witness :
  Classification.make_label_to_id ListingExamples.reviews =
    Ok [(VStr "pos", 2); (VStr "neg", 1)] ∧
  ∃ n, 2 = Z.of_nat n ∧ label_at ListingExamples.reviews n = Some (VStr "pos") ∧
       ∀ m, (n < m)%nat → label_at ListingExamples.reviews m ≠ Some (VStr "pos").
Proof.
  split; [reflexivity|].
  apply (label_id_is_last_index ListingExamples.reviews
           [(VStr "pos", 2); (VStr "neg", 1)] (VStr "pos") 2 eq_refl).
  reflexivity.
Defined.

(** ** The keys of the label index *)
Section label_keys.
Import Classification.

Lemma first_seen_step_elem (labels : list value) : ∀ seen label,
  label ∈ foldl (λ seen label, if decide (label ∈ seen) then seen else seen ++ [label])
                seen labels
  ↔ label ∈ seen ∨ label ∈ labels.
Proof.
  induction labels as [|x labels IH]; intros seen label; simpl.
  - split; [by left|]. intros [?|Hin]; [done|]. by apply elem_of_nil in Hin.
  - rewrite IH, elem_of_cons. destruct (decide (x ∈ seen)) as [Hx|Hx].
    + split; [intros [?|?]; auto|]. intros [?|[->|?]]; auto.
    + rewrite elem_of_app, list_elem_of_singleton. split.
      * intros [[?|?]|?]; auto.
      * intros [?|[?|?]]; auto.
Qed.

Lemma first_seen_step_NoDup (labels : list value) : ∀ seen,
  NoDup seen →
  NoDup (foldl (λ seen label, if decide (label ∈ seen) then seen else seen ++ [label])
               seen labels).
Proof.
  induction labels as [|x labels IH]; intros seen Hseen; simpl; [done|].
  apply IH. destruct (decide (x ∈ seen)) as [Hx|Hx]; [done|].
  apply NoDup_app. split_and!; [done| |apply NoDup_singleton].
  intros y Hy Hy'. apply list_elem_of_singleton in Hy'. by subst.
Qed.

(** [first_seen] keeps every element once. *)
Lemma first_seen_spec labels :
  NoDup (first_seen labels) ∧ ∀ label, label ∈ first_seen labels ↔ label ∈ labels.
Proof.
  split.
  - apply first_seen_step_NoDup, NoDup_nil_2.
  - intros label. unfold first_seen. rewrite first_seen_step_elem. split.
    + intros [Hin|?]; [|done]. by apply elem_of_nil in Hin.
    + by right.
Qed.

Lemma labels_of_cons example label rest :
  PyDict.get example "label" = Some label →
  labels_of (example :: rest) = label :: labels_of rest.
Proof. intros Hget. unfold labels_of. simpl. by rewrite Hget. Qed.

Lemma enumerate_labels_keys data : ∀ i acc d,
  enumerate_labels i data acc = Ok d →
  d.*1 = foldl (λ seen label, if decide (label ∈ seen) then seen else seen ++ [label])
               acc.*1 (labels_of data) ∧
  length (labels_of data) = length data ∧
  Forall (λ label, hashable label = true) (labels_of data).
Proof.
  induction data as [|example rest IH]; intros i acc d Hrun.
  - injection Hrun as <-. by split_and!.
  - apply enumerate_labels_cons in Hrun as (label & Hlabel & Hhash & Hrun).
    rewrite (labels_of_cons _ _ _ Hlabel). simpl.
    destruct (IH _ _ _ Hrun) as (-> & -> & Hall). split_and!; [|done|by constructor].
    f_equal. destruct (decide (label ∈ acc.*1)) as [Hin|Hin].
    + by apply set_keys_old.
    + by apply set_keys_fresh.
Qed.

Lemma set_fresh {K V} `{EqDecision K} (d : dict K V) k v :
  k ∉ d.*1 → PyDict.set d k v = d ++ [(k, v)].
Proof.
  induction d as [|[k' v'] d IH]; simpl; [done|].
  rewrite not_elem_of_cons. intros [Hne Hk].
  rewrite decide_False by done. f_equal. by apply IH.
Qed.

Lemma enumerate_labels_distinct data : ∀ i acc d,
  enumerate_labels i data acc = Ok d →
  NoDup (labels_of data) →
  (∀ label, label ∈ labels_of data → label ∉ acc.*1) →
  d = acc ++ imap (λ n label, (label, i + Z.of_nat n)) (labels_of data).
Proof.
  induction data as [|example rest IH]; intros i acc d Hrun Hnd Hfresh.
  - injection Hrun as <-. simpl. by rewrite app_nil_r.
  - apply enumerate_labels_cons in Hrun as (label & Hlabel & _ & Hrun).
    rewrite (labels_of_cons _ _ _ Hlabel).
    rewrite (labels_of_cons _ _ _ Hlabel) in Hnd.
    assert (∀ x, x ∈ label :: labels_of rest → x ∉ acc.*1) as Hfresh'.
    { intros x Hx. apply Hfresh. by rewrite (labels_of_cons _ _ _ Hlabel). }
    clear Hfresh. rename Hfresh' into Hfresh.
    apply NoDup_cons in Hnd as [Hlabel' Hnd].
    rewrite set_fresh in Hrun by (apply Hfresh, list_elem_of_here).
    rewrite (IH _ _ _ Hrun Hnd).
    + rewrite <- app_assoc. simpl. f_equal. rewrite Z.add_0_r. f_equal.
      apply imap_ext. intros n x _. simpl. f_equal. lia.
    + intros x Hx. rewrite fmap_app, elem_of_app. simpl.
      rewrite list_elem_of_singleton. intros [Hin| ->]; [|done].
      by apply (Hfresh x); [apply list_elem_of_further|].
Qed.
End label_keys.

(** X10: when the labels are derived, every record has a hashable label, and
    the keys of [label_to_id] are the labels of the records without
    repetitions, in the order in which they are first seen; so the index
    has as many entries as there are distinct labels. *)
Theorem label_keys_first_seen data new :
  Classification.make_label_to_id data = Ok new →
  PyDict.keys new = first_seen (labels_of data) ∧
  length (labels_of data) = length data ∧
  NoDup (PyDict.keys new) ∧
  (∀ label, label ∈ PyDict.keys new ↔ label ∈ labels_of data).
Proof.
  intros Hrun. destruct (enumerate_labels_keys data 0 [] new Hrun) as (Hkeys & Hlen & _).
  destruct (first_seen_spec (labels_of data)) as [Hnd Hin].
  unfold PyDict.keys. rewrite Hkeys. by split_and!.
Qed.

Lemma label_keys_first_seen_witness :
  Classification.make_label_to_id ListingExamples.reviews =
    Ok [(VStr "pos", 2); (VStr "neg", 1)] ∧
  PyDict.keys [(VStr "pos", 2); (VStr "neg", 1)] =
    first_seen (labels_of ListingExamples.reviews) ∧
  first_seen (labels_of ListingExamples.reviews) = [VStr "pos"; VStr "neg"].
Proof.
  split; [reflexivity|]. split; [|reflexivity].
  apply (label_keys_first_seen ListingExamples.reviews
           [(VStr "pos", 2); (VStr "neg", 1)] eq_refl).
Defined.

(** X11: when no two records share a label, the derived index numbers the
    labels from 0 in record order: it is the list of the pairs (label of
    record [n], [n]). *)
Theorem label_ids_dense_when_distinct data new :
  NoDup (labels_of data) →
  Classification.make_label_to_id data = Ok new →
  new = imap (λ n label, (label, Z.of_nat n)) (labels_of data).
Proof.
  intros Hnd Hrun.
  rewrite (enumerate_labels_distinct data 0 [] new Hrun Hnd).
  - simpl. apply imap_ext. intros n x _. simpl. f_equal.
  - intros label _ Hin. by apply elem_of_nil in Hin.
Qed.

Lemma label_ids_dense_when_distinct_witness :
  NoDup (labels_of [Fixture.example "ok" "pos"; Fixture.example "bad" "neg"]) ∧
  [(VStr "pos", 0); (VStr "neg", 1)] =
  imap (λ n label, (label, Z.of_nat n))
       (labels_of [Fixture.example "ok" "pos"; Fixture.example "bad" "neg"]).
Proof.
  assert (NoDup (labels_of [Fixture.example "ok" "pos"; Fixture.example "bad" "neg"]))
    as Hnd.
  { apply NoDup_cons. split; [|apply NoDup_singleton].
    intros Hin. apply list_elem_of_singleton in Hin. discriminate Hin. }
  split; [exact Hnd|].
  apply (label_ids_dense_when_distinct
           [Fixture.example "ok" "pos"; Fixture.example "bad" "neg"]
           [(VStr "pos", 0); (VStr "neg", 1)] Hnd eq_refl).
Defined.

(** ** Records without a usable label *)

Lemma enumerate_labels_bad pre example post e : ∀ i acc,
  Forall (λ example, ∃ label, PyDict.get example "label" = Some label ∧
                              hashable label = true) pre →
  (match PyDict.get example "label" with
   | None => e = KeyError (VStr "label")
   | Some label => hashable label = false ∧ e = TypeError "unhashable type: 'list'"
   end) →
  Classification.enumerate_labels i (pre ++ example :: post) acc = Raise e.
Proof.
  intros i acc Hpre. revert i acc.
  induction Hpre as [|x pre (label & Hlabel & Hhash) Hpre IH]; intros i acc Hbad; simpl.
  - unfold getitem. destruct (PyDict.get example "label") as [label|].
    + destruct Hbad as [-> ->]. done.
    + by subst e.
  - unfold getitem. rewrite Hlabel, Hhash. by apply IH.
Qed.

(** X12: deriving the labels stops at the first record that has no [label]
    key, with [KeyError('label')], or whose label is a list, with
    [TypeError]; the records after it are not looked at. *)
Theorem first_bad_label_raises pre example post :
  Forall (λ example, ∃ label, PyDict.get example "label" = Some label ∧
                              hashable label = true) pre →
  (PyDict.get example "label" = None →
   Classification.make_label_to_id (pre ++ example :: post) =
     Raise (KeyError (VStr "label"))) ∧
  (∀ ids, PyDict.get example "label" = Some (VList ids) →
   Classification.make_label_to_id (pre ++ example :: post) =
     Raise (TypeError "unhashable type: 'list'")).
Proof.
  intros Hpre. split.
  - intros Hnone. apply enumerate_labels_bad; [done|]. by rewrite Hnone.
  - intros ids Hlist. apply enumerate_labels_bad; [done|]. by rewrite Hlist.
Qed.

Lemma first_bad_label_raises_witness :
  Classification.make_label_to_id
    ([Fixture.example "ok" "pos"] ++ [("text", VStr "bad")] :: [Fixture.example "fine" "pos"])
  = Raise (KeyError (VStr "label")).
Proof.
  apply (proj1 (first_bad_label_raises [Fixture.example "ok" "pos"]
                  [("text", VStr "bad")] [Fixture.example "fine" "pos"]
                  ltac:(repeat constructor; by exists (VStr "pos")))).
  reflexivity.
Defined.

(** X13: when the files are read but the labels cannot be derived, the
    classification loader raises the exception of the derivation.  The
    model's configuration is not written, and [self.label_to_id] holds the
    value captured on entry, not a partial index. *)
Theorem label_failure_aborts W dataset_path st data e :
  isfile W (marker_of dataset_path) = false →
  (load_files W Classification.xml_example Classification.query dataset_path st).1
    = Ok data →
  Classification.make_label_to_id data = Raise e →
  (Classification.load_dataset W dataset_path st).1 = Raise e ∧
  model (Classification.load_dataset W dataset_path st).2 = model st ∧
  label_to_id (Classification.load_dataset W dataset_path st).2 =
    Classification.initial_label_to_id (model st).
Proof.
  intros Hmarker Hdata Hlabels.
  change (Classification.load_dataset W dataset_path st)
    with (load_dataset_of TextClassification W dataset_path st).
  rewrite load_dataset_directory by done.
  destruct (load_files_of_reads TextClassification W dataset_path)
    as (r & tr & hs & _ & Hio).
  change (load_files W Classification.xml_example Classification.query dataset_path)
    with (load_files_of TextClassification W dataset_path) in Hdata.
  rewrite Hio in Hdata. simpl in Hdata. subst r.
  match goal with
  | |- context [logged _ (bind ?m ?k ?s)] =>
      assert (bind m k s = (Raise e, touch tr hs s)) as ->
  end.
  { unfold bind at 1. rewrite Hio.
    unfold bind at 1. unfold Classification.update_labels at 1.
    unfold bind at 1. by rewrite Hlabels. }
  done.
Qed.

Lemma label_failure_aborts_witness :
  isfile LabelExamples.unlabelled_world (marker_of "data") = false ∧
  (Classification.load_dataset LabelExamples.unlabelled_world "data"
     LabelExamples.labelled_bolt).1 = Raise (KeyError (VStr "label")) ∧
  model (Classification.load_dataset LabelExamples.unlabelled_world "data"
           LabelExamples.labelled_bolt).2 = Some LabelExamples.old_labels ∧
  label_to_id (Classification.load_dataset LabelExamples.unlabelled_world "data"
                 LabelExamples.labelled_bolt).2 =
    Some [(VStr "LABEL_0", 0); (VStr "LABEL_1", 1)].
Proof.
  split; [reflexivity|].
  apply (label_failure_aborts LabelExamples.unlabelled_world "data"
           LabelExamples.labelled_bolt
           [Fixture.example "ok" "pos"; [("text", VStr "bad")]]
           (KeyError (VStr "label"))); reflexivity.
Defined.

(** ** Labels seen at load time *)

Lemma seen_labels_have_ids data new labels :
  Classification.make_label_to_id data = Ok new →
  (∀ label, label ∈ labels → label ∈ labels_of data) →
  ∃ ids, Forall2 (λ label i, hashable label = true ∧ PyDict.get new label = Some i)
                 labels ids.
Proof.
  intros Hrun. destruct (enumerate_labels_keys data 0 [] new Hrun) as (Hkeys & _ & Hhash).
  rewrite Forall_forall in Hhash.
  assert (∀ label, label ∈ labels_of data → is_Some (PyDict.get new label)) as Hsome.
  { intros label Hin. destruct (PyDict.get new label) eqn:Hget; [by eexists|].
    apply get_None_keys in Hget. destruct Hget. rewrite Hkeys.
    apply first_seen_step_elem. by right. }
  induction labels as [|label labels IH]; intros Hsub.
  - by exists [].
  - destruct IH as [ids Hids].
    { intros x Hx. apply Hsub. by apply list_elem_of_further. }
    destruct (Hsome label) as [i Hi]; [apply Hsub, list_elem_of_here|].
    exists (i :: ids). constructor; [|done]. split; [|done].
    apply Hhash, Hsub, list_elem_of_here.
Qed.

(** X14: with the index derived from [data] in [self.label_to_id], a batch
    whose labels all occur in [data] is encoded without a label error: when
    the tokenizer answers, [tokenize_function] returns the encoding with a
    [label] column holding the id of each label of the batch. *)
Theorem seen_labels_encode data new st examples t text labels encoding :
  Classification.make_label_to_id data = Ok new →
  label_to_id st = Some new →
  tokenizer st = Some t →
  getitem examples "text" = Ok text →
  getitem examples "label" = Ok labels →
  (∀ label, label ∈ labels → label ∈ labels_of data) →
  t {| tc_text := text; tc_text_pair := None; tc_padding := PaddingMaxLength;
       tc_truncation := true; tc_max_length := Some 512 |} = Ok encoding →
  ∃ ids,
    Forall2 (λ label i, PyDict.get new label = Some i) labels ids ∧
    (Classification.tokenize_function examples st).1 =
      Ok (PyDict.set encoding "label" (VInt <$> ids)).
Proof.
  intros Hrun Hindex Htok Htext Hlabels Hseen Hcall.
  destruct (seen_labels_have_ids data new labels Hrun Hseen) as [ids Hids].
  exists ids. split.
  - eapply Forall2_impl; [exact Hids|]. by intros label i [_ ?].
  - unfold Classification.tokenize_function.
    rewrite bind_gets, Htok, Htext, Hlabels. unfold bind at 1. simpl.
    unfold bind at 1. unfold call_tokenizer, bind at 1. unfold modify, lift. simpl.
    rewrite Hcall. unfold bind at 1. simpl. unfold bind at 1.
    by rewrite (comprehension_lookup_Ok new labels ids).
Qed.

Lemma seen_labels_encode_witness :
  Classification.make_label_to_id ListingExamples.reviews =
    Ok LabelExamples.reviews_index ∧
  ∃ ids,
    Forall2 (λ label i, PyDict.get LabelExamples.reviews_index label = Some i)
            [VStr "neg"; VStr "pos"] ids ∧
    (Classification.tokenize_function LabelExamples.seen_batch
       (set_label_to_id (Some LabelExamples.reviews_index) Examples.tokenizer_bolt)).1 =
      Ok (PyDict.set [("input_ids", [VList [110; 111]; VList [121; 101; 115]])]
            "label" (VInt <$> ids)).
Proof.
  split; [reflexivity|].
  apply (seen_labels_encode ListingExamples.reviews LabelExamples.reviews_index
           (set_label_to_id (Some LabelExamples.reviews_index) Examples.tokenizer_bolt)
           LabelExamples.seen_batch Fixture.char_tokenizer
           [VStr "no"; VStr "yes"] [VStr "neg"; VStr "pos"]
           [("input_ids", [VList [110; 111]; VList [121; 101; 115]])]);
    try reflexivity.
  intros label Hin.
  apply elem_of_cons in Hin as [->|Hin].
  - by repeat constructor.
  - apply list_elem_of_singleton in Hin as ->. by repeat constructor.
Defined.

(** ** What the loaders leave alone *)
Section keeping.
Context {V : Type} (f : state → V).

Lemma keeps_ret {A} (a : A) : keeps f (ret a).
Proof. by intros st. Qed.

Lemma keeps_lift {A} (r : result A) : keeps f (lift r).
Proof. by intros st. Qed.

Lemma keeps_raise {A} e : keeps f (raise (A:=A) e).
Proof. by intros st. Qed.

Lemma keeps_gets {A} (g : state → A) : keeps f (gets g).
Proof. by intros st. Qed.

Lemma keeps_modify (g : state → state) : (∀ st, f (g st) = f st) → keeps f (modify g).
Proof. intros Hg st. apply Hg. Qed.

Lemma keeps_bind {A B} (m : M A) (k : A → M B) :
  keeps f m → (∀ a, keeps f (k a)) → keeps f (bind m k).
Proof.
  intros Hm Hk st. unfold bind. specialize (Hm st).
  destruct (m st) as [[a|e] st']; [|done]. by rewrite Hk.
Qed.

Lemma keeps_try_except {A} (m : M A) (h : exn → M A) :
  keeps f m → (∀ e, keeps f (h e)) → keeps f (try_except m h).
Proof.
  intros Hm Hh st. unfold try_except. specialize (Hm st).
  destruct (m st) as [[a|e] st']; [done|]. by rewrite Hh.
Qed.

Lemma keeps_finally {A} (m : M A) (c : state → state) :
  keeps f m → (∀ st, f (c st) = f st) → keeps f (finally m c).
Proof.
  intros Hm Hc st. unfold finally. specialize (Hm st).
  destruct (m st) as [r st']. simpl in *. by rewrite Hc.
Qed.

Lemma keeps_for_each {A B} (xs : list A) (body : A → B → M B) :
  (∀ x acc, keeps f (body x acc)) → ∀ acc, keeps f (for_each xs body acc).
Proof.
  intros Hbody. induction xs as [|x xs IH]; intros acc; simpl.
  - apply keeps_ret.
  - by apply keeps_bind.
Qed.

Lemma keeps_comprehension {A B} (g : A → M B) xs :
  (∀ x, keeps f (g x)) → keeps f (comprehension g xs).
Proof.
  intros Hg. induction xs as [|x xs IH]; simpl; [apply keeps_ret|].
  apply keeps_bind; [done|]. intros y.
  apply keeps_bind; [done|]. intros ys. apply keeps_ret.
Qed.

Lemma keeps_Dataset_map g remove_columns ds :
  (∀ examples, keeps f (g examples)) → keeps f (Dataset_map g remove_columns ds).
Proof.
  intros Hg. unfold Dataset_map. case_bool_decide; [apply keeps_ret|].
  apply keeps_bind; [by apply keeps_comprehension|]. intros outs. apply keeps_ret.
Qed.

Hypothesis f_trace : ignores_trace f.

Lemma keeps_call {A} function arg (r : result A) : keeps f (call function arg r).
Proof using f_trace.
  unfold call. apply keeps_bind; [by apply keeps_modify|]. intros _. apply keeps_lift.
Qed.

Lemma keeps_call_tokenizer t c : keeps f (call_tokenizer t c).
Proof using f_trace.
  unfold call_tokenizer. apply keeps_bind; [by apply keeps_modify|].
  intros _. apply keeps_lift.
Qed.

Lemma keeps_lookup_label label : keeps f (Classification.lookup_label label).
Proof.
  unfold Classification.lookup_label. apply keeps_bind; [apply keeps_gets|].
  intros [d|]; [|apply keeps_raise].
  destruct (hashable label); [|apply keeps_raise].
  destruct (PyDict.get d label); [apply keeps_ret | apply keeps_raise].
Qed.

Lemma keeps_tokenize_function examples :
  keeps f (Classification.tokenize_function examples).
Proof using f_trace.
  unfold Classification.tokenize_function.
  apply keeps_bind; [apply keeps_gets|]. intros tok.
  apply keeps_bind; [apply keeps_lift|]. intros text.
  apply keeps_bind.
  { destruct tok; [apply keeps_call_tokenizer | apply keeps_raise]. }
  intros tokenized_data. apply keeps_bind; [apply keeps_lift|]. intros labels.
  apply keeps_bind; [apply keeps_comprehension, keeps_lookup_label|].
  intros ids. apply keeps_ret.
Qed.

Lemma keeps_prepare_body examples :
  keeps f (let* tokenizer := gets tokenizer in
           match tokenizer with
           | None => raise (Exception_ "Tokenizer not initialized")
           | Some t =>
               let* premise := lift (getitem examples "premise") in
               let* hypothesis := lift (getitem examples "hypothesis") in
               let* tokenized_inputs :=
                 call_tokenizer t {| tc_text := premise;
                                     tc_text_pair := Some hypothesis;
                                     tc_padding := PaddingFalse;
                                     tc_truncation := true;
                                     tc_max_length := None |} in
               let* labels := lift (getitem examples "label") in
               ret (PyDict.set tokenized_inputs "labels" labels)
           end).
Proof using f_trace.
  apply keeps_bind; [apply keeps_gets|]. intros [t|]; [|apply keeps_raise].
  apply keeps_bind; [apply keeps_lift|]. intros premise.
  apply keeps_bind; [apply keeps_lift|]. intros hypothesis.
  apply keeps_bind; [apply keeps_call_tokenizer|]. intros tokenized_inputs.
  apply keeps_bind; [apply keeps_lift|]. intros labels. apply keeps_ret.
Qed.

Hypothesis f_handles : ignores_handles f.

Lemma keeps_with_open {A} W filepath (body : list string → M A) :
  (∀ lines, keeps f (body lines)) → keeps f (with_open W filepath body).
Proof using f_trace f_handles.
  intros Hbody. unfold with_open. destruct f_handles as [Hacquire Hrelease].
  apply keeps_bind; [apply keeps_call|]. intros lines.
  apply keeps_bind; [by apply keeps_modify|]. intros _.
  by apply keeps_finally.
Qed.

Lemma keeps_load_file W xml_example query dataset_path filename data :
  (∀ element, keeps f (xml_example element)) →
  keeps f (load_file W xml_example query dataset_path filename data).
Proof using f_trace f_handles.
  intros Hxml. unfold load_file. destruct f_handles as [Hacquire Hrelease].
  repeat match goal with
         | |- keeps f (if ?b then _ else _) => destruct b
         end;
    repeat first
      [ apply keeps_ret
      | apply keeps_call
      | apply Hxml
      | apply keeps_modify; by auto
      | apply keeps_with_open; intros ?
      | apply keeps_for_each; intros ? ?
      | apply keeps_bind; [|intros ?] ].
Qed.

Lemma keeps_load_files W xml_example query dataset_path :
  (∀ element, keeps f (xml_example element)) →
  keeps f (load_files W xml_example query dataset_path).
Proof using f_trace f_handles.
  intros Hxml. unfold load_files. apply keeps_bind; [apply keeps_call|].
  intros filenames. apply keeps_for_each. intros filename data.
  by apply keeps_load_file.
Qed.

Lemma keeps_classification_xml_example element :
  keeps f (Classification.xml_example element).
Proof.
  unfold Classification.xml_example.
  repeat (apply keeps_bind; [apply keeps_lift|intros ?]). apply keeps_ret.
Qed.

Lemma keeps_commonsense_xml_example W element :
  keeps f (CommonsenseReasoning.xml_example W element).
Proof using f_trace.
  unfold CommonsenseReasoning.xml_example.
  repeat (apply keeps_bind; [apply keeps_lift|intros ?]).
  apply keeps_bind; [apply keeps_call|intros ?]. apply keeps_ret.
Qed.

Hypothesis f_log : ignores_log f.

Lemma keeps_prepare_train_features examples :
  keeps f (CommonsenseReasoning.prepare_train_features examples).
Proof using f_trace f_log.
  unfold CommonsenseReasoning.prepare_train_features.
  apply keeps_try_except; [apply keeps_prepare_body|].
  intros e. apply keeps_bind; [by apply keeps_modify|]. intros _. apply keeps_raise.
Qed.

Lemma keeps_commonsense_load_dataset W dataset_path :
  keeps f (CommonsenseReasoning.load_dataset W dataset_path).
Proof using f_trace f_handles f_log.
  unfold CommonsenseReasoning.load_dataset. apply keeps_try_except.
  - apply keeps_bind; [apply keeps_call|]. intros [|].
    + apply keeps_bind; [apply keeps_call|]. intros dataset.
      apply keeps_Dataset_map, keeps_prepare_train_features.
    + apply keeps_bind.
      { apply keeps_load_files, keeps_commonsense_xml_example. }
      intros data. apply keeps_bind; [apply keeps_call|]. intros dataset.
      apply keeps_Dataset_map, keeps_prepare_train_features.
  - intros e. apply keeps_bind; [by apply keeps_modify|]. intros _. apply keeps_raise.
Qed.
End keeping.

(** X15: [load_dataset] of the pair task changes nothing of [self]: the
    tokenizer, the model with its configuration, [label_to_id] and the
    collator are what they were, whether it returns or raises. *)
Theorem pair_load_leaves_self W dataset_path st :
  self_of (CommonsenseReasoning.load_dataset W dataset_path st).2 = self_of st.
Proof. by apply (keeps_commonsense_load_dataset self_of). Qed.

Lemma update_labels_keeps {V} (f : state → V) data :
  (∀ v st, f (set_label_to_id v st) = f st) →
  (∀ m st, f (set_model m st) = f st) →
  ignores_log f →
  keeps f (Classification.update_labels data).
Proof.
  intros Hlabels Hmodel Hlog. unfold Classification.update_labels.
  apply keeps_bind; [apply keeps_lift|]. intros new.
  apply keeps_bind; [by apply keeps_modify|]. intros _.
  apply keeps_bind; [apply keeps_gets|]. intros [config|]; [|apply keeps_ret].
  apply keeps_bind.
  { destruct (Classification.label2id_differs (label2id config) new);
      [by apply keeps_modify | apply keeps_ret]. }
  intros _. by apply keeps_modify.
Qed.

Lemma classification_try_keeps {V} (f : state → V) W dataset_path handler :
  ignores_trace f → ignores_handles f → ignores_log f →
  (∀ v st, f (set_label_to_id v st) = f st) →
  (∀ m st, f (set_model m st) = f st) →
  (∀ e, keeps f (handler e)) →
  keeps f (try_except
    (modify (add_log (LogInfo ("Loading dataset from " +:+ dataset_path)));;
     let* marker := has_marker W dataset_path in
     if marker : bool then
       let* ds := call "load_from_disk" dataset_path (load_from_disk W dataset_path) in
       Dataset_map Classification.tokenize_function [] ds
     else
       let* data := load_files W Classification.xml_example Classification.query
                      dataset_path in
       Classification.update_labels data;;
       let* ds := call "Dataset.from_pandas" dataset_path (from_pandas W data) in
       Dataset_map Classification.tokenize_function [] ds)
    handler).
Proof.
  intros Htrace Hhandles Hlog Hlabels Hmodel Hhandler.
  apply keeps_try_except; [|done].
  apply keeps_bind; [by apply keeps_modify|]. intros _.
  apply keeps_bind; [by apply keeps_call|]. intros [|].
  - apply keeps_bind; [by apply keeps_call|]. intros ds.
    by apply keeps_Dataset_map, keeps_tokenize_function.
  - apply keeps_bind.
    { apply keeps_load_files; [done..|]. apply keeps_classification_xml_example. }
    intros data. apply keeps_bind; [by apply update_labels_keeps|]. intros _.
    apply keeps_bind; [by apply keeps_call|]. intros ds.
    by apply keeps_Dataset_map, keeps_tokenize_function.
Qed.

(** X16: [load_dataset] of the classification task always leaves
    [self.data_collator] set to a padding collator built on the bolt's
    tokenizer, also when the load raises and when there is no tokenizer, and
    it never replaces the tokenizer. *)
Theorem classification_load_sets_collator W dataset_path st :
  tokenizer (Classification.load_dataset W dataset_path st).2 = tokenizer st ∧
  data_collator (Classification.load_dataset W dataset_path st).2 =
    Some (DataCollatorWithPadding (tokenizer st)).
Proof.
  unfold Classification.load_dataset.
  rewrite bind_gets, bind_modify, bind_gets, bind_modify.
  pose (view := λ x : state, (tokenizer x, data_collator x)).
  match goal with
  | |- context [try_except ?m ?h ?s0] =>
      assert (keeps view (try_except m h)) as Hrun; [|specialize (Hrun s0)]
  end.
  { apply (classification_try_keeps view);
      first [ done
            | intros e; apply keeps_bind; [by apply keeps_modify|];
              intros _; apply keeps_raise ]. }
  unfold view in Hrun. injection Hrun as Htokenizer Hcollator.
  split; [exact Htokenizer | exact Hcollator].
Qed.

(** ** Comparing label maps *)
Section dict_equality.
Context {K V : Type} `{EqDecision K, EqDecision V}.
Implicit Types d : dict K V.

Lemma elem_of_keys d k : k ∈ d.*1 ↔ PyDict.get d k ≠ None.
Proof.
  rewrite get_None_keys. split; [by intros ? ?|].
  intros Hnn. by destruct (decide (k ∈ d.*1)).
Qed.

(** [d1 == d2] on dicts: the same keys with the same values. *)
Lemma eqb_true d1 d2 :
  NoDup d1.*1 → NoDup d2.*1 →
  PyDict.eqb d1 d2 = true ↔ ∀ k, PyDict.get d1 k = PyDict.get d2 k.
Proof.
  intros Hnd1 Hnd2. unfold PyDict.eqb.
  rewrite andb_true_iff, bool_decide_eq_true, forallb_forall. split.
  - intros [Hlen Hall].
    assert (∀ k v, (k, v) ∈ d1 → PyDict.get d2 k = Some v) as Hsub.
    { intros k v Hin. apply list_elem_of_In, Hall in Hin.
      by apply bool_decide_eq_true in Hin. }
    assert (d1.*1 ≡ₚ d2.*1) as Hperm.
    { apply submseteq_length_Permutation; [|by rewrite !length_fmap, Hlen].
      apply NoDup_submseteq; [done|]. intros k Hk.
      apply list_elem_of_fmap_1 in Hk as ([k' v] & -> & Hin). simpl.
      apply elem_of_keys. by rewrite (Hsub _ _ Hin). }
    intros k. destruct (PyDict.get d1 k) as [v|] eqn:H1.
    + symmetry. by apply Hsub, get_Some_elem_of.
    + symmetry. apply get_None_keys. rewrite <- Hperm. by apply get_None_keys.
  - intros Hsame. split.
    + rewrite <- (length_fmap fst d1), <- (length_fmap fst d2).
      apply Permutation_length, NoDup_Permutation; [done..|].
      intros k. by rewrite !elem_of_keys, Hsame.
    + intros [k v] Hin. apply bool_decide_eq_true. simpl. rewrite <- Hsame.
      apply elem_of_get; [done|]. by apply list_elem_of_In.
Qed.
End dict_equality.

(** ** The configuration after a load *)

Lemma update_labels_run data new config st :
  Classification.make_label_to_id data = Ok new →
  model st = Some config →
  (Classification.update_labels data st).1 = Ok tt ∧
  model (Classification.update_labels data st).2 =
    Some {| label2id := Some new;
            id2label := Some (Classification.make_id2label new) |} ∧
  label_to_id (Classification.update_labels data st).2 = Some new ∧
  log (Classification.update_labels data st).2 =
    log st ++ (if Classification.label2id_differs (label2id config) new
               then [LogWarning "New labels detected, ignore if fine-tuning"]
               else []).
Proof.
  intros Hnew Hmodel. unfold Classification.update_labels.
  rewrite Hnew. unfold bind, lift, gets, modify. simpl. rewrite Hmodel.
  destruct (Classification.label2id_differs (label2id config) new); simpl;
    by rewrite ?app_nil_r.
Qed.

(** The state a load without marker ends in, once the labels are derived. *)
Lemma classification_directory_state W dataset_path st data new config :
  isfile W (marker_of dataset_path) = false →
  (load_files W Classification.xml_example Classification.query dataset_path st).1
    = Ok data →
  Classification.make_label_to_id data = Ok new →
  model st = Some config →
  model (Classification.load_dataset W dataset_path st).2 =
    Some {| label2id := Some new;
            id2label := Some (Classification.make_id2label new) |} ∧
  label_to_id (Classification.load_dataset W dataset_path st).2 = Some new ∧
  log (Classification.load_dataset W dataset_path st).2 =
    log st ++ [LogInfo ("Loading dataset from " +:+ dataset_path)]
      ++ (if Classification.label2id_differs (label2id config) new
          then [LogWarning "New labels detected, ignore if fine-tuning"]
          else [])
      ++ match (Classification.load_dataset W dataset_path st).1 with
         | Ok _ => []
         | Raise e =>
             [LogError ("Error occurred when loading dataset from " +:+ dataset_path) e]
         end.
Proof.
  intros Hmarker Hdata Hnew Hmodel.
  change (Classification.load_dataset W dataset_path st)
    with (load_dataset_of TextClassification W dataset_path st).
  rewrite load_dataset_directory by done.
  destruct (load_files_of_reads TextClassification W dataset_path)
    as (r & tr & hs & _ & Hio).
  change (load_files W Classification.xml_example Classification.query dataset_path)
    with (load_files_of TextClassification W dataset_path) in Hdata.
  rewrite Hio in Hdata. simpl in Hdata. subst r.
  pose (s0 := touch [EvCall "os.path.isfile" (marker_of dataset_path)] []
                (entry TextClassification dataset_path st)).
  pose (s1 := touch tr hs s0).
  assert (model s1 = Some config) as Hmodel1 by done.
  destruct (update_labels_run data new config s1 Hnew Hmodel1)
    as (Hok & Hconfig & Hlabels & Hlog).
  pose (s2 := (Classification.update_labels data s1).2).
  pose (rest := bind (call "Dataset.from_pandas" dataset_path (from_pandas W data))
                  (λ ds, Dataset_map Classification.tokenize_function [] ds)).
  assert (keeps model rest ∧ keeps label_to_id rest ∧ keeps log rest)
    as (Hkm & Hkl & Hkg).
  { split_and!; (apply keeps_bind; [by apply keeps_call|]; intros ds;
                 by apply keeps_Dataset_map, keeps_tokenize_function). }
  match goal with
  | |- context [logged _ ?x] => assert (x = rest s2) as ->
  end.
  { unfold bind at 1. rewrite (Hio (touch _ _ _)). fold s0 s1. unfold bind at 1.
    destruct (Classification.update_labels data s1) as [r s2'] eqn:Hrun.
    simpl in Hok. subst r. reflexivity. }
  specialize (Hkm s2). specialize (Hkl s2). specialize (Hkg s2).
  destruct (rest s2) as [[ds|e] s3]; simpl in *.
  - rewrite Hkm, Hkl, Hkg. fold s2 in Hconfig, Hlabels, Hlog.
    rewrite Hconfig, Hlabels, Hlog. split_and!; [done..|].
    unfold s1, s0. simpl. by rewrite app_nil_r, <- !app_assoc.
  - rewrite Hkm, Hkl, Hkg. fold s2 in Hconfig, Hlabels, Hlog.
    rewrite Hconfig, Hlabels, Hlog. split_and!; [done..|].
    unfold s1, s0. simpl. by rewrite <- !app_assoc.
Qed.

(** X17: a label map on the model that differs from the derived one is not
    an error.  The warning is logged exactly when the old [label2id] and the
    new index differ as dicts (some key is bound in one and not, or not to
    the same id, in the other), and the configuration gets the new index
    either way. *)
Theorem label_mismatch_warns W dataset_path st data new config old :
  isfile W (marker_of dataset_path) = false →
  (load_files W Classification.xml_example Classification.query dataset_path st).1
    = Ok data →
  Classification.make_label_to_id data = Ok new →
  model st = Some config →
  label2id config = Some old →
  NoDup old.*1 →
  ∃ entries,
    log (Classification.load_dataset W dataset_path st).2 = log st ++ entries ∧
    (LogWarning "New labels detected, ignore if fine-tuning" ∈ entries ↔
     ¬ ∀ label, PyDict.get old label = PyDict.get new label) ∧
    (model (Classification.load_dataset W dataset_path st).2) ≫= label2id = Some new.
Proof.
  intros Hmarker Hdata Hnew Hmodel Hold Hnd.
  destruct (classification_directory_state W dataset_path st data new config
              Hmarker Hdata Hnew Hmodel) as (Hconfig & _ & Hlog).
  pose proof (make_label_to_id_inv data new Hnew) as Hinv.
  pose proof (eqb_true old new Hnd (inv_keys _ _ Hinv)) as Heqb.
  eexists. split; [exact Hlog|]. split; [|by rewrite Hconfig].
  rewrite Hold. unfold Classification.label2id_differs.
  destruct (PyDict.eqb old new) eqn:Hsame; simpl.
  - split.
    + intros Hin. exfalso.
      apply elem_of_cons in Hin as [Hin|Hin]; [done|].
      destruct (Classification.load_dataset W dataset_path st).1; simpl in Hin.
      * by apply elem_of_nil in Hin.
      * by apply list_elem_of_singleton in Hin.
    + intros Hne. destruct Hne. by apply Heqb.
  - split.
    + intros _ Hall. apply Heqb in Hall. congruence.
    + intros _. apply list_elem_of_further, list_elem_of_here.
Qed.

Lemma label_mismatch_warns_witness :
  isfile Examples.reviews_world (marker_of "data") = false ∧
  ∃ entries,
    log (Classification.load_dataset Examples.reviews_world "data"
           LabelExamples.labelled_bolt).2 = log LabelExamples.labelled_bolt ++ entries ∧
    (LogWarning "New labels detected, ignore if fine-tuning" ∈ entries ↔
     ¬ ∀ label, PyDict.get [(VStr "LABEL_0", 0); (VStr "LABEL_1", 1)] label =
                PyDict.get LabelExamples.reviews_index label) ∧
    (model (Classification.load_dataset Examples.reviews_world "data"
              LabelExamples.labelled_bolt).2) ≫= label2id =
      Some LabelExamples.reviews_index.
Proof.
  split; [reflexivity|].
  apply (label_mismatch_warns Examples.reviews_world "data" LabelExamples.labelled_bolt
           ListingExamples.reviews LabelExamples.reviews_index LabelExamples.old_labels
           [(VStr "LABEL_0", 0); (VStr "LABEL_1", 1)]); try reflexivity.
  apply NoDup_cons. split; [|apply NoDup_singleton].
  intros Hin. apply list_elem_of_singleton in Hin. discriminate Hin.
Defined.

(** X18: loading the same directory a second time changes nothing of the
    labels: the configuration and [self.label_to_id] are those the first
    load left, and what the second load appends to the log holds no
    warning, whether or not the first load warned. *)
Theorem reload_keeps_labels W dataset_path st data new config :
  isfile W (marker_of dataset_path) = false →
  (load_files W Classification.xml_example Classification.query dataset_path st).1
    = Ok data →
  Classification.make_label_to_id data = Ok new →
  model st = Some config →
  let once := (Classification.load_dataset W dataset_path st).2 in
  let twice := (Classification.load_dataset W dataset_path once).2 in
  model twice = model once ∧ label_to_id twice = label_to_id once ∧
  ∃ entries, log twice = log once ++ entries ∧ ∀ msg, LogWarning msg ∉ entries.
Proof.
  intros Hmarker Hdata Hnew Hmodel once twice.
  destruct (classification_directory_state W dataset_path st data new config
              Hmarker Hdata Hnew Hmodel) as (Hconfig & Hlabels & _).
  fold once in Hconfig, Hlabels.
  assert ((load_files W Classification.xml_example Classification.query
             dataset_path once).1 = Ok data) as Hdata'.
  { rewrite <- Hdata. apply reads_oblivious.
    apply (load_files_of_reads TextClassification). }
  destruct (classification_directory_state W dataset_path once data new _
              Hmarker Hdata' Hnew Hconfig) as (Hconfig' & Hlabels' & Hlog).
  fold twice in Hconfig', Hlabels', Hlog.
  split_and!; [congruence..|].
  eexists. split; [exact Hlog|]. intros msg. simpl.
  pose proof (make_label_to_id_inv data new Hnew) as Hinv.
  assert (PyDict.eqb new new = true) as ->.
  { by apply eqb_true; [apply Hinv..|]. }
  simpl. intros Hin. apply elem_of_cons in Hin as [Hin|Hin]; [discriminate Hin|].
  destruct (Classification.load_dataset W dataset_path once).1; simpl in Hin.
  - by apply elem_of_nil in Hin.
  - by apply list_elem_of_singleton in Hin.
Qed.

Lemma reload_keeps_labels_witness :
  isfile Examples.reviews_world (marker_of "data") = false ∧
  LogWarning "New labels detected, ignore if fine-tuning" ∈
    log (Classification.load_dataset Examples.reviews_world "data"
           LabelExamples.labelled_bolt).2 ∧
  model (Classification.load_dataset Examples.reviews_world "data"
           (Classification.load_dataset Examples.reviews_world "data"
              LabelExamples.labelled_bolt).2).2 =
  model (Classification.load_dataset Examples.reviews_world "data"
           LabelExamples.labelled_bolt).2 ∧
  ∃ entries,
    log (Classification.load_dataset Examples.reviews_world "data"
           (Classification.load_dataset Examples.reviews_world "data"
              LabelExamples.labelled_bolt).2).2 =
    log (Classification.load_dataset Examples.reviews_world "data"
           LabelExamples.labelled_bolt).2 ++ entries ∧
    ∀ msg, LogWarning msg ∉ entries.
Proof.
  split; [reflexivity|].
  split; [apply list_elem_of_further, list_elem_of_here|].
  destruct (reload_keeps_labels Examples.reviews_world "data" LabelExamples.labelled_bolt
              ListingExamples.reviews LabelExamples.reviews_index LabelExamples.old_labels
              eq_refl eq_refl eq_refl eq_refl) as (Hmodel & _ & Hlog).
  split; [exact Hmodel | exact Hlog].
Defined.

(** ** Handles after a load *)

Lemma update_labels_handles data st :
  handles (Classification.update_labels data st).2 = handles st.
Proof.
  apply (update_labels_keeps handles); done.
Qed.

(** X19: whatever the directory holds and however the load ends, the
    handles open after [load_dataset] of either bolt are those open before
    and, in front of them, sqlite3 connections only: every file opened by
    the load is closed again, and no handle of the caller is closed. *)
Theorem load_leaves_only_connections t W dataset_path st :
  ∃ hs, Forall is_connection hs ∧
        handles (load_dataset_of t W dataset_path st).2 = hs ++ handles st.
Proof.
  assert (∀ ds, keeps handles (Dataset_map (preparer_of t) (removed_of t ds) ds))
    as Hmap.
  { intros ds. apply keeps_Dataset_map. intros examples.
    destruct t; [by apply keeps_tokenize_function
                |by apply keeps_prepare_train_features]. }
  assert (handles (entry t dataset_path st) = handles st) as Hentry
    by by destruct (entry_fields t dataset_path st) as (_ & _ & -> & _).
  destruct (isfile W (marker_of dataset_path)) eqn:Hmarker.
  - exists []. split; [constructor|]. rewrite load_dataset_snapshot by done.
    match goal with
    | |- context [logged ?f ?x] =>
        destruct (logged_fields f x) as (_ & _ & _ & -> & _)
    end.
    unfold bind, lift. destruct (load_from_disk W dataset_path) as [ds|e].
    + by rewrite Hmap.
    + done.
  - rewrite load_dataset_directory by done.
    match goal with
    | |- context [logged ?f ?x] =>
        destruct (logged_fields f x) as (_ & _ & _ & -> & _)
    end.
    destruct (load_files_of_reads t W dataset_path) as (r & tr & hs & Hhs & Hio).
    exists hs. split; [done|]. unfold bind at 1. rewrite Hio.
    destruct r as [data|e]; [|simpl; by rewrite Hentry].
    match goal with
    | |- handles (bind ?m ?k ?s).2 = _ =>
        assert (keeps handles (bind m k)) as Hrest
    end.
    { apply keeps_bind.
      - destruct t; [by apply update_labels_keeps | apply keeps_ret].
      - intros _. apply keeps_bind; [by apply keeps_call|]. intros ds. apply Hmap. }
    rewrite Hrest. simpl. by rewrite Hentry.
Qed.

(** ** What the pair loader prints *)

Lemma pair_load_split W dataset_path st :
  CommonsenseReasoning.load_dataset W dataset_path st =
  logged (λ e, Stdout "Error loading dataset" e)
    (bind (pair_frame W dataset_path)
       (λ dataset, Dataset_map CommonsenseReasoning.prepare_train_features
                     (column_names dataset) dataset) st).
Proof.
  unfold CommonsenseReasoning.load_dataset.
  rewrite (try_except_logged _ (λ e, Stdout _ e)). f_equal.
  unfold pair_frame, bind.
  destruct (has_marker W dataset_path st) as [[[|]|e] s1]; [| |done].
  - by destruct (call "load_from_disk" dataset_path (load_from_disk W dataset_path) s1)
      as [[dataset|e] s2].
  - destruct (load_files W (CommonsenseReasoning.xml_example W)
                CommonsenseReasoning.query dataset_path s1) as [[data|e] s2]; [|done].
    by destruct (call "Dataset.from_pandas" dataset_path (from_pandas W data) s2)
      as [[dataset|e] s3].
Qed.

Lemma pair_frame_keeps_log W dataset_path : keeps log (pair_frame W dataset_path).
Proof.
  unfold pair_frame. apply keeps_bind; [by apply keeps_call|].
  intros [|]; [by apply keeps_call|].
  apply keeps_bind; [|intros data; by apply keeps_call].
  apply keeps_load_files; [done..|]. by apply keeps_commonsense_xml_example.
Qed.

Lemma prepare_train_features_log examples st :
  preparer_log st (CommonsenseReasoning.prepare_train_features examples st).
Proof.
  unfold CommonsenseReasoning.prepare_train_features, try_except, preparer_log.
  pose proof (keeps_prepare_body log ltac:(done) examples st) as Hbody.
  match goal with
  | |- context [match ?m st with _ => _ end] => destruct (m st) as [[out|e] st']
  end; simpl in *; by rewrite Hbody.
Qed.

Lemma comprehension_prepare_log batches : ∀ st,
  preparer_log st (comprehension CommonsenseReasoning.prepare_train_features batches st).
Proof.
  induction batches as [|examples batches IH]; intros st; simpl; [done|].
  unfold bind at 1. pose proof (prepare_train_features_log examples st) as Hone.
  unfold preparer_log in *.
  destruct (CommonsenseReasoning.prepare_train_features examples st)
    as [[out|e] s1]; simpl in *; [|done].
  unfold bind. specialize (IH s1). rewrite Hone in IH.
  by destruct (comprehension CommonsenseReasoning.prepare_train_features batches s1)
    as [[outs|e] s2].
Qed.

Lemma Dataset_map_prepare_log remove_columns ds st :
  preparer_log st
    (Dataset_map CommonsenseReasoning.prepare_train_features remove_columns ds st).
Proof.
  unfold Dataset_map. case_bool_decide; [done|].
  unfold bind. pose proof (comprehension_prepare_log (batches ds) st) as Hall.
  unfold preparer_log in *.
  by destruct (comprehension CommonsenseReasoning.prepare_train_features (batches ds) st)
    as [[outs|e] s1].
Qed.

(** An exception of a comprehension is the exception of one of its turns. *)
Lemma comprehension_raise {A B} (f : A → M B) xs : ∀ st e,
  (comprehension f xs st).1 = Raise e →
  ∃ x st', x ∈ xs ∧ (f x st').1 = Raise e.
Proof.
  induction xs as [|x xs IH]; intros st e; simpl; [discriminate|].
  unfold bind at 1. destruct (f x st) as [[y|e'] s1] eqn:Hx.
  - unfold bind at 1. specialize (IH s1 e).
    destruct (comprehension f xs s1) as [[ys|e''] s2]; simpl in *; [discriminate|].
    intros He. destruct (IH He) as (x' & st' & Hin & Hraise).
    exists x', st'. split; [by apply list_elem_of_further|done].
  - simpl. intros [= ->]. exists x, st. split; [apply list_elem_of_here|].
    by rewrite Hx.
Qed.

Lemma Dataset_map_raise f remove_columns ds st e :
  (Dataset_map f remove_columns ds st).1 = Raise e →
  ∃ examples st', examples ∈ batches ds ∧ (f examples st').1 = Raise e.
Proof.
  unfold Dataset_map. case_bool_decide; [discriminate|].
  unfold bind. pose proof (comprehension_raise f (batches ds) st e) as Hraise.
  destruct (comprehension f (batches ds) st) as [[outs|e'] s1]; simpl in *;
    [discriminate|]. intros [= ->]. by apply Hraise.
Qed.

(** X20: [load_dataset] of the pair task prints nothing when it returns.
    When getting the dataset (the snapshot, or the frame of the files)
    raises, it prints the one line of its own [except] clause.  When the
    map over the dataset raises, the exception came out of
    [prepare_train_features] on one of the batches, and it is reported
    twice: by the line that function prints and then by the line of the
    loader. *)
Theorem pair_load_prints W dataset_path st :
  log (pair_frame W dataset_path st).2 = log st ∧
  (∀ e, (pair_frame W dataset_path st).1 = Raise e →
     (CommonsenseReasoning.load_dataset W dataset_path st).1 = Raise e ∧
     log (CommonsenseReasoning.load_dataset W dataset_path st).2 =
       log st ++ [Stdout "Error loading dataset" e]) ∧
  (∀ dataset, (pair_frame W dataset_path st).1 = Ok dataset →
     match (Dataset_map CommonsenseReasoning.prepare_train_features
              (column_names dataset) dataset (pair_frame W dataset_path st).2).1 with
     | Ok out =>
         (CommonsenseReasoning.load_dataset W dataset_path st).1 = Ok out ∧
         log (CommonsenseReasoning.load_dataset W dataset_path st).2 = log st
     | Raise e =>
         (∃ examples st', examples ∈ batches dataset ∧
            (CommonsenseReasoning.prepare_train_features examples st').1 = Raise e) ∧
         (CommonsenseReasoning.load_dataset W dataset_path st).1 = Raise e ∧
         log (CommonsenseReasoning.load_dataset W dataset_path st).2 =
           log st ++ [Stdout "Error preparing train features" e;
                      Stdout "Error loading dataset" e]
     end).
Proof.
  pose proof (pair_frame_keeps_log W dataset_path st) as Hframe.
  split; [done|]. rewrite pair_load_split. unfold bind.
  destruct (pair_frame W dataset_path st) as [[dataset|e] s1]; simpl in Hframe.
  - split; [discriminate|]. intros ? [= <-]. simpl.
    pose proof (Dataset_map_prepare_log (column_names dataset) dataset s1) as Hlog.
    pose proof (Dataset_map_raise CommonsenseReasoning.prepare_train_features
                  (column_names dataset) dataset s1) as Hraise.
    unfold preparer_log in Hlog.
    destruct (Dataset_map CommonsenseReasoning.prepare_train_features
                (column_names dataset) dataset s1) as [[out|e] s2]; simpl in *.
    + split; [done|]. by rewrite Hlog.
    + split; [by apply Hraise|]. split; [done|].
      by rewrite Hlog, Hframe, <- app_assoc.
  - split; [|discriminate]. intros ? [= <-]. simpl. by rewrite Hframe.
Qed.

Lemma pair_load_prints_witness :
  ((CommonsenseReasoning.load_dataset Examples.pairs_world "data" Examples.bare_bolt).1 =
     Raise (Exception_ "Tokenizer not initialized") ∧
   log (CommonsenseReasoning.load_dataset Examples.pairs_world "data"
          Examples.bare_bolt).2 =
     log Examples.bare_bolt ++
       [Stdout "Error preparing train features" (Exception_ "Tokenizer not initialized");
        Stdout "Error loading dataset" (Exception_ "Tokenizer not initialized")]) ∧
  ((CommonsenseReasoning.load_dataset Examples.broken_world "data"
      Examples.tokenizer_bolt).1 = Raise (LibraryError "JSONDecodeError" "{") ∧
   log (CommonsenseReasoning.load_dataset Examples.broken_world "data"
          Examples.tokenizer_bolt).2 =
     log Examples.tokenizer_bolt ++
       [Stdout "Error loading dataset" (LibraryError "JSONDecodeError" "{")]).
Proof.
  split.
  - exact (proj2 (proj2 (proj2 (pair_load_prints Examples.pairs_world "data"
                                  Examples.bare_bolt))
                    (Fixture.frame [Fixture.pair "it rains" "it is wet" 1;
                                    Fixture.pair "it rains" "it is dry" 0])
                    eq_refl)).
  - exact (proj1 (proj2 (pair_load_prints Examples.broken_world "data"
                           Examples.tokenizer_bolt))
             (LibraryError "JSONDecodeError" "{") eq_refl).
Defined.

(** ** An empty directory *)

Lemma remove_keys_nil {V} (d : dict string V) : PyDict.remove_keys [] d = d.
Proof.
  unfold PyDict.remove_keys, PyDict.t in *. induction d as [|kv d IH]; [done|].
  rewrite filter_cons. destruct (decide (kv.1 ∉ [])) as [_|Hin].
  - by rewrite IH.
  - destruct Hin. apply not_elem_of_nil.
Qed.

(** X21: a directory without files (and without marker) is not an error for
    the classification loader, even with no tokenizer: when the empty frame
    has no rows it is returned without any call of the tokenizer.  But the
    label maps of the model are replaced by empty dicts. *)
Theorem empty_directory_resets_labels W dataset_path st config ds :
  isfile W (marker_of dataset_path) = false →
  listdir W dataset_path = Ok [] →
  model st = Some config →
  from_pandas W [] = Ok ds →
  num_rows ds = 0%nat →
  (Classification.load_dataset W dataset_path st).1 = Ok ds ∧
  model (Classification.load_dataset W dataset_path st).2 =
    Some {| label2id := Some []; id2label := Some [] |} ∧
  label_to_id (Classification.load_dataset W dataset_path st).2 = Some [] ∧
  trace (Classification.load_dataset W dataset_path st).2 =
    trace st ++ [EvCall "os.path.isfile" (marker_of dataset_path);
                 EvCall "os.listdir" dataset_path;
                 EvCall "Dataset.from_pandas" dataset_path].
Proof.
  intros Hmarker Hlist Hmodel Hframe Hrows.
  change (Classification.load_dataset W dataset_path st)
    with (load_dataset_of TextClassification W dataset_path st).
  rewrite load_dataset_directory by done.
  match goal with
  | |- context [logged _ (bind ?m ?k ?s)] =>
      assert (∃ s', bind m k s = (Ok ds, s') ∧
                    model s' = Some {| label2id := Some []; id2label := Some [] |} ∧
                    label_to_id s' = Some [] ∧
                    trace s' = trace st ++
                      [EvCall "os.path.isfile" (marker_of dataset_path);
                       EvCall "os.listdir" dataset_path;
                       EvCall "Dataset.from_pandas" dataset_path])
        as (s' & -> & Hconfig & Hlabels & Htrace)
  end; [|done].
  simpl load_files_of. unfold load_files.
  unfold Classification.update_labels, Classification.make_label_to_id.
  simpl Classification.enumerate_labels.
  unfold bind, call, lift, modify, gets, ret. rewrite Hlist. simpl.
  rewrite Hmodel, Hframe.
  destruct (Classification.label2id_differs (label2id config) []); simpl;
    rewrite Dataset_map_empty, remove_keys_nil by done;
    eexists; (split; [reflexivity|]); simpl;
    by rewrite <- !app_assoc.
Qed.

Lemma empty_directory_resets_labels_witness :
  isfile LabelExamples.empty_world (marker_of "data") = false ∧
  listdir LabelExamples.empty_world "data" = Ok [] ∧
  (Classification.load_dataset LabelExamples.empty_world "data"
     (Fixture.bolt None (Some LabelExamples.old_labels))).1 = Ok [] ∧
  model (Classification.load_dataset LabelExamples.empty_world "data"
           (Fixture.bolt None (Some LabelExamples.old_labels))).2 =
    Some {| label2id := Some []; id2label := Some [] |}.
Proof.
  split; [reflexivity|]. split; [reflexivity|].
  destruct (empty_directory_resets_labels LabelExamples.empty_world "data"
              (Fixture.bolt None (Some LabelExamples.old_labels))
              LabelExamples.old_labels [] eq_refl eq_refl eq_refl eq_refl eq_refl)
    as (Hresult & Hconfig & _).
  split; [exact Hresult | exact Hconfig].
Defined.

(** ** What a prepared batch holds *)

Lemma comprehension_lookup_inv labels : ∀ col st st',
  comprehension Classification.lookup_label labels st = (Ok col, st') →
  Forall2 (λ label c, ∃ index i, label_to_id st = Some index ∧
                                 PyDict.get index label = Some i ∧ c = VInt i)
          labels col.
Proof.
  induction labels as [|label labels IH]; intros col st st' Hrun; simpl in Hrun.
  - injection Hrun as <- _. constructor.
  - unfold bind at 1 in Hrun. pose proof (lookup_label_state label st) as Hst.
    destruct (Classification.lookup_label label st) as [[c|e] s1] eqn:Hc;
      simpl in Hst; subst s1; [|discriminate Hrun].
    unfold bind at 1 in Hrun.
    destruct (comprehension Classification.lookup_label labels st)
      as [[cs|e] s2] eqn:Hcs; [|discriminate Hrun].
    injection Hrun as <- _. constructor; [|by eapply IH].
    revert Hc. unfold Classification.lookup_label, bind, gets, ret, raise.
    destruct (label_to_id st) as [index|]; [|discriminate].
    destruct (hashable label); [|discriminate].
    destruct (PyDict.get index label) as [i|] eqn:Hi; [|discriminate].
    intros [= <-]. by exists index, i.
Qed.

(** X22: a batch that either preparer returns has a label column with one
    entry per label of the input batch: a tokenizer was set, the input had
    a [label] column, and the output binds [labels] (pair task) to that
    column itself, or [label] (classification) to the ids that
    [self.label_to_id] gives its entries, whatever the tokenizer put under
    that key. *)
Theorem prepared_batch_labels t examples st out :
  (preparer_of t examples st).1 = Ok out →
  ∃ tok labels col,
    tokenizer st = Some tok ∧
    PyDict.get examples "label" = Some labels ∧
    PyDict.get out (label_column t) = Some col ∧
    length col = length labels ∧
    match t with
    | PairReasoning => col = labels
    | TextClassification =>
        Forall2 (λ label c, ∃ index i, label_to_id st = Some index ∧
                                       PyDict.get index label = Some i ∧ c = VInt i)
                labels col
    end.
Proof.
  intros Hrun. destruct t; simpl preparer_of in Hrun; simpl label_column.
  - unfold Classification.tokenize_function in Hrun. rewrite bind_gets in Hrun.
    unfold bind at 1 in Hrun. unfold lift at 1 in Hrun.
    destruct (getitem examples "text") as [text|e]; [|discriminate Hrun].
    destruct (tokenizer st) as [tok|]; [|discriminate Hrun].
    unfold bind at 1 in Hrun. unfold call_tokenizer, bind at 1 in Hrun.
    unfold modify, lift at 1 in Hrun.
    destruct (tok _) as [tokenized_data|e]; [|discriminate Hrun].
    unfold bind at 1 in Hrun. unfold lift, getitem in Hrun.
    destruct (PyDict.get examples "label") as [labels|]; [|discriminate Hrun].
    unfold bind at 1 in Hrun.
    match type of Hrun with
    | context [comprehension ?f ?l ?s] =>
        destruct (comprehension f l s) as [[col|e] s2] eqn:Hcol; [|discriminate Hrun]
    end.
    simpl in Hrun. injection Hrun as <-.
    apply comprehension_lookup_inv in Hcol.
    exists tok, labels, col. split_and!; [done|done|apply get_set_eq| |done].
    symmetry. by eapply Forall2_length.
  - unfold CommonsenseReasoning.prepare_train_features, try_except in Hrun.
    rewrite bind_gets in Hrun.
    destruct (tokenizer st) as [tok|]; [|discriminate Hrun].
    unfold bind at 1 in Hrun. unfold lift at 1 in Hrun.
    destruct (getitem examples "premise") as [premise|e]; [|discriminate Hrun].
    unfold bind at 1 in Hrun. unfold lift at 1 in Hrun.
    destruct (getitem examples "hypothesis") as [hypothesis|e]; [|discriminate Hrun].
    unfold bind at 1 in Hrun. unfold call_tokenizer, bind at 1 in Hrun.
    unfold modify, lift at 1 in Hrun.
    destruct (tok _) as [tokenized_inputs|e]; [|discriminate Hrun].
    unfold bind at 1 in Hrun. unfold lift, getitem in Hrun.
    destruct (PyDict.get examples "label") as [labels|]; [|discriminate Hrun].
    simpl in Hrun. injection Hrun as <-.
    exists tok, labels, labels. split_and!; [done|done|apply get_set_eq|done|done].
Qed.

Lemma prepared_batch_labels_witness :
  ∃ tok labels col,
    tokenizer (set_label_to_id (Some LabelExamples.reviews_index)
                 Examples.tokenizer_bolt) = Some tok ∧
    PyDict.get LabelExamples.seen_batch "label" = Some labels ∧
    PyDict.get (PyDict.set [("input_ids", [VList [110; 111]; VList [121; 101; 115]])]
                  "label" [VInt 1; VInt 2]) "label" = Some col ∧
    length col = length labels ∧
    Forall2 (λ label c, ∃ index i,
               label_to_id (set_label_to_id (Some LabelExamples.reviews_index)
                              Examples.tokenizer_bolt) = Some index ∧
               PyDict.get index label = Some i ∧ c = VInt i)
            labels col.
Proof.
  apply (prepared_batch_labels TextClassification LabelExamples.seen_batch
           (set_label_to_id (Some LabelExamples.reviews_index) Examples.tokenizer_bolt)).
  reflexivity.
Defined.

(** ** The collator of the pair task *)

(** X23: [data_collator] of the pair task returns or raises what
    [DataCollatorWithPadding(self.tokenizer)(examples)] returns or raises,
    also without a tokenizer: it makes no check of its own.  It prints one
    line when the call raises and nothing otherwise, records the one call,
    and leaves the attributes of the bolt and the open handles alone. *)
Theorem data_collator_passes_through {Examples : Type}
    (padding_collator : option Tokenizer → Examples → result batch) examples st :
  (Collation.data_collator padding_collator examples st).1 =
    padding_collator (tokenizer st) examples ∧
  log (Collation.data_collator padding_collator examples st).2 =
    log st ++ match padding_collator (tokenizer st) examples with
              | Ok _ => []
              | Raise e => [Stdout "Error in data collation" e]
              end ∧
  trace (Collation.data_collator padding_collator examples st).2 =
    trace st ++ [EvCall "DataCollatorWithPadding" ""] ∧
  self_of (Collation.data_collator padding_collator examples st).2 = self_of st ∧
  handles (Collation.data_collator padding_collator examples st).2 = handles st.
Proof.
  unfold Collation.data_collator.
  rewrite (try_except_logged _ (λ e, Stdout _ e)), bind_gets.
  unfold call, bind, modify, lift, logged.
  destruct (padding_collator (tokenizer st) examples) as [out|e]; simpl;
    by rewrite ?app_nil_r.
Qed.
